(** * Disease-state transition engine of covid19sim

    A shallow embedding of
    [src/covid19sim/epidemiology/_refactored_symptom_helpers.py]:
    the severity / symptom / disease / phase vocabularies, the value
    classes [Symptoms], [DiseasePhase], [HealthState], [TransitionRule],
    and the rule set with its registration and sampling operations.

    Conventions of the embedding.
    - A Python exception is a value of [exn]; code that can raise returns
      a [result].
    - A [frozenset] / [set] is a [gset], a [defaultdict(set)] a [gmap] to
      [gset]s with the defaulting [__getitem__] written out.
    - A [float] weight is an exact rational ([Qc]); rounding is not
      modelled.
    - A callable is a reference (Python compares functions by identity);
      what a reference computes is given by an interpretation passed to
      the sampling code.
    - Strings are ASCII strings. *)

From Stdlib Require Import Ascii QArith Qcanon.
From stdpp Require Import base decidable countable finite gmap strings list.

Local Open Scope string_scope.

(** ** Exceptions and the error monad *)

(** The exception class that reaches the caller. *)
Inductive pyclass := ValueErrorC | TypeErrorC | AssertionErrorC | IndexErrorC.

(** One constructor per [raise] / [assert] site of the module, plus the
    implicit raises of the interpreter (tuple unpacking, iterating [None])
    and of [numpy.random.RandomState.choice]. *)
Inductive exn :=
| NotAValidSeverity (tok : string)      (* ValueError, Symptoms.make *)
| NotAValidBaseSymptom (tok : string)   (* ValueError, Symptoms.make *)
| NotAValidDisease (tok : string)       (* ValueError, DiseasePhase.make *)
| NotAValidContext (tok : string)       (* ValueError, DiseasePhase.make *)
| ContextNotValidForDisease             (* AssertionError, DiseasePhase.__init__ *)
| ParseTooManyComponents                (* bare ValueError, HealthState.parse *)
| UnpackError                           (* ValueError: wrong number of values to unpack *)
| NoForwardRule                         (* ValueError, sample_next_health_state *)
| ChoiceProbabilitiesNaN                (* ValueError raised inside rng.choice *)
| ChoiceProbabilitiesNegative           (* ValueError raised inside rng.choice *)
| ChoiceProbabilitiesSum                (* ValueError raised inside rng.choice *)
| ChoiceIndexOutOfRange                 (* IndexError inside rng.choice: a sample outside [0, 1) *)
| NoneNotIterable                       (* TypeError: 'NoneType' object is not iterable *)
| BadArgumentType                       (* TypeError, the _validate_* helpers *)
| NotNoneWithAllowNone                  (* AssertionError, _validate_disease_phase *)
| NotAllInstances                       (* AssertionError, assert all(isinstance ...) *)
| MissingSymptoms                       (* AssertionError, from_/to_symptoms is None *)
| MissingDiseasePhase.                  (* AssertionError, at_disease_phase is None *)

Definition exn_class (e : exn) : pyclass :=
  match e with
  | NotAValidSeverity _ | NotAValidBaseSymptom _ | NotAValidDisease _
  | NotAValidContext _ | ParseTooManyComponents | UnpackError
  | NoForwardRule | ChoiceProbabilitiesNaN | ChoiceProbabilitiesNegative
  | ChoiceProbabilitiesSum => ValueErrorC
  | ChoiceIndexOutOfRange => IndexErrorC
  | NoneNotIterable | BadArgumentType => TypeErrorC
  | ContextNotValidForDisease | NotNoneWithAllowNone | NotAllInstances
  | MissingSymptoms | MissingDiseasePhase => AssertionErrorC
  end.

Inductive result (A : Type) :=
| Ok (a : A)
| Raise (e : exn).
Arguments Ok {A} a.
Arguments Raise {A} e.

Global Instance result_ret : MRet result := λ A a, Ok a.
Global Instance result_bind : MBind result := λ A B f m,
  match m with
  | Ok a => f a
  | Raise e => Raise e
  end.

Global Instance result_fmap : FMap result := λ A B f m,
  match m with
  | Ok a => Ok (f a)
  | Raise e => Raise e
  end.

Definition is_Ok {A} (r : result A) : bool :=
  match r with Ok _ => true | Raise _ => false end.

(** [assert cond, msg] *)
Definition assert (cond : bool) (e : exn) : result unit :=
  if cond then Ok () else Raise e.

(** ** Vocabularies *)

Module Severity.
Inductive t := UNDEFINED | MILD | MODERATE | HEAVY | SEVERE | EXTREMELY_SEVERE.

Definition value (s : t) : Z :=
  match s with
  | UNDEFINED => -1
  | MILD => 0
  | MODERATE => 1
  | HEAVY => 2
  | SEVERE => 3
  | EXTREMELY_SEVERE => 4
  end.

Definition name (s : t) : string :=
  match s with
  | UNDEFINED => "UNDEFINED"
  | MILD => "MILD"
  | MODERATE => "MODERATE"
  | HEAVY => "HEAVY"
  | SEVERE => "SEVERE"
  | EXTREMELY_SEVERE => "EXTREMELY_SEVERE"
  end.

(** Iterating the enumeration class: definition order. *)
Definition members : list t :=
  [UNDEFINED; MILD; MODERATE; HEAVY; SEVERE; EXTREMELY_SEVERE].

Global Instance eq_dec : EqDecision t.
Proof. solve_decision. Defined.

Global Program Instance finite : Finite t := {| enum := members |}.
Next Obligation. by apply (bool_decide_unpack _). Qed.
Next Obligation. by intros []; apply (bool_decide_unpack _). Qed.
End Severity.

Module BaseSymptom.
Inductive t :=
| NO_SYMPTOMS | FEVER | CHILLS | GASTRO | DIARRHEA | NAUSEA_VOMITTING
| FATIGUE | UNUSUAL | HARD_TIME_WAKING_UP | HEADACHE | CONFUSED
| LOST_CONSCIOUSNESS | TROUBLE_BREATHING | SNEEZING | COUGH | RUNNY_NOSE
| SORE_THROAT | CHEST_PAIN | LOSS_OF_TASTE | ACHES.

Definition name (s : t) : string :=
  match s with
  | NO_SYMPTOMS => "NO_SYMPTOMS"
  | FEVER => "FEVER"
  | CHILLS => "CHILLS"
  | GASTRO => "GASTRO"
  | DIARRHEA => "DIARRHEA"
  | NAUSEA_VOMITTING => "NAUSEA_VOMITTING"
  | FATIGUE => "FATIGUE"
  | UNUSUAL => "UNUSUAL"
  | HARD_TIME_WAKING_UP => "HARD_TIME_WAKING_UP"
  | HEADACHE => "HEADACHE"
  | CONFUSED => "CONFUSED"
  | LOST_CONSCIOUSNESS => "LOST_CONSCIOUSNESS"
  | TROUBLE_BREATHING => "TROUBLE_BREATHING"
  | SNEEZING => "SNEEZING"
  | COUGH => "COUGH"
  | RUNNY_NOSE => "RUNNY_NOSE"
  | SORE_THROAT => "SORE_THROAT"
  | CHEST_PAIN => "CHEST_PAIN"
  | LOSS_OF_TASTE => "LOSS_OF_TASTE"
  | ACHES => "ACHES"
  end.

Definition members : list t :=
  [NO_SYMPTOMS; FEVER; CHILLS; GASTRO; DIARRHEA; NAUSEA_VOMITTING;
   FATIGUE; UNUSUAL; HARD_TIME_WAKING_UP; HEADACHE; CONFUSED;
   LOST_CONSCIOUSNESS; TROUBLE_BREATHING; SNEEZING; COUGH; RUNNY_NOSE;
   SORE_THROAT; CHEST_PAIN; LOSS_OF_TASTE; ACHES].

Global Instance eq_dec : EqDecision t.
Proof. solve_decision. Defined.

Global Program Instance finite : Finite t := {| enum := members |}.
Next Obligation. by apply (bool_decide_unpack _). Qed.
Next Obligation. by intros []; apply (bool_decide_unpack _). Qed.
End BaseSymptom.

Module CovidContext.
Inductive t := INCUBATION | ONSET | PLATEAU | POST_PLATEAU_1 | POST_PLATEAU_2.
Definition value (c : t) : Z :=
  match c with
  | INCUBATION => 0 | ONSET => 1 | PLATEAU => 2
  | POST_PLATEAU_1 => 3 | POST_PLATEAU_2 => 4
  end.
Definition name (c : t) : string :=
  match c with
  | INCUBATION => "INCUBATION"
  | ONSET => "ONSET"
  | PLATEAU => "PLATEAU"
  | POST_PLATEAU_1 => "POST_PLATEAU_1"
  | POST_PLATEAU_2 => "POST_PLATEAU_2"
  end.
Definition members : list t :=
  [INCUBATION; ONSET; PLATEAU; POST_PLATEAU_1; POST_PLATEAU_2].
Global Instance eq_dec : EqDecision t.
Proof. solve_decision. Defined.
End CovidContext.

Module AllergyContext.
Inductive t := ALLERGY.
Definition value (c : t) : Z := 0.
Definition name (c : t) : string := "ALLERGY".
Definition members : list t := [ALLERGY].
Global Instance eq_dec : EqDecision t.
Proof. solve_decision. Defined.
End AllergyContext.

Module ColdContext.
Inductive t := COLD | COLD_LAST_DAY.
Definition value (c : t) : Z :=
  match c with COLD => 0 | COLD_LAST_DAY => 1 end.
Definition name (c : t) : string :=
  match c with COLD => "COLD" | COLD_LAST_DAY => "COLD_LAST_DAY" end.
Definition members : list t := [COLD; COLD_LAST_DAY].
Global Instance eq_dec : EqDecision t.
Proof. solve_decision. Defined.
End ColdContext.

Module FluContext.
Inductive t := FLU_FIRST_DAY | FLU | FLU_LAST_DAY.
Definition value (c : t) : Z :=
  match c with FLU_FIRST_DAY => 0 | FLU => 1 | FLU_LAST_DAY => 2 end.
Definition name (c : t) : string :=
  match c with
  | FLU_FIRST_DAY => "FLU_FIRST_DAY"
  | FLU => "FLU"
  | FLU_LAST_DAY => "FLU_LAST_DAY"
  end.
Definition members : list t := [FLU_FIRST_DAY; FLU; FLU_LAST_DAY].
Global Instance eq_dec : EqDecision t.
Proof. solve_decision. Defined.
End FluContext.

(** A [DiseaseContext] object is a member of one of the four concrete
    subclasses. *)
Module DiseaseContext.
Inductive t :=
| Covid (c : CovidContext.t)
| Allergy (c : AllergyContext.t)
| Cold (c : ColdContext.t)
| Flu (c : FluContext.t).

Definition value (c : t) : Z :=
  match c with
  | Covid c => CovidContext.value c
  | Allergy c => AllergyContext.value c
  | Cold c => ColdContext.value c
  | Flu c => FluContext.value c
  end.

Definition name (c : t) : string :=
  match c with
  | Covid c => CovidContext.name c
  | Allergy c => AllergyContext.name c
  | Cold c => ColdContext.name c
  | Flu c => FluContext.name c
  end.

Global Instance eq_dec : EqDecision t.
Proof. solve_decision. Defined.

Definition all : list t :=
  (Covid <$> CovidContext.members) ++ (Allergy <$> AllergyContext.members)
  ++ (Cold <$> ColdContext.members) ++ (Flu <$> FluContext.members).

Global Program Instance finite : Finite t := {| enum := all |}.
Next Obligation. by apply (bool_decide_unpack _). Qed.
Next Obligation. by intros [[]|[]|[]|[]]; apply (bool_decide_unpack _). Qed.
End DiseaseContext.

Module Disease.
Inductive t := COVID | ALLERGY | COLD | FLU.

Definition name (d : t) : string :=
  match d with
  | COVID => "COVID" | ALLERGY => "ALLERGY" | COLD => "COLD" | FLU => "FLU"
  end.

Definition members : list t := [COVID; ALLERGY; COLD; FLU].

(** [disease.value]: the context class owned by the disease, given by
    the list of its members in definition order. *)
Definition value (d : t) : list DiseaseContext.t :=
  match d with
  | COVID => DiseaseContext.Covid <$> CovidContext.members
  | ALLERGY => DiseaseContext.Allergy <$> AllergyContext.members
  | COLD => DiseaseContext.Cold <$> ColdContext.members
  | FLU => DiseaseContext.Flu <$> FluContext.members
  end.

Global Instance eq_dec : EqDecision t.
Proof. solve_decision. Defined.

Global Program Instance finite : Finite t := {| enum := members |}.
Next Obligation. by apply (bool_decide_unpack _). Qed.
Next Obligation. by intros []; apply (bool_decide_unpack _). Qed.
End Disease.

(** ** Strings *)

Module Str.
(** [str.upper], on ASCII letters. *)
Definition upper_ascii (c : ascii) : ascii :=
  let n := Ascii.N_of_ascii c in
  if ((97 <=? n) && (n <=? 122))%N then Ascii.ascii_of_N (n - 32) else c.

Fixpoint upper (s : string) : string :=
  match s with
  | EmptyString => EmptyString
  | String c s' => String (upper_ascii c) (upper s')
  end.

Fixpoint is_prefix (p s : string) : bool :=
  match p, s with
  | EmptyString, _ => true
  | String a p', String b s' => bool_decide (a = b) && is_prefix p' s'
  | String _ _, EmptyString => false
  end.

(** [s.split(sep)] for a non-empty [sep]: the text is cut at the
    leftmost, non-overlapping occurrences of [sep].  [skip] counts the
    characters of a matched separator that remain to be dropped, [cur]
    is the piece read so far. *)
Fixpoint split_go (sep : string) (skip : nat) (cur : string) (s : string)
  : list string :=
  match s with
  | EmptyString => [cur]
  | String c s' =>
      match skip with
      | S k => split_go sep k cur s'
      | O =>
          if is_prefix sep s
          then cur :: split_go sep (String.length sep - 1) EmptyString s'
          else split_go sep 0 (cur +:+ String c EmptyString) s'
      end
  end.

Definition split (sep : string) (s : string) : list string :=
  split_go sep 0 EmptyString s.

(** [sep.join(l)] *)
Fixpoint join (sep : string) (l : list string) : string :=
  match l with
  | [] => EmptyString
  | [x] => x
  | x :: l' => x +:+ sep +:+ join sep l'
  end.

(** [has_char c s]: the character [c] occurs in [s]. *)
Fixpoint has_char (c : ascii) (s : string) : bool :=
  match s with
  | EmptyString => false
  | String a s' => bool_decide (a = c) || has_char c s'
  end.

(** [sep in s]: the text [sep] occurs in [s]. *)
Fixpoint occurs (sep s : string) : bool :=
  is_prefix sep s
  || match s with
     | EmptyString => false
     | String _ s' => occurs sep s'
     end.

(** [getattr(cls, name, None)] on an enumeration class whose members
    are [members]: the member called [name], if any.  (The classes have
    no other attribute whose name is free of lower-case letters.) *)
Definition getattr {A} (name_of : A → string) (members : list A)
    (name : string) : option A :=
  List.find (λ m, bool_decide (name_of m = name)) members.
End Str.

(** [Union[str, List[str]]] *)
Inductive tokens :=
| Tok (s : string)
| Toks (l : list string).

(** [[x] if isinstance(x, str) else list(x)] *)
Definition tokens_list (x : tokens) : list string :=
  match x with
  | Tok s => [s]
  | Toks l => l
  end.

(** [l * n] on lists. *)
Definition list_times {A} (l : list A) (n : nat) : list A :=
  mjoin (replicate n l).

(** ** Value classes *)

Module Symptoms.
Record t := Build { severity : Severity.t; base_symptom : BaseSymptom.t }.

Global Instance eq_dec : EqDecision t.
Proof. solve_decision. Defined.

Global Instance countable : Countable t.
Proof.
  refine (inj_countable' (λ s, (severity s, base_symptom s))
                         (λ p, Build p.1 p.2) _).
  by intros [].
Defined.

(** [product(Severity, BaseSymptom)], severity-major. *)
Definition get_all_possible_symptoms : list t :=
  sev ← Severity.members; sym ← BaseSymptom.members; [Build sev sym].

Definition str (self : t) : string :=
  Severity.name (severity self) +:+ " " +:+ BaseSymptom.name (base_symptom self).

Definition make (severity base_symptom : string) : result t :=
  match Str.getattr Severity.name Severity.members (Str.upper severity) with
  | None => Raise (NotAValidSeverity severity)
  | Some severity_ =>
      match Str.getattr BaseSymptom.name BaseSymptom.members
              (Str.upper base_symptom) with
      | None => Raise (NotAValidBaseSymptom base_symptom)
      | Some base_symptom_ => Ok (Build severity_ base_symptom_)
      end
  end.
End Symptoms.

Module DiseasePhase.
Record t := Build { disease : Disease.t; context : DiseaseContext.t }.

Global Instance eq_dec : EqDecision t.
Proof. solve_decision. Defined.

Global Instance countable : Countable t.
Proof.
  refine (inj_countable' (λ p, (disease p, context p))
                         (λ p, Build p.1 p.2) _).
  by intros [].
Defined.

(** [self.context in self.disease.value]: the context is a member of
    the enumeration class that the disease owns (the membership test
    of [EnumMeta] is by class, as the docstring's
    [DiseasePhase(Disease.COVID, ColdContext.COLD)] example requires). *)
Definition is_valid (self : t) : bool :=
  bool_decide (context self ∈ Disease.value (disease self)).

(** [DiseasePhase(disease, context)] *)
Definition init (disease : Disease.t) (context : DiseaseContext.t) : result t :=
  let self := Build disease context in
  _ ← assert (is_valid self) ContextNotValidForDisease;
  Ok self.

(** The (disease, context) pairs the enumerator runs through. *)
Definition all_pairs : list (Disease.t * DiseaseContext.t) :=
  disease ← Disease.members; context ← Disease.value disease; [(disease, context)].

Definition get_all_possible_disease_phases : result (list t) :=
  mapM (λ p, init p.1 p.2) all_pairs.

Definition str (self : t) : string :=
  Disease.name (disease self) +:+ " (" +:+ DiseaseContext.name (context self) +:+ ")".

Definition make (disease context : string) : result t :=
  match Str.getattr Disease.name Disease.members (Str.upper disease) with
  | None => Raise (NotAValidDisease disease)
  | Some disease_ =>
      match Str.getattr DiseaseContext.name (Disease.value disease_)
              (Str.upper context) with
      | None => Raise (NotAValidContext context)
      | Some context_ => init disease_ context_
      end
  end.
End DiseasePhase.

Module HealthState.
Record t := Build { symptoms : gset Symptoms.t; disease_phase : DiseasePhase.t }.

Global Instance eq_dec : EqDecision t.
Proof. solve_decision. Defined.

Global Instance countable : Countable t.
Proof.
  refine (inj_countable' (λ h, (symptoms h, disease_phase h))
                         (λ p, Build p.1 p.2) _).
  by intros [].
Defined.

(** [HealthState(symptoms, disease_phase)] with an iterable of symptoms. *)
Definition init (symptoms : list Symptoms.t) (disease_phase : DiseasePhase.t) : t :=
  Build (list_to_set symptoms) disease_phase.

(** [HealthState(symptoms, disease_phase)] with a single [Symptoms]. *)
Definition init_single (symptoms : Symptoms.t) (disease_phase : DiseasePhase.t) : t :=
  Build {[ symptoms ]} disease_phase.

(** [__str__]; the frozenset is iterated in the order of [elements]. *)
Definition str (self : t) : string :=
  let symptom_description :=
    if bool_decide (size (symptoms self) = 1)
    then match elements (symptoms self) with
         | symptom :: _ => Symptoms.str symptom
         | [] => EmptyString
         end
    else Str.join ", " (Symptoms.str <$> elements (symptoms self)) in
  symptom_description +:+ " at " +:+ DiseasePhase.str (disease_phase self).

Definition make (severity base_symptom : tokens) (disease context : string)
  : result t :=
  let severity := tokens_list severity in
  let base_symptom := tokens_list base_symptom in
  let severity :=
    if bool_decide (length severity = 1)
    then list_times severity (length severity `max` length base_symptom)
    else severity in
  let base_symptom :=
    if bool_decide (length base_symptom = 1)
    then list_times base_symptom (length severity `max` length base_symptom)
    else base_symptom in
  symptoms ← mapM (λ p, Symptoms.make p.1 p.2) (zip severity base_symptom);
  disease_phase ← DiseasePhase.make disease context;
  Ok (init symptoms disease_phase).

(** One iteration of the loop over [all_symptom_desc]. *)
Definition parse_symptom_desc (symptom_desc : string) : result (string * string) :=
  match Str.split " " symptom_desc with
  | [sev; sym] => Ok (sev, sym)
  | [sym] => Ok ("undefined", sym)
  | _ => Raise ParseTooManyComponents
  end.

Definition parse (desc : string) : result t :=
  match Str.split " at " desc with
  | [symptoms_desc; disease_desc] =>
      let all_symptom_desc := Str.split ", " symptoms_desc in
      parsed_symptom_descs ← mapM parse_symptom_desc all_symptom_desc;
      match parsed_symptom_descs with
      | [] => Raise UnpackError
      | _ :: _ =>
          let severity := parsed_symptom_descs.*1 in
          let base_symptom := parsed_symptom_descs.*2 in
          match Str.split " " disease_desc with
          | [disease; context] =>
              make (Toks severity) (Toks base_symptom) disease context
          | _ => Raise UnpackError
          end
      end
  | _ => Raise UnpackError
  end.
End HealthState.

(** ** Transition rules *)

(** A function object, compared by identity. *)
Definition Callable := nat.

Module TransitionRule.
Record t := Build {
  from_health_state : HealthState.t;
  to_health_state : HealthState.t;
  proba_score_value : option Qc;
  proba_fn : option Callable;
  proba_default : Qc
}.

(** The dataclass-generated [__eq__]: all five fields. *)
Global Instance eq_dec : EqDecision t.
Proof. solve_decision. Defined.

Global Instance countable : Countable t.
Proof.
  refine (inj_countable'
            (λ r, (from_health_state r, to_health_state r,
                   proba_score_value r, proba_fn r, proba_default r))
            (λ p, Build p.1.1.1.1 p.1.1.1.2 p.1.1.2 p.1.2 p.2) _).
  by intros [].
Defined.

(** [TransitionRule(from_health_state=..., to_health_state=...,
    proba_score_value=..., proba_fn=...)]; [proba_default] keeps its
    default [0.0]. *)
Definition init (from_health_state to_health_state : HealthState.t)
    (proba_score_value : option Qc) (proba_fn : option Callable) : t :=
  Build from_health_state to_health_state proba_score_value proba_fn 0%Qc.

(** The tuple that [__hash__] hashes. *)
Definition hash_key (self : t) : HealthState.t * HealthState.t :=
  (from_health_state self, to_health_state self).

Section get_proba.
Context {Kwargs : Type}.
(** [call f rule kwargs] is the value of [f(rule, **kwargs)]. *)
Variable call : Callable → t → Kwargs → Qc.

Definition get_proba (self : t) (proba_fn_kwargs : Kwargs) : Qc :=
  match proba_fn self with
  | Some f => call f self proba_fn_kwargs
  | None =>
      match proba_score_value self with
      | Some v => v
      | None => proba_default self
      end
  end.
End get_proba.
End TransitionRule.

(** ** Dynamically typed arguments *)

(** An element of an iterable argument: an instance of the expected class
    or an object of another type. *)
Inductive item (A : Type) :=
| Inst (a : A)
| Foreign.
Arguments Inst {A} a.
Arguments Foreign {A}.

Inductive WildCards := ALL_HEALTH_STATES | ALL_SYMPTOMS | ALL_DISEASE_PHASES.

(** An argument that is expected to be [None], a wildcard, an instance of
    [A] or an iterable of such instances; [ArgOther] is any other,
    non-iterable object. *)
Inductive arg (A : Type) :=
| ArgNone
| ArgWild (w : WildCards)
| ArgOne (a : A)
| ArgIter (l : list (item A))
| ArgOther.
Arguments ArgNone {A}.
Arguments ArgWild {A} w.
Arguments ArgOne {A} a.
Arguments ArgIter {A} l.
Arguments ArgOther {A}.

Definition is_None {A} (x : arg A) : bool :=
  match x with ArgNone => true | _ => false end.

(** [all([isinstance(x, A) for x in l])], with the instances when it holds. *)
Fixpoint instances {A} (l : list (item A)) : option (list A) :=
  match l with
  | [] => Some []
  | Inst a :: l' => (a ::.) <$> instances l'
  | Foreign :: _ => None
  end.

(** [assert all([isinstance(x, A) for x in l]), ...; return l] *)
Definition assert_all_instances {A} (l : list (item A)) : result (list A) :=
  match instances l with
  | Some l' => Ok l'
  | None => Raise NotAllInstances
  end.

(** ** The rule set *)

Module TransitionRuleSet.

(** [self.rule_set], a [defaultdict(set)]. *)
Abbreviation t := (gmap HealthState.t (gset TransitionRule.t)).

(** [TransitionRuleSet()] *)
Definition init : t := ∅.

(** [d[k]] on a [defaultdict(set)]: a missing key is first bound to a
    fresh empty set. *)
Definition defaultdict_getitem (d : t) (k : HealthState.t)
  : gset TransitionRule.t * t :=
  match d !! k with
  | Some v => (v, d)
  | None => (∅, <[k := ∅]> d)
  end.

(** The rules stored under a key (without touching the mapping). *)
Definition outgoing (self : t) (k : HealthState.t) : gset TransitionRule.t :=
  default ∅ (self !! k).

(** Number of stored rules. *)
Definition rule_count (self : t) : nat :=
  map_fold (λ _ rules n, size rules + n) 0 self.

Definition add_rule (self : t) (transition_rule : TransitionRule.t) : t :=
  let k := TransitionRule.from_health_state transition_rule in
  let '(rules, d) := defaultdict_getitem self k in
  <[k := rules ∪ {[ transition_rule ]}]> d.

Definition _validate_disease_phase (disease_phase : arg DiseasePhase.t)
    (allow_none : bool) : result (list DiseasePhase.t) :=
  match disease_phase with
  | ArgWild ALL_DISEASE_PHASES => DiseasePhase.get_all_possible_disease_phases
  | ArgIter l => assert_all_instances l
  | ArgOne dp => Ok [dp]
  | ArgNone =>
      (* with [allow_none] the assertion passes, and the final
         [for dp in disease_phase] iterates [None] *)
      if allow_none then Raise NoneNotIterable else Raise BadArgumentType
  | ArgWild _ | ArgOther =>
      if allow_none then Raise NotNoneWithAllowNone else Raise BadArgumentType
  end.

Definition _validate_symptoms (symptoms : arg Symptoms.t)
  : result (list Symptoms.t) :=
  match symptoms with
  | ArgWild ALL_SYMPTOMS => Ok Symptoms.get_all_possible_symptoms
  | ArgIter l => assert_all_instances l
  | ArgOne s => Ok [s]
  | ArgNone | ArgWild _ | ArgOther => Raise BadArgumentType
  end.

Definition _validate_health_state (health_state : arg HealthState.t)
  : result (list HealthState.t) :=
  match health_state with
  | ArgIter l => assert_all_instances l
  | ArgOne hs => Ok [hs]
  | ArgNone | ArgWild _ | ArgOther => Raise BadArgumentType
  end.

Definition _validate_transition_rule (transition_rule : arg TransitionRule.t)
  : result (list TransitionRule.t) :=
  match transition_rule with
  | ArgIter l => assert_all_instances l
  | ArgOne r => Ok [r]
  | ArgNone | ArgWild _ | ArgOther => Raise BadArgumentType
  end.

(** Lines 346-355: which phases the [from] side is built at.
    [at_disease_phase] is the shared phase as the branch finds it:
    [Some l] once line 333 has validated it into the list [l], [None]
    when that line was skipped. *)
Definition from_phases (at_disease_phase : option (list DiseasePhase.t))
    (from_disease_phase : arg DiseasePhase.t) : result (list DiseasePhase.t) :=
  if is_None from_disease_phase then
    match at_disease_phase with
    | Some l => Ok l
    | None => Raise MissingDiseasePhase
    end
  else _validate_disease_phase from_disease_phase false.

(** Lines 373-385: which phases the [to] side is built at.  When
    [to_disease_phase] is [None] it is left as it is and the
    comprehension of line 383 iterates [None]; when it is given, line
    379 validates [at_disease_phase] in its place. *)
Definition to_phases (at_disease_phase : option (list DiseasePhase.t))
    (to_disease_phase : arg DiseasePhase.t) : result (list DiseasePhase.t) :=
  if is_None to_disease_phase then
    match at_disease_phase with
    | Some _ => Raise NoneNotIterable
    | None => Raise MissingDiseasePhase
    end
  else
    match at_disease_phase with
    | Some l => _validate_disease_phase (ArgIter (Inst <$> l)) false
    | None => Raise BadArgumentType
    end.

(** The [from] side of [add_transition_rule] (lines 337-362). *)
Definition from_side (from_health_state : arg HealthState.t)
    (from_symptoms : arg Symptoms.t)
    (at_disease_phase : option (list DiseasePhase.t))
    (from_disease_phase : arg DiseasePhase.t) : result (list HealthState.t) :=
  if is_None from_health_state then
    _ ← assert (negb (is_None from_symptoms)) MissingSymptoms;
    from_symptoms ← _validate_symptoms from_symptoms;
    from_disease_phase ← from_phases at_disease_phase from_disease_phase;
    Ok (fmap (M:=list) (λ disease_phase,
          HealthState.init from_symptoms disease_phase) from_disease_phase)
  else _validate_health_state from_health_state.

(** The [to] side (lines 365-388). *)
Definition to_side (to_health_state : arg HealthState.t)
    (to_symptoms : arg Symptoms.t)
    (at_disease_phase : option (list DiseasePhase.t))
    (to_disease_phase : arg DiseasePhase.t) : result (list HealthState.t) :=
  if is_None to_health_state then
    _ ← assert (negb (is_None to_symptoms)) MissingSymptoms;
    to_symptoms ← _validate_symptoms to_symptoms;
    to_disease_phase ← to_phases at_disease_phase to_disease_phase;
    Ok (fmap (M:=list) (λ disease_phase,
          HealthState.init to_symptoms disease_phase) to_disease_phase)
  else _validate_health_state to_health_state.

(** Line 333, run when one of the two health states is missing. *)
Definition shared_phases (from_health_state to_health_state : arg HealthState.t)
    (at_disease_phase : arg DiseasePhase.t)
  : result (option (list DiseasePhase.t)) :=
  if is_None from_health_state || is_None to_health_state
  then Some <$> _validate_disease_phase at_disease_phase true
  else Ok None.

(** Lines 392-402: one rule per pair of [product(from, to)]. *)
Definition make_rules (from_health_state to_health_state : list HealthState.t)
    (proba_score_value : option Qc) (proba_fn : option Callable)
  : list TransitionRule.t :=
  _from_health_state ← from_health_state;
  _to_health_state ← to_health_state;
  [TransitionRule.init _from_health_state _to_health_state
     proba_score_value proba_fn].

Definition add_transition_rule (self : t)
    (transition_rule : arg TransitionRule.t)
    (from_health_state to_health_state : arg HealthState.t)
    (from_symptoms to_symptoms : arg Symptoms.t)
    (at_disease_phase from_disease_phase to_disease_phase : arg DiseasePhase.t)
    (proba_score_value : option Qc) (proba_fn : option Callable)
  : result t :=
  transition_rule ←
    (if is_None transition_rule then
       at_disease_phase ←
         shared_phases from_health_state to_health_state at_disease_phase;
       from_health_state ←
         from_side from_health_state from_symptoms at_disease_phase
           from_disease_phase;
       to_health_state ←
         to_side to_health_state to_symptoms at_disease_phase
           to_disease_phase;
       Ok (make_rules from_health_state to_health_state
             proba_score_value proba_fn)
     else _validate_transition_rule transition_rule);
  Ok (foldl add_rule self transition_rule).

Section sampling.
Context {Kwargs Rng : Type}.
(** [call f rule kwargs] is the value of [f(rule, **kwargs)]. *)
Variable call : Callable → TransitionRule.t → Kwargs → Qc.
(** [rng.random_sample()]: the next uniform sample in [0, 1) and the
    advanced generator. *)
Variable random_sample : Rng → Qc * Rng.

Definition sum_Qc (l : list Qc) : Qc := foldr Qcplus 0%Qc l.

(** [next_state_probas / next_state_probas.sum()].  [None] stands for
    the array of nan and infinite entries that numpy produces, with a
    warning only, when the sum is zero. *)
Definition normalize (probas : list Qc) : option (list Qc) :=
  let total := sum_Qc probas in
  if bool_decide (total = 0%Qc) then None
  else Some ((λ x, (x / total)%Qc) <$> probas).

(** [p.cumsum()] *)
Fixpoint cumsum (acc : Qc) (p : list Qc) : list Qc :=
  match p with
  | [] => []
  | x :: p' => (acc + x)%Qc :: cumsum (acc + x)%Qc p'
  end.

(** [cdf.searchsorted(u, side='right')] on a non-decreasing [cdf]:
    the number of leading entries that are [<= u]. *)
Fixpoint searchsorted_right (cdf : list Qc) (u : Qc) : nat :=
  match cdf with
  | [] => 0
  | x :: cdf' =>
      if bool_decide (x ≤ u)%Qc then S (searchsorted_right cdf' u) else 0
  end.

(** [rng.choice(a, p=p)] of [numpy.random.RandomState], for a
    non-empty one-dimensional [a]: the probabilities are checked (no
    NaN, none negative, sum 1), then one uniform sample selects the
    entry by inverting the cumulative distribution.  A rejected [p]
    leaves the generator as it was. *)
Definition choice {A} (rng : Rng) (a : list A) (p : option (list Qc))
  : result A * Rng :=
  match p with
  | None => (Raise ChoiceProbabilitiesNaN, rng)
  | Some p =>
      if existsb (λ x, bool_decide (x < 0)%Qc) p
      then (Raise ChoiceProbabilitiesNegative, rng)
      else if bool_decide (sum_Qc p = 1%Qc) then
        let '(u, rng') := random_sample rng in
        match a !! searchsorted_right (cumsum 0%Qc p) u with
        | Some x => (Ok x, rng')
        | None => (Raise ChoiceIndexOutOfRange, rng')
        end
      else (Raise ChoiceProbabilitiesSum, rng)
  end.

(** Returns the outcome of the call together with the rule set and
    the generator as the call leaves them.  The set of rules is
    iterated in the order of [elements]. *)
Definition sample_next_health_state (self : t)
    (current_health_state : HealthState.t) (rng : Rng)
    (proba_fn_kwargs : Kwargs) : result HealthState.t * t * Rng :=
  match self !! current_health_state with
  | None => (Raise NoForwardRule, self, rng)
  | Some _ =>
      let '(rules, self) := defaultdict_getitem self current_health_state in
      let pairs :=
        (λ transition_rule,
           (TransitionRule.to_health_state transition_rule,
            TransitionRule.get_proba call transition_rule proba_fn_kwargs))
          <$> elements rules in
      match pairs with
      | [] => (Raise UnpackError, self, rng)
      | _ :: _ =>
          let candidate_next_health_states := pairs.*1 in
          let next_state_probas := pairs.*2 in
          let next_state_probas := normalize next_state_probas in
          let '(next_health_state, rng) :=
            choice rng candidate_next_health_states next_state_probas in
          (next_health_state, self, rng)
      end
  end.
End sampling.
End TransitionRuleSet.

(** ** The tracing settings ([src/covid19sim/tracing.py])

    [Tracing.__init__] reads its settings from a configuration
    dictionary.  The values of the dictionary are Python objects, of
    which the model keeps [None], booleans, integers, floats (as exact
    rationals), strings and tuples.  The three intervention classes are
    external; an intervention object is represented by the call that
    builds it.  [BIG_NUMBER] comes from [covid19sim.constants] and is a
    parameter of the constructor. *)

Module Tracing.
#[local] Unset Elimination Schemes.
Inductive pyval :=
| VNone
| VBool (b : bool)
| VInt (n : Z)
| VFloat (q : Qc)
| VStr (s : string)
| VTuple (l : list pyval).
#[local] Set Elimination Schemes.

(** [bool(v)] *)
Definition truthy (v : pyval) : bool :=
  match v with
  | VNone => false
  | VBool b => b
  | VInt n => negb (n =? 0)%Z
  | VFloat q => negb (bool_decide (q = 0%Qc))
  | VStr s => negb (bool_decide (s = EmptyString))
  | VTuple l => match l with [] => false | _ :: _ => true end
  end.

(** [v == s] for a string literal [s] *)
Definition eq_str (v : pyval) (s : string) : bool :=
  match v with
  | VStr s' => bool_decide (s' = s)
  | _ => false
  end.

(** [conf.get(key)] *)
Definition conf_get (conf : gmap string pyval) (key : string) : pyval :=
  default VNone (conf !! key).

Inductive exn :=
| TraceSymptomsByPhone   (* AssertionError, line 82 *)
| TraceRiskByPhone       (* AssertionError, line 83 *)
| MinNotComparable.      (* TypeError raised by min(3, max_depth) *)

Inductive intervention :=
| BinaryTracing
| HeuristicRecommendations (version : Z) (conf : gmap string pyval)
| RiskBasedRecommendations.

(** [min(3, v)]: [v] when [v < 3], else [3]; a [bool] is an integer,
    [None], strings and tuples do not compare with an integer. *)
Definition min_3 (v : pyval) : exn + pyval :=
  match v with
  | VInt n => inr (if (n <? 3)%Z then VInt n else VInt 3)
  | VBool b => inr (VBool b)
  | VFloat q => inr (if bool_decide (q < Q2Qc 3)%Qc then VFloat q else VInt 3)
  | VNone | VStr _ | VTuple _ => inl MinNotComparable
  end.

(** The attributes of a [Tracing] object.  [propage_risk_max_depth] is
    the attribute that line 91 sets; it exists only when that line has
    run. *)
Record t := Build {
  risk_model : pyval;
  intervention_ : intervention;
  max_depth : pyval;
  propagate_symptoms : pyval;
  propagate_risk : pyval;
  propagate_postive_test : bool;
  should_modify_behavior : pyval;
  p_contact : pyval;
  delay : Z;
  app : bool;
  propagate_risk_max_depth : pyval;
  propage_risk_max_depth : option pyval
}.

(** Lines 62-70. *)
Definition choose_intervention (risk_model : pyval) (conf : gmap string pyval)
  : intervention :=
  if eq_str risk_model "manual" || eq_str risk_model "digital"
  then BinaryTracing
  else if eq_str risk_model "heuristicv1" then HeuristicRecommendations 1 conf
  else if eq_str risk_model "heuristicv2" then HeuristicRecommendations 2 conf
  else RiskBasedRecommendations.

(** Lines 88-91: the value that line 91 stores, when it runs. *)
Definition capped_depth (risk max_depth : pyval) : exn + option pyval :=
  if truthy risk then
    match min_3 max_depth with
    | inl e => inl e
    | inr v => inr (Some v)
    end
  else inr None.

(** [Tracing(conf)] *)
Definition init (BIG_NUMBER : pyval) (conf : gmap string pyval) : exn + t :=
  let risk_model := conf_get conf "RISK_MODEL" in
  let max_depth := conf_get conf "TRACING_ORDER" in
  let symptoms := conf_get conf "TRACE_SYMPTOMS" in
  let risk := conf_get conf "TRACE_RISK_UPDATE" in
  (* the trailing comma of line 59 makes a one-element tuple *)
  let should_modify_behavior := VTuple [conf_get conf "SHOULD_MODIFY_BEHAVIOR"] in
  let intervention := choose_intervention risk_model conf in
  let manual := eq_str risk_model "manual" in
  if manual && truthy symptoms then inl TraceSymptomsByPhone
  else if manual && truthy risk then inl TraceRiskByPhone
  else
    let p_contact :=
      if manual then conf_get conf "MANUAL_TRACING_P_CONTACT" else VInt 1 in
    let delay := if manual then 1%Z else 0%Z in
    let app := negb manual in
    match capped_depth risk max_depth with
    | inl e => inl e
    | inr capped =>
        let transformer := eq_str risk_model "transformer" in
        inr (Build risk_model intervention max_depth
               (if transformer then VBool false else symptoms)
               (if transformer then VBool false else risk)
               true should_modify_behavior p_contact delay app
               (if transformer then BIG_NUMBER else max_depth)
               capped)
    end.

(** [get_recommendations(human)]; [recommend] stands for the
    [get_recommendations] method of the intervention classes, [[]] is
    the empty list of recommendations. *)
Definition get_recommendations {Human Rec : Type}
    (recommend : intervention → Human → list Rec)
    (self : t) (human : Human) : list Rec :=
  if truthy (should_modify_behavior self)
  then recommend (intervention_ self) human
  else [].
(** *** Risk from the contact book (lines 109-211)

    The contact book, the humans and the intervention classes belong to
    other modules: their calls are parameters, and a call either returns
    or raises an exception of theirs.  The contact book returns its
    counts as a dictionary from the order of a contact to a number of
    contacts, here the list of its items.  [np_exp] stands for [np.exp]
    at an integer. *)

Inductive risk_exn (E : Type) :=
| NeverInHere                (* AssertionError, lines 135 and 191 *)
| MissingSomething           (* AssertionError, lines 136 and 192 *)
| ManualTracingIsDead        (* NotImplementedError, line 141 *)
| RiskCountsNotImplemented   (* NotImplementedError, line 171 *)
| UnboundLocal (name : string) (* UnboundLocalError *)
| UnsupportedOperand         (* TypeError of [1.0 - v] *)
| IntTooLarge                (* OverflowError of [1.0 - v] *)
| External (e : E).          (* raised by a call into another module *)
Arguments NeverInHere {E}.
Arguments MissingSomething {E}.
Arguments ManualTracingIsDead {E}.
Arguments RiskCountsNotImplemented {E}.
Arguments UnboundLocal {E} name.
Arguments UnsupportedOperand {E}.
Arguments IntTooLarge {E}.
Arguments External {E} e.

(** A risk as an intervention returns it: [isinstance(risk, list)] or
    not. *)
Inductive risk :=
| RiskList (l : list pyval)
| RiskScalar (v : pyval).

(** [v in l] for a list [l] of string literals *)
Definition in_strs (v : pyval) (l : list string) : bool := existsb (eq_str v) l.

(** The models that lines 136 and 192 accept. *)
Definition known_models : list string :=
  ["manual"; "digital"; "naive"; "heuristicv1"; "heuristicv2"; "other"].

(** [1.0 - v]: a number is needed, and an integer has to fit a float. *)
Definition float_minus {E} (v : pyval) : risk_exn E + Qc :=
  match v with
  | VBool b => inr (1 - (if b then 1 else 0))%Qc
  | VInt n =>
      if (Z.abs n <? 2 ^ 1024 - 2 ^ 970)%Z then inr (1 - Qc_of_Z n)%Qc
      else inl IntTooLarge
  | VFloat q => inr (1 - q)%Qc
  | VNone | VStr _ | VTuple _ => inl UnsupportedOperand
  end.

Section risk.
Context {Human Mailbox HumansMap E : Type}.

(** [human.contact_book.get_positive_contacts_counts(humans_map=...,
    tracing_delay=..., tracing_probability=..., max_order=..., ...)],
    the delay in days *)
Variable get_positive_contacts_counts :
  Human → HumansMap → Z → pyval → pyval → E + list (Z * Z).

(** [human.contact_book.get_symptomatic_contacts_counts(humans_map=...,
    max_order=...)] *)
Variable get_symptomatic_contacts_counts :
  Human → HumansMap → pyval → E + list (Z * Z).

(** [intervention.compute_risk(human, mailbox)] *)
Variable intervention_compute_risk :
  intervention → Human → Mailbox → E + risk.

(** [human.conf] *)
Variable human_conf : Human → gmap string pyval.

Variable np_exp : Z → Qc.

(** [for order, count in counts.items(): t += count * np.exp(-2*(order-1))] *)
Definition discounted (t : Qc) (counts : list (Z * Z)) : Qc :=
  foldl (λ t oc, t + Qc_of_Z oc.2 * np_exp (-2 * (oc.1 - 1)))%Qc t counts.

Definition _get_hypothetical_contact_tracing_results
    (self : t) (human : Human) (mailbox : Mailbox) (humans_map : HumansMap)
  : risk_exn E + (Qc * Qc * (Z * Z * Z * Z)) :=
  if eq_str (risk_model self) "transformer" then inl NeverInHere
  else if negb (in_strs (risk_model self) known_models) then inl MissingSomething
  else if eq_str (risk_model self) "manual" then inl ManualTracingIsDead
  else
    let test_tracing_delay := 0%Z in
    match get_positive_contacts_counts human humans_map test_tracing_delay
            (p_contact self) (max_depth self) with
    | inl e => inl (External e)
    | inr positive_test_counts =>
        let t := discounted 0%Qc positive_test_counts in
        match (if truthy (propagate_symptoms self) then
                 match get_symptomatic_contacts_counts human humans_map
                         (max_depth self) with
                 | inl e => inl (External e)
                 | inr symptomatic_counts =>
                     inr (discounted 0%Qc symptomatic_counts)
                 end
               else inr 0%Qc) with
        | inl e => inl e
        | inr s =>
            if truthy (propagate_risk self) then inl RiskCountsNotImplemented
            else inr (t, s, (0, 0, 0, 0)%Z)
        end
    end.

Definition compute_risk
    (self : t) (human : Human) (mailbox : Mailbox) (humans_map : HumansMap)
  : risk_exn E + list pyval :=
  if eq_str (risk_model self) "transformer" then inl NeverInHere
  else if negb (in_strs (risk_model self) known_models) then inl MissingSomething
  else
    match
      (if in_strs (risk_model self) ["manual"; "digital"] then
         match _get_hypothetical_contact_tracing_results self human mailbox
                 humans_map with
         | inl e => inl e
         | inr (t, s, r) =>
             inr (RiskScalar
                    (VFloat (if bool_decide (0 < t + s)%Qc then 1 else 0)%Qc))
         end
       else if eq_str (risk_model self) "naive" then
         (* the base of the power is evaluated before [t+s], where [t] has
            no value *)
         match float_minus (conf_get (human_conf human) "RISK_TRANSMISSION_PROBA")
         with
         | inl e => inl e
         | inr _ => inl (UnboundLocal "t")
         end
       else if in_strs (risk_model self) ["heuristicv1"; "heuristicv2"] then
         match intervention_compute_risk (intervention_ self) human mailbox with
         | inl e => inl (External e)
         | inr risk => inr risk
         end
       else if eq_str (risk_model self) "other" then inl (UnboundLocal "r")
       else inl (UnboundLocal "risk"))
    with
    | inl e => inl e
    | inr risk =>
        inr (match risk with RiskList l => l | RiskScalar v => [v] end)
    end.
End risk.
End Tracing.

(** ** Auxiliary notions *)

(** Rule sets in which no key is bound to an empty set; registration
    builds no other. *)
Definition no_empty_key (self : gmap HealthState.t (gset TransitionRule.t)) : Prop :=
  ∀ k s, self !! k = Some s → s ≠ ∅.

(** Rule sets in which every rule sits under the key that is its own
    [from_health_state]. *)
Definition keyed_by_from (self : gmap HealthState.t (gset TransitionRule.t)) : Prop :=
  ∀ k s r, self !! k = Some s → r ∈ s → TransitionRule.from_health_state r = k.

(** The weights of the rules stored in [s], in iteration order. *)
Definition weights {Kwargs : Type}
    (call : Callable → TransitionRule.t → Kwargs → Qc)
    (s : gset TransitionRule.t) (kw : Kwargs) : list Qc :=
  (λ r, TransitionRule.get_proba call r kw) <$> elements s.

(** One symptom clause of a description as [parse] reads it: the name
    of the symptom, with the name of the severity and a space before it
    when the severity is spelled out. *)
Definition symptom_clause (item : option Severity.t * BaseSymptom.t) : string :=
  match item.1 with
  | Some sev => Severity.name sev +:+ " " +:+ BaseSymptom.name item.2
  | None => BaseSymptom.name item.2
  end.

(** The symptom that [parse] makes of such a clause. *)
Definition symptom_of_clause (item : option Severity.t * BaseSymptom.t)
  : Symptoms.t :=
  Symptoms.Build (default Severity.UNDEFINED item.1) item.2.

(** ** Values used in the examples *)

Definition covid_onset : DiseasePhase.t :=
  DiseasePhase.Build Disease.COVID (DiseaseContext.Covid CovidContext.ONSET).

Definition covid_plateau : DiseasePhase.t :=
  DiseasePhase.Build Disease.COVID (DiseaseContext.Covid CovidContext.PLATEAU).

Definition mild_fever : Symptoms.t := Symptoms.Build Severity.MILD BaseSymptom.FEVER.
Definition moderate_fever : Symptoms.t :=
  Symptoms.Build Severity.MODERATE BaseSymptom.FEVER.
Definition severe_cough : Symptoms.t :=
  Symptoms.Build Severity.SEVERE BaseSymptom.COUGH.

(** ["mild fever at covid onset"] *)
Definition mild_fever_onset : HealthState.t :=
  HealthState.init [mild_fever] covid_onset.

(** ["moderate fever at covid onset"] *)
Definition moderate_fever_onset : HealthState.t :=
  HealthState.init [moderate_fever] covid_onset.

(** ["severe cough at covid onset"] *)
Definition severe_cough_onset : HealthState.t :=
  HealthState.init [severe_cough] covid_onset.

(** A generator without state whose every sample is [0]. *)
Definition zero_sample (rng : unit) : Qc * unit := (0%Qc, rng).

(** No callable is ever called in the examples. *)
Definition no_call (f : Callable) (r : TransitionRule.t) (kw : unit) : Qc := 0%Qc.

(** Two rules between the same states, with scores 1/2 and 1/4. *)
Definition rule_half : TransitionRule.t :=
  TransitionRule.init mild_fever_onset moderate_fever_onset
    (Some (Q2Qc (1 # 2))) None.
Definition rule_quarter : TransitionRule.t :=
  TransitionRule.init mild_fever_onset moderate_fever_onset
    (Some (Q2Qc (1 # 4))) None.

(** Two rules out of "mild fever at covid onset" with the negative
    scores -1 and -3. *)
Definition rule_minus_one : TransitionRule.t :=
  TransitionRule.init mild_fever_onset moderate_fever_onset
    (Some (Q2Qc (-1))) None.
Definition rule_minus_three : TransitionRule.t :=
  TransitionRule.init mild_fever_onset severe_cough_onset
    (Some (Q2Qc (-3))) None.
Definition negative_rule_set : gmap HealthState.t (gset TransitionRule.t) :=
  TransitionRuleSet.add_rule
    (TransitionRuleSet.add_rule TransitionRuleSet.init rule_minus_one)
    rule_minus_three.

(** A configuration for digital tracing that asks not to modify the
    behaviour and to trace risk updates up to order 5. *)
Definition digital_conf : gmap string Tracing.pyval :=
  {[ "RISK_MODEL" := Tracing.VStr "digital";
     "SHOULD_MODIFY_BEHAVIOR" := Tracing.VBool false;
     "TRACING_ORDER" := Tracing.VInt 5;
     "TRACE_RISK_UPDATE" := Tracing.VBool true ]}.

(** A configuration for the transformer model that asks to trace
    symptoms. *)
Definition transformer_conf : gmap string Tracing.pyval :=
  {[ "RISK_MODEL" := Tracing.VStr "transformer";
     "TRACE_SYMPTOMS" := Tracing.VBool true ]}.

(** A configuration for digital tracing of order 1 that traces neither
    symptoms nor risk updates. *)
Definition plain_digital_conf : gmap string Tracing.pyval :=
  {[ "RISK_MODEL" := Tracing.VStr "digital";
     "TRACING_ORDER" := Tracing.VInt 1 ]}.

(** A configuration for the naive model. *)
Definition naive_conf : gmap string Tracing.pyval :=
  {[ "RISK_MODEL" := Tracing.VStr "naive" ]}.

(** A contact book that reports two contacts of order 1 tested positive
    and no contact with symptoms, and an intervention without a risk of
    its own; none of them raises. *)
Definition two_positive_contacts (human humans_map : unit) (delay : Z)
    (p max_order : Tracing.pyval) : unit + list (Z * Z) :=
  inr [(1, 2)%Z].
Definition no_symptomatic_contacts (human humans_map : unit)
    (max_order : Tracing.pyval) : unit + list (Z * Z) :=
  inr [].
Definition no_intervention_risk (i : Tracing.intervention)
    (human mailbox : unit) : unit + Tracing.risk :=
  inr (Tracing.RiskList []).

(** A human whose configuration sets the transmission probability to
    a float. *)
Definition human_conf_half (human : unit) : gmap string Tracing.pyval :=
  {[ "RISK_TRANSMISSION_PROBA" := Tracing.VFloat (Q2Qc (1 # 2)) ]}.

(** A stand-in for [np.exp] in the examples: positive everywhere. *)
Definition exp_one (x : Z) : Qc := 1%Qc.

(** * Properties *)

(** ** The error monad *)

Lemma mapM_Ok {A B C} (f : B → result C) (g : A → B) (h : A → C) (l : list A) :
  (∀ x, x ∈ l → f (g x) = Ok (h x)) →
  mapM f (g <$> l) = Ok (h <$> l).
Proof.
  induction l as [|x l IH]; intros Hf; [done|].
  cbn. rewrite Hf by left. cbn.
  rewrite IH; [done|]. intros y Hy. apply Hf. by right.
Qed.

Lemma instances_Inst {A} (l : list A) : instances (Inst <$> l) = Some l.
Proof. induction l as [|x l IH]; [done|]. cbn. by rewrite IH. Qed.

Lemma assert_all_instances_Inst {A} (l : list A) :
  assert_all_instances (Inst <$> l) = Ok l.
Proof. unfold assert_all_instances. by rewrite instances_Inst. Qed.

(** ** Strings *)

Module StrFacts.
Import Str.

Lemma app_cons c (s t : string) : String c s +:+ t = String c (s +:+ t).
Proof. reflexivity. Qed.

Lemma app_nil_l (s : string) : "" +:+ s = s.
Proof. reflexivity. Qed.

Lemma app_nil_r (s : string) : s +:+ "" = s.
Proof. induction s as [|c s IH]; [done|]. by rewrite app_cons, IH. Qed.

Lemma app_assoc (x y z : string) : (x +:+ y) +:+ z = x +:+ y +:+ z.
Proof. induction x as [|c x IH]; [done|]. by rewrite !app_cons, IH. Qed.

Lemma has_char_app c x y : has_char c (x +:+ y) = has_char c x || has_char c y.
Proof.
  induction x as [|a x IH]; [done|]. rewrite app_cons. simpl.
  rewrite IH. by rewrite orb_assoc.
Qed.

Lemma is_prefix_app sep b : is_prefix sep (sep +:+ b) = true.
Proof.
  induction sep as [|c sep IH]; [done|]. rewrite app_cons. simpl.
  rewrite bool_decide_eq_true_2 by done. exact IH.
Qed.

Lemma split_go_skip sep x cur b :
  split_go sep (String.length x) cur (x +:+ b) = split_go sep 0 cur b.
Proof. induction x as [|c x IH]; [done|]. rewrite app_cons. exact IH. Qed.

(** A separator found at the head of the text closes the current piece. *)
Lemma split_go_here c0 sep' cur b :
  split_go (String c0 sep') 0 cur (String c0 sep' +:+ b)
  = cur :: split_go (String c0 sep') 0 "" b.
Proof.
  pose proof (is_prefix_app (String c0 sep') b) as Hp.
  change (String c0 sep' +:+ b) with (String c0 (sep' +:+ b)) in *.
  cbn [split_go]. rewrite Hp.
  replace (String.length (String c0 sep') - 1) with (String.length sep')
    by (simpl; lia).
  by rewrite split_go_skip.
Qed.

(** A character that cannot start the separator joins the current piece. *)
Lemma split_go_step_first c0 sep' cur c s :
  c ≠ c0 →
  split_go (String c0 sep') 0 cur (String c s)
  = split_go (String c0 sep') 0 (cur +:+ String c "") s.
Proof.
  intros Hc. cbn [split_go is_prefix].
  by rewrite bool_decide_eq_false_2 by congruence.
Qed.

Lemma split_go_first_absent c0 sep' a b cur :
  has_char c0 a = false →
  split_go (String c0 sep') 0 cur (a +:+ String c0 sep' +:+ b)
  = (cur +:+ a) :: split_go (String c0 sep') 0 "" b.
Proof.
  revert cur. induction a as [|c a IH]; intros cur Ha.
  - rewrite app_nil_r. apply split_go_here.
  - cbn in Ha. apply orb_false_iff in Ha as [Hc Ha].
    apply bool_decide_eq_false in Hc.
    change (String c a +:+ String c0 sep' +:+ b)
      with (String c (a +:+ String c0 sep' +:+ b)).
    rewrite split_go_step_first by done.
    rewrite IH by done. by rewrite app_assoc.
Qed.

Lemma split_go_first_none c0 sep' s cur :
  has_char c0 s = false →
  split_go (String c0 sep') 0 cur s = [cur +:+ s].
Proof.
  revert cur. induction s as [|c s IH]; intros cur Hs.
  - by rewrite app_nil_r.
  - cbn in Hs. apply orb_false_iff in Hs as [Hc Hs].
    apply bool_decide_eq_false in Hc.
    rewrite split_go_step_first by done.
    rewrite IH by done. by rewrite app_assoc.
Qed.

(** The same two facts when it is the second character of the
    separator that the text lacks. *)
Lemma split_go_step_second c0 c1 sep'' cur c s :
  (∀ c' s', s = String c' s' → c' ≠ c1) →
  split_go (String c0 (String c1 sep'')) 0 cur (String c s)
  = split_go (String c0 (String c1 sep'')) 0 (cur +:+ String c "") s.
Proof.
  intros Hs. cbn [split_go is_prefix].
  destruct s as [|c' s']; cbn [is_prefix].
  - by rewrite andb_false_r.
  - rewrite (bool_decide_eq_false_2 (c1 = c')).
    + by rewrite andb_false_r.
    + intros ->. by eapply Hs.
Qed.

Lemma split_go_second_absent c0 c1 sep'' a b cur :
  c0 ≠ c1 →
  has_char c1 a = false →
  split_go (String c0 (String c1 sep'')) 0 cur
    (a +:+ String c0 (String c1 sep'') +:+ b)
  = (cur +:+ a) :: split_go (String c0 (String c1 sep'')) 0 "" b.
Proof.
  intros Hne. revert cur. induction a as [|c a IH]; intros cur Ha.
  - rewrite app_nil_r. apply split_go_here.
  - cbn in Ha. apply orb_false_iff in Ha as [Hc Ha].
    change (String c a +:+ String c0 (String c1 sep'') +:+ b)
      with (String c (a +:+ String c0 (String c1 sep'') +:+ b)).
    rewrite split_go_step_second.
    + rewrite IH by done. by rewrite app_assoc.
    + intros c' s'. destruct a as [|a0 a]; cbn.
      * intros [= <- _]. done.
      * intros [= <- _]. cbn in Ha. apply orb_false_iff in Ha as [Ha _].
        by apply bool_decide_eq_false in Ha.
Qed.

Lemma split_go_second_none c0 c1 sep'' s cur :
  has_char c1 s = false →
  split_go (String c0 (String c1 sep'')) 0 cur s = [cur +:+ s].
Proof.
  revert cur. induction s as [|c s IH]; intros cur Hs.
  - by rewrite app_nil_r.
  - cbn in Hs. apply orb_false_iff in Hs as [Hc Hs].
    rewrite split_go_step_second.
    + rewrite IH by done. by rewrite app_assoc.
    + intros c' s' ->. cbn in Hs. apply orb_false_iff in Hs as [Hs _].
      by apply bool_decide_eq_false in Hs.
Qed.

(** Splitting a joined list gives the list back when no piece contains
    the first character of the separator. *)
Lemma split_join c0 sep' (l : list string) :
  l ≠ [] →
  Forall (λ x, has_char c0 x = false) l →
  split (String c0 sep') (join (String c0 sep') l) = l.
Proof.
  intros Hl Hall. unfold split.
  induction Hall as [|x l Hx Hall IH]; [done|].
  destruct l as [|y l].
  - cbn [join]. by rewrite split_go_first_none.
  - change (join (String c0 sep') (x :: y :: l))
      with (x +:+ String c0 sep' +:+ join (String c0 sep') (y :: l)).
    rewrite split_go_first_absent by done. cbn [String.append].
    by rewrite IH.
Qed.

Lemma has_char_join c sep (l : list string) :
  has_char c sep = false →
  Forall (λ x, has_char c x = false) l →
  has_char c (join sep l) = false.
Proof.
  intros Hsep Hall. induction Hall as [|x l Hx Hall IH]; [done|].
  destruct l as [|y l]; [done|].
  change (join sep (x :: y :: l)) with (x +:+ sep +:+ join sep (y :: l)).
  rewrite !has_char_app, Hx, Hsep, IH. done.
Qed.
End StrFacts.

(** ** Names of the enumeration members *)

Lemma Severity_getattr_name sev :
  Str.getattr Severity.name Severity.members (Str.upper (Severity.name sev))
  = Some sev.
Proof. by destruct sev. Qed.

Lemma BaseSymptom_getattr_name sym :
  Str.getattr BaseSymptom.name BaseSymptom.members
    (Str.upper (BaseSymptom.name sym)) = Some sym.
Proof. by destruct sym. Qed.

Lemma Symptoms_make_name sev sym :
  Symptoms.make (Severity.name sev) (BaseSymptom.name sym)
  = Ok (Symptoms.Build sev sym).
Proof.
  unfold Symptoms.make.
  by rewrite Severity_getattr_name, BaseSymptom_getattr_name.
Qed.

Lemma DiseasePhase_make_name d c :
  c ∈ Disease.value d →
  DiseasePhase.make (Disease.name d) (DiseaseContext.name c)
  = Ok (DiseasePhase.Build d c).
Proof.
  intros Hin%(bool_decide_pack _).
  by destruct d, c as [[]|[]|[]|[]].
Qed.

(** A phase name in parentheses is not the name of a context. *)
Lemma DiseasePhase_make_paren d c :
  DiseasePhase.make (Disease.name d) ("(" +:+ DiseaseContext.name c +:+ ")")
  = Raise (NotAValidContext ("(" +:+ DiseaseContext.name c +:+ ")")).
Proof. by destruct d, c as [[]|[]|[]|[]]. Qed.

Lemma Severity_name_chars sev :
  Str.has_char " " (Severity.name sev) = false
  ∧ Str.has_char "," (Severity.name sev) = false
  ∧ Str.has_char "a" (Severity.name sev) = false.
Proof. by destruct sev. Qed.

Lemma BaseSymptom_name_chars sym :
  Str.has_char " " (BaseSymptom.name sym) = false
  ∧ Str.has_char "," (BaseSymptom.name sym) = false
  ∧ Str.has_char "a" (BaseSymptom.name sym) = false.
Proof. by destruct sym. Qed.

Lemma Disease_name_chars d :
  Str.has_char " " (Disease.name d) = false
  ∧ Str.has_char "a" (Disease.name d) = false.
Proof. by destruct d. Qed.

Lemma DiseaseContext_name_chars c :
  Str.has_char " " (DiseaseContext.name c) = false
  ∧ Str.has_char "a" (DiseaseContext.name c) = false.
Proof. by destruct c as [[]|[]|[]|[]]. Qed.

Lemma Symptoms_str_chars x :
  Str.has_char "," (Symptoms.str x) = false
  ∧ Str.has_char "a" (Symptoms.str x) = false.
Proof.
  unfold Symptoms.str. rewrite !StrFacts.has_char_app.
  destruct (Severity_name_chars (Symptoms.severity x)) as (_ & -> & ->).
  by destruct (BaseSymptom_name_chars (Symptoms.base_symptom x)) as (_ & -> & ->).
Qed.

(** ** [DiseasePhase] *)

Lemma DiseasePhase_init_valid d c :
  c ∈ Disease.value d → DiseasePhase.init d c = Ok (DiseasePhase.Build d c).
Proof.
  intros Hin. unfold DiseasePhase.init, DiseasePhase.is_valid. simpl.
  by rewrite bool_decide_eq_true_2.
Qed.

Lemma DiseasePhase_init_invalid d c :
  c ∉ Disease.value d → DiseasePhase.init d c = Raise ContextNotValidForDisease.
Proof.
  intros Hin. unfold DiseasePhase.init, DiseasePhase.is_valid. simpl.
  by rewrite bool_decide_eq_false_2.
Qed.

Lemma DiseasePhase_all_pairs_valid d c :
  (d, c) ∈ DiseasePhase.all_pairs → c ∈ Disease.value d.
Proof.
  unfold DiseasePhase.all_pairs. intros Hin.
  apply list_elem_of_bind in Hin as (d' & Hin & _).
  apply list_elem_of_bind in Hin as (c' & Hin & Hc).
  apply list_elem_of_singleton in Hin. by simplify_eq.
Qed.

Lemma get_all_possible_disease_phases_Ok :
  DiseasePhase.get_all_possible_disease_phases
  = Ok ((λ p, DiseasePhase.Build p.1 p.2) <$> DiseasePhase.all_pairs).
Proof. reflexivity. Qed.

(** C8. Constructing a [DiseasePhase] whose context is not a member of
    the context enumeration owned by the disease fails, in the
    constructor, with the assertion error; for every (disease, context)
    pair that [get_all_possible_disease_phases] runs through the
    construction succeeds, and so does the enumerator as a whole; hence
    every [DiseasePhase] that a construction returns has its context
    among the contexts of its disease. *)
Theorem DiseasePhase_validity_invariant :
  (∀ d c, c ∉ Disease.value d →
          DiseasePhase.init d c = Raise ContextNotValidForDisease)
  ∧ (∀ d c, (d, c) ∈ DiseasePhase.all_pairs →
            DiseasePhase.init d c = Ok (DiseasePhase.Build d c))
  ∧ DiseasePhase.get_all_possible_disease_phases
    = Ok ((λ p, DiseasePhase.Build p.1 p.2) <$> DiseasePhase.all_pairs)
  ∧ (∀ d c p, DiseasePhase.init d c = Ok p →
              DiseasePhase.context p ∈ Disease.value (DiseasePhase.disease p)
              ∧ DiseasePhase.is_valid p = true).
Proof.
  split_and!.
  - apply DiseasePhase_init_invalid.
  - intros d c Hin. by apply DiseasePhase_init_valid, DiseasePhase_all_pairs_valid.
  - apply get_all_possible_disease_phases_Ok.
  - intros d c p. unfold DiseasePhase.init.
    destruct (DiseasePhase.is_valid (DiseasePhase.Build d c)) eqn:Hv; [|done].
    simpl. intros [= <-]. split; [|done].
    by apply bool_decide_eq_true in Hv.
Qed.

Lemma DiseasePhase_validity_invariant_witness :
  DiseasePhase.init Disease.COVID (DiseaseContext.Cold ColdContext.COLD)
  = Raise ContextNotValidForDisease
  ∧ DiseasePhase.init Disease.FLU (DiseaseContext.Flu FluContext.FLU_LAST_DAY)
    = Ok (DiseasePhase.Build Disease.FLU (DiseaseContext.Flu FluContext.FLU_LAST_DAY))
  ∧ DiseasePhase.is_valid covid_onset = true.
Proof.
  destruct DiseasePhase_validity_invariant as (Hbad & Hgood & _ & Hinv).
  split_and!.
  - apply Hbad. by apply (bool_decide_unpack _).
  - apply Hgood. by apply (bool_decide_unpack _).
  - apply (Hinv Disease.COVID (DiseaseContext.Covid CovidContext.ONSET)).
    reflexivity.
Defined.

(** ** [HealthState.make] *)

Lemma list_times_1 {A} (l : list A) : list_times l 1 = l.
Proof. unfold list_times. simpl. apply app_nil_r. Qed.

(** Without a sequence to broadcast, [make] zips its two sequences. *)
Lemma make_zip (severity base_symptom : list string) disease context :
  length severity = length base_symptom
  ∨ (length severity ≠ 1 ∧ length base_symptom ≠ 1) →
  HealthState.make (Toks severity) (Toks base_symptom) disease context
  = (symptoms ← mapM (λ p, Symptoms.make p.1 p.2) (zip severity base_symptom);
     disease_phase ← DiseasePhase.make disease context;
     Ok (HealthState.init symptoms disease_phase)).
Proof.
  intros Hlen. unfold HealthState.make, tokens_list. cbv zeta.
  destruct (decide (length severity = 1)) as [H1|H1].
  - assert (length base_symptom = 1) as H2 by (destruct Hlen; lia).
    rewrite (bool_decide_eq_true_2 _ H1), (bool_decide_eq_true_2 _ H2), H1, H2.
    change (1 `max` 1) with 1. rewrite list_times_1, H1.
    change (1 `max` 1) with 1. by rewrite list_times_1.
  - assert (length base_symptom ≠ 1) as H2 by (destruct Hlen; lia).
    by rewrite (bool_decide_eq_false_2 _ H1), (bool_decide_eq_false_2 _ H2).
Qed.

Lemma zip_names (sevs : list Severity.t) (syms : list BaseSymptom.t) :
  zip (Severity.name <$> sevs) (BaseSymptom.name <$> syms)
  = (λ p, (Severity.name p.1, BaseSymptom.name p.2)) <$> zip sevs syms.
Proof.
  revert syms. induction sevs as [|sev sevs IH]; intros [|sym syms]; try done.
  cbn. by rewrite IH.
Qed.

Lemma zip_with_Build (sevs : list Severity.t) (syms : list BaseSymptom.t) :
  (λ p, Symptoms.Build p.1 p.2) <$> zip sevs syms
  = zip_with Symptoms.Build sevs syms.
Proof.
  revert syms. induction sevs as [|sev sevs IH]; intros [|sym syms]; try done.
  cbn. by rewrite IH.
Qed.

Lemma make_of_names (sevs : list Severity.t) (syms : list BaseSymptom.t) d c :
  length sevs = length syms ∨ (length sevs ≠ 1 ∧ length syms ≠ 1) →
  c ∈ Disease.value d →
  HealthState.make (Toks (Severity.name <$> sevs))
    (Toks (BaseSymptom.name <$> syms)) (Disease.name d) (DiseaseContext.name c)
  = Ok (HealthState.init (zip_with Symptoms.Build sevs syms)
          (DiseasePhase.Build d c)).
Proof.
  intros Hlen Hc. rewrite make_zip by (by rewrite !length_fmap).
  rewrite zip_names.
  rewrite (mapM_Ok _ _ (λ p, Symptoms.Build p.1 p.2))
    by (intros; apply Symptoms_make_name).
  cbn [mbind result_bind]. rewrite DiseasePhase_make_name by done.
  cbn [mbind result_bind]. by rewrite zip_with_Build.
Qed.

(** C5, as the code has it. [HealthState.make] has no length check: given
    sequences of severity and symptom names whose lengths disagree and
    are both different from 1, it pairs them position by position up to
    the end of the shorter one and returns the health state of those
    pairs. *)
Theorem make_length_mismatch_truncates
    (sevs : list Severity.t) (syms : list BaseSymptom.t) d c :
  length sevs ≠ length syms →
  length sevs ≠ 1 → length syms ≠ 1 →
  c ∈ Disease.value d →
  HealthState.make (Toks (Severity.name <$> sevs))
    (Toks (BaseSymptom.name <$> syms)) (Disease.name d) (DiseaseContext.name c)
  = Ok (HealthState.init
          (zip_with Symptoms.Build
             (take (length sevs `min` length syms) sevs)
             (take (length sevs `min` length syms) syms))
          (DiseasePhase.Build d c)).
Proof.
  intros _ H1 H2 Hc. rewrite make_of_names by auto.
  do 2 f_equal. symmetry. apply zip_with_take_both'; lia.
Qed.

Lemma make_length_mismatch_truncates_witness :
  HealthState.make
    (Toks (Severity.name <$> [Severity.MILD; Severity.SEVERE; Severity.HEAVY]))
    (Toks (BaseSymptom.name <$> [BaseSymptom.FEVER; BaseSymptom.COUGH]))
    (Disease.name Disease.COVID)
    (DiseaseContext.name (DiseaseContext.Covid CovidContext.ONSET))
  = Ok (HealthState.init
          (zip_with Symptoms.Build
             (take 2 [Severity.MILD; Severity.SEVERE; Severity.HEAVY])
             (take 2 [BaseSymptom.FEVER; BaseSymptom.COUGH]))
          covid_onset).
Proof.
  apply (make_length_mismatch_truncates
           [Severity.MILD; Severity.SEVERE; Severity.HEAVY]
           [BaseSymptom.FEVER; BaseSymptom.COUGH]);
    [simpl; lia | simpl; lia | simpl; lia | by apply (bool_decide_unpack _)].
Defined.

(** C5 as stated fails: three severities against two symptoms, neither
    sequence of length 1, and [make] returns a health state. *)
Lemma make_length_mismatch_no_error :
  length ["mild"; "severe"; "heavy"] ≠ length ["fever"; "cough"]
  ∧ HealthState.make (Toks ["mild"; "severe"; "heavy"]) (Toks ["fever"; "cough"])
      "covid" "onset"
    = Ok (HealthState.init [mild_fever; severe_cough] covid_onset).
Proof.
  split; [simpl; lia|].
  rewrite make_zip by (right; simpl; lia). reflexivity.
Qed.

(** ** [HealthState.parse] *)

Lemma parse_symptom_desc_str x :
  HealthState.parse_symptom_desc (Symptoms.str x)
  = Ok (Severity.name (Symptoms.severity x),
        BaseSymptom.name (Symptoms.base_symptom x)).
Proof.
  unfold HealthState.parse_symptom_desc, Symptoms.str, Str.split.
  destruct (Severity_name_chars (Symptoms.severity x)) as (Hsev & _).
  destruct (BaseSymptom_name_chars (Symptoms.base_symptom x)) as (Hsym & _).
  rewrite StrFacts.split_go_first_absent by done.
  rewrite StrFacts.split_go_first_none by done.
  by rewrite !StrFacts.app_nil_l.
Qed.

Lemma fmap_fst_names (l : list Symptoms.t) :
  ((λ x, (Severity.name (Symptoms.severity x),
          BaseSymptom.name (Symptoms.base_symptom x))) <$> l).*1
  = Severity.name <$> (Symptoms.severity <$> l).
Proof. induction l as [|x l IH]; [done|]. cbn. by rewrite <-IH. Qed.

Lemma fmap_snd_names (l : list Symptoms.t) :
  ((λ x, (Severity.name (Symptoms.severity x),
          BaseSymptom.name (Symptoms.base_symptom x))) <$> l).*2
  = BaseSymptom.name <$> (Symptoms.base_symptom <$> l).
Proof. induction l as [|x l IH]; [done|]. cbn. by rewrite <-IH. Qed.

Lemma zip_with_Build_fields (l : list Symptoms.t) :
  zip_with Symptoms.Build (Symptoms.severity <$> l) (Symptoms.base_symptom <$> l)
  = l.
Proof. induction l as [|[] l IH]; [done|]. cbn. by rewrite IH. Qed.

(** What [parse] does with a text made of symptom descriptions, the
    separator and a two-word phase description [dd]. *)
Lemma parse_text (l : list Symptoms.t) (dd disease context : string) :
  l ≠ [] →
  Str.has_char "a" dd = false →
  Str.split " " dd = [disease; context] →
  HealthState.parse (Str.join ", " (Symptoms.str <$> l) +:+ " at " +:+ dd)
  = HealthState.make (Toks (Severity.name <$> (Symptoms.severity <$> l)))
      (Toks (BaseSymptom.name <$> (Symptoms.base_symptom <$> l)))
      disease context.
Proof.
  intros Hl Hdd Hsplit. unfold HealthState.parse.
  assert (Forall (λ s, Str.has_char "a" s = false) (Symptoms.str <$> l))
    as Ha by (apply Forall_fmap, Forall_forall; intros; apply Symptoms_str_chars).
  assert (Forall (λ s, Str.has_char "," s = false) (Symptoms.str <$> l))
    as Hc by (apply Forall_fmap, Forall_forall; intros; apply Symptoms_str_chars).
  unfold Str.split at 1.
  rewrite StrFacts.split_go_second_absent
    by (done || by apply StrFacts.has_char_join).
  rewrite StrFacts.split_go_second_none by done.
  rewrite !StrFacts.app_nil_l.
  rewrite StrFacts.split_join by (done || by destruct l).
  rewrite (mapM_Ok _ _ _ l) by (intros; apply parse_symptom_desc_str).
  cbn [mbind result_bind].
  destruct l as [|x l]; [done|].
  rewrite Hsplit, fmap_fst_names, fmap_snd_names. done.
Qed.

Lemma parse_text_nil (dd disease context : string) :
  Str.has_char "a" dd = false →
  Str.split " " dd = [disease; context] →
  HealthState.parse ("" +:+ " at " +:+ dd)
  = Raise (NotAValidBaseSymptom "").
Proof.
  intros Hdd Hsplit. unfold HealthState.parse.
  unfold Str.split at 1.
  rewrite StrFacts.split_go_second_absent by done.
  rewrite StrFacts.split_go_second_none by done.
  rewrite !StrFacts.app_nil_l.
  change (Str.split ", " "") with [""].
  change (mapM HealthState.parse_symptom_desc [""]) with (Ok [("undefined", "")]).
  cbn [mbind result_bind]. rewrite Hsplit. cbn [fmap list_fmap fst snd].
  rewrite make_zip by (by left). reflexivity.
Qed.

Lemma split_phase_words d c :
  Str.split " " (Disease.name d +:+ " " +:+ DiseaseContext.name c)
  = [Disease.name d; DiseaseContext.name c].
Proof.
  unfold Str.split.
  rewrite StrFacts.split_go_first_absent by apply Disease_name_chars.
  rewrite StrFacts.split_go_first_none by apply DiseaseContext_name_chars.
  by rewrite !StrFacts.app_nil_l.
Qed.

Lemma split_phase_str dp :
  Str.split " " (DiseasePhase.str dp)
  = [Disease.name (DiseasePhase.disease dp);
     "(" +:+ DiseaseContext.name (DiseasePhase.context dp) +:+ ")"].
Proof.
  unfold Str.split, DiseasePhase.str.
  change (" (" +:+ ?x) with (" " +:+ "(" +:+ x).
  rewrite StrFacts.split_go_first_absent by apply Disease_name_chars.
  rewrite StrFacts.split_go_first_none.
  - by rewrite !StrFacts.app_nil_l.
  - rewrite !StrFacts.has_char_app.
    by destruct (DiseaseContext_name_chars (DiseasePhase.context dp)) as [-> _].
Qed.

Lemma phase_str_no_a dp : Str.has_char "a" (DiseasePhase.str dp) = false.
Proof.
  unfold DiseasePhase.str. rewrite !StrFacts.has_char_app.
  destruct (Disease_name_chars (DiseasePhase.disease dp)) as [_ ->].
  by destruct (DiseaseContext_name_chars (DiseasePhase.context dp)) as [_ ->].
Qed.

Lemma phase_words_no_a d c :
  Str.has_char "a" (Disease.name d +:+ " " +:+ DiseaseContext.name c) = false.
Proof.
  rewrite !StrFacts.has_char_app.
  destruct (Disease_name_chars d) as [_ ->].
  by destruct (DiseaseContext_name_chars c) as [_ ->].
Qed.

Lemma HealthState_str_join hs :
  HealthState.str hs
  = Str.join ", " (Symptoms.str <$> elements (HealthState.symptoms hs))
    +:+ " at " +:+ DiseasePhase.str (HealthState.disease_phase hs).
Proof.
  unfold HealthState.str. case_bool_decide as Hsize; [|done].
  unfold size, set_size in Hsize. simpl in Hsize.
  by destruct (elements (HealthState.symptoms hs)) as [|x [|y l]].
Qed.

(** [parse] never accepts what [__str__] prints. *)
Lemma parse_str_raises hs :
  ∃ e, HealthState.parse (HealthState.str hs) = Raise e
       ∧ exn_class e = ValueErrorC.
Proof.
  rewrite HealthState_str_join.
  destruct (elements (HealthState.symptoms hs)) as [|x l] eqn:Hel.
  - eexists. split; [|shelve].
    change (Str.join ", " (Symptoms.str <$> [])) with "".
    apply (parse_text_nil _ _ _ (phase_str_no_a _) (split_phase_str _)).
    Unshelve. done.
  - eexists. split; [|shelve].
    rewrite (parse_text (x :: l) _ _ _ ltac:(done) (phase_str_no_a _)
               (split_phase_str _)).
    rewrite make_zip by (left; by rewrite !length_fmap).
    rewrite zip_names.
    rewrite (mapM_Ok _ _ (λ p, Symptoms.Build p.1 p.2))
      by (intros; apply Symptoms_make_name).
    cbn [mbind result_bind]. rewrite DiseasePhase_make_paren. reflexivity.
    Unshelve. done.
Qed.

(** [parse] inverts the text that carries the phase as two plain words. *)
Lemma parse_plain_text (l : list Symptoms.t) d c :
  l ≠ [] →
  c ∈ Disease.value d →
  HealthState.parse
    (Str.join ", " (Symptoms.str <$> l) +:+ " at "
     +:+ Disease.name d +:+ " " +:+ DiseaseContext.name c)
  = Ok (HealthState.init l (DiseasePhase.Build d c)).
Proof.
  intros Hl Hc.
  rewrite (parse_text l _ _ _ Hl (phase_words_no_a d c) (split_phase_words d c)).
  rewrite make_of_names by (done || left; by rewrite !length_fmap).
  by rewrite zip_with_Build_fields.
Qed.

(** C1 as stated fails: the state "mild fever at covid onset" prints as
    [MILD FEVER at COVID (ONSET)], and parsing that text raises. *)
Lemma parse_str_mild_fever_onset_raises :
  HealthState.str mild_fever_onset = "MILD FEVER at COVID (ONSET)"
  ∧ HealthState.parse (HealthState.str mild_fever_onset)
    = Raise (NotAValidContext "(ONSET)").
Proof. split; by vm_compute. Qed.

(** C1, as the code has it. [__str__] prints the phase in parentheses and
    [parse] hands the token ["(PHASE)"] on as a context name, so parsing
    the string form of a health state always ends in a [ValueError].
    What [parse] inverts is the same text with the phase written as two
    plain words, ["<severity> <symptom>[, ...] at <DISEASE> <PHASE>"]:
    it gives back every health state that has at least one symptom and a
    valid disease phase. *)
Theorem parse_round_trip_plain_phase :
  (∀ hs, ∃ e, HealthState.parse (HealthState.str hs) = Raise e
              ∧ exn_class e = ValueErrorC)
  ∧ (∀ hs,
       HealthState.symptoms hs ≠ ∅ →
       DiseasePhase.is_valid (HealthState.disease_phase hs) = true →
       HealthState.parse
         (Str.join ", " (Symptoms.str <$> elements (HealthState.symptoms hs))
          +:+ " at "
          +:+ Disease.name (DiseasePhase.disease (HealthState.disease_phase hs))
          +:+ " "
          +:+ DiseaseContext.name
                (DiseasePhase.context (HealthState.disease_phase hs)))
       = Ok hs).
Proof.
  split; [apply parse_str_raises|].
  intros [s [d c]] Hs Hv. cbn [HealthState.symptoms HealthState.disease_phase
                                DiseasePhase.disease DiseasePhase.context] in *.
  rewrite parse_plain_text.
  - unfold HealthState.init. by rewrite list_to_set_elements_L.
  - intros Hel. apply Hs. by apply elements_empty_inv in Hel; apply leibniz_equiv.
  - by apply bool_decide_eq_true in Hv.
Qed.

Lemma parse_round_trip_plain_phase_witness :
  HealthState.parse
    (Str.join ", "
       (Symptoms.str <$> elements (HealthState.symptoms mild_fever_onset))
     +:+ " at " +:+ "COVID" +:+ " " +:+ "ONSET")
  = Ok mild_fever_onset.
Proof.
  destruct parse_round_trip_plain_phase as [_ Hparse].
  apply (Hparse mild_fever_onset).
  - by apply (bool_decide_unpack _).
  - reflexivity.
Defined.

(** ** The rule set: registration *)

Section registration.
Import TransitionRuleSet.
Implicit Types (self : gmap HealthState.t (gset TransitionRule.t)).
Implicit Types (r : TransitionRule.t) (k : HealthState.t).

Lemma add_rule_insert self r :
  add_rule self r
  = <[TransitionRule.from_health_state r :=
        outgoing self (TransitionRule.from_health_state r) ∪ {[ r ]}]> self.
Proof.
  unfold add_rule, defaultdict_getitem, outgoing.
  destruct (self !! TransitionRule.from_health_state r); [done|].
  by rewrite insert_insert_eq.
Qed.

Lemma outgoing_add_rule self r k :
  outgoing (add_rule self r) k
  = if decide (TransitionRule.from_health_state r = k)
    then outgoing self k ∪ {[ r ]} else outgoing self k.
Proof.
  rewrite add_rule_insert. unfold outgoing at 1.
  case_decide as Hk.
  - subst k. by rewrite lookup_insert_eq.
  - by rewrite lookup_insert_ne.
Qed.

Lemma outgoing_foldl_add_rule self (l : list TransitionRule.t) k :
  outgoing (foldl add_rule self l) k
  = outgoing self k
    ∪ list_to_set (filter (λ r, TransitionRule.from_health_state r = k) l).
Proof.
  revert self. induction l as [|r l IH]; intros self.
  - cbn. by rewrite union_empty_r_L.
  - cbn [foldl]. rewrite IH, outgoing_add_rule.
    case_decide as Hk; apply set_eq; intros x;
      rewrite !elem_of_union, ?elem_of_singleton, !elem_of_list_to_set,
        !list_elem_of_filter, elem_of_cons;
      intuition (subst; auto; try congruence).
Qed.

Lemma add_rule_empty r :
  add_rule init r = {[ TransitionRule.from_health_state r := {[ r ]} ]}.
Proof.
  rewrite add_rule_insert. unfold outgoing, init.
  rewrite lookup_empty. cbn [default].
  by rewrite union_empty_l_L, insert_empty.
Qed.

Lemma rule_count_add_rule_empty r : rule_count (add_rule init r) = 1.
Proof.
  rewrite add_rule_empty. unfold rule_count.
  rewrite map_fold_singleton. by rewrite size_singleton.
Qed.

(** Re-adding a stored rule changes nothing. *)
Lemma add_rule_idempotent self r : add_rule (add_rule self r) r = add_rule self r.
Proof.
  rewrite (add_rule_insert (add_rule self r)), outgoing_add_rule.
  rewrite decide_True by done.
  rewrite add_rule_insert, insert_insert_eq.
  f_equal. by rewrite <-(assoc_L (∪)), (idemp_L (∪)).
Qed.

Lemma all_symptoms_NoDup : NoDup Symptoms.get_all_possible_symptoms.
Proof. apply (bool_decide_unpack _). vm_compute. exact I. Qed.

Lemma all_symptoms_length :
  length Symptoms.get_all_possible_symptoms
  = length Severity.members * length BaseSymptom.members.
Proof. reflexivity. Qed.

Lemma all_symptoms_size dp :
  size (HealthState.symptoms
          (HealthState.init Symptoms.get_all_possible_symptoms dp))
  = length Severity.members * length BaseSymptom.members.
Proof.
  unfold HealthState.init. cbn [HealthState.symptoms].
  rewrite size_list_to_set by apply all_symptoms_NoDup.
  apply all_symptoms_length.
Qed.

(** The call of the cross-product claim: wildcard symptoms on the
    [from] side, one [to] state, one shared phase. *)
Lemma add_transition_rule_all_symptoms self (to_hs : HealthState.t)
    (dp : DiseasePhase.t) to_symptoms to_disease_phase sc fn :
  add_transition_rule self ArgNone ArgNone (ArgOne to_hs)
    (ArgWild ALL_SYMPTOMS) to_symptoms (ArgOne dp) ArgNone to_disease_phase
    sc fn
  = Ok (add_rule self
          (TransitionRule.init
             (HealthState.init Symptoms.get_all_possible_symptoms dp)
             to_hs sc fn)).
Proof. reflexivity. Qed.

Lemma add_transition_rule_all_symptoms_from_phase self (to_hs : HealthState.t)
    (at_dp dp : DiseasePhase.t) to_symptoms to_disease_phase sc fn :
  add_transition_rule self ArgNone ArgNone (ArgOne to_hs)
    (ArgWild ALL_SYMPTOMS) to_symptoms (ArgOne at_dp) (ArgOne dp)
    to_disease_phase sc fn
  = Ok (add_rule self
          (TransitionRule.init
             (HealthState.init Symptoms.get_all_possible_symptoms dp)
             to_hs sc fn)).
Proof. reflexivity. Qed.
End registration.

(** C2 as stated fails: the wildcard call on an empty rule set stores one
    rule, not one per (severity, symptom) pair. *)
Lemma all_symptoms_wildcard_one_rule_example :
  ∃ rs,
    TransitionRuleSet.add_transition_rule TransitionRuleSet.init
      ArgNone ArgNone (ArgOne moderate_fever_onset) (ArgWild ALL_SYMPTOMS)
      ArgNone (ArgOne covid_onset) ArgNone ArgNone None None = Ok rs
    ∧ TransitionRuleSet.rule_count rs = 1
    ∧ TransitionRuleSet.rule_count rs
      ≠ length Severity.members * length BaseSymptom.members.
Proof.
  eexists. split; [apply add_transition_rule_all_symptoms|].
  rewrite rule_count_add_rule_empty. split; [done|]. simpl. lia.
Qed.

(** C2, as the code has it. With [from_symptoms] the [ALL_SYMPTOMS]
    wildcard, a single [to_health_state] and a single phase (shared, or
    given for the [from] side), [add_transition_rule] inserts exactly
    one rule: the wildcard expands
    to the list of all |Severity| x |BaseSymptom| symptom values, and
    that whole list becomes the symptom set of one [from] health state
    (one [from] state per phase, not per symptom). *)
Theorem all_symptoms_wildcard_registers_one_rule
    (self : gmap HealthState.t (gset TransitionRule.t))
    (to_hs : HealthState.t) (dp : DiseasePhase.t)
    (to_symptoms : arg Symptoms.t) (to_disease_phase : arg DiseasePhase.t)
    (sc : option Qc) (fn : option Callable) :
  let from_hs := HealthState.init Symptoms.get_all_possible_symptoms dp in
  let rule := TransitionRule.init from_hs to_hs sc fn in
  TransitionRuleSet.add_transition_rule self ArgNone ArgNone (ArgOne to_hs)
    (ArgWild ALL_SYMPTOMS) to_symptoms (ArgOne dp) ArgNone to_disease_phase
    sc fn
  = Ok (TransitionRuleSet.add_rule self rule)
  ∧ (∀ at_dp,
       TransitionRuleSet.add_transition_rule self ArgNone ArgNone (ArgOne to_hs)
         (ArgWild ALL_SYMPTOMS) to_symptoms (ArgOne at_dp) (ArgOne dp)
         to_disease_phase sc fn
       = Ok (TransitionRuleSet.add_rule self rule))
  ∧ TransitionRuleSet.add_rule TransitionRuleSet.init rule
    = {[ from_hs := {[ rule ]} ]}
  ∧ TransitionRuleSet.rule_count
      (TransitionRuleSet.add_rule TransitionRuleSet.init rule) = 1
  ∧ size (HealthState.symptoms from_hs)
    = length Severity.members * length BaseSymptom.members.
Proof.
  intros from_hs rule. split_and!.
  - apply add_transition_rule_all_symptoms.
  - intros at_dp. apply add_transition_rule_all_symptoms_from_phase.
  - apply add_rule_empty.
  - apply rule_count_add_rule_empty.
  - apply all_symptoms_size.
Qed.

Lemma rule_half_quarter_ne : rule_half ≠ rule_quarter.
Proof.
  intros Heq. apply (f_equal TransitionRule.proba_score_value) in Heq.
  discriminate Heq.
Qed.

Lemma outgoing_two_rules r1 r2 :
  TransitionRule.from_health_state r1 = TransitionRule.from_health_state r2 →
  TransitionRuleSet.outgoing
    (TransitionRuleSet.add_rule
       (TransitionRuleSet.add_rule TransitionRuleSet.init r1) r2)
    (TransitionRule.from_health_state r1)
  = {[ r1; r2 ]}.
Proof.
  intros Hfrom. rewrite !outgoing_add_rule, Hfrom, !decide_True by done.
  unfold TransitionRuleSet.outgoing, TransitionRuleSet.init.
  rewrite lookup_empty. cbn [default]. by rewrite union_empty_l_L.
Qed.

Lemma size_two_rules (r1 r2 : TransitionRule.t) :
  r1 ≠ r2 → size ({[ r1; r2 ]} : gset TransitionRule.t) = 2.
Proof.
  intros Hne. rewrite size_union.
  - by rewrite !size_singleton.
  - by apply disjoint_singleton_l, not_elem_of_singleton.
Qed.

(** C3 as stated fails: the two rules share their endpoints, hence their
    hash, and the set still holds two entries. *)
Lemma same_endpoints_not_collapsed_example :
  TransitionRule.hash_key rule_half = TransitionRule.hash_key rule_quarter
  ∧ size (TransitionRuleSet.outgoing
            (TransitionRuleSet.add_rule
               (TransitionRuleSet.add_rule TransitionRuleSet.init rule_half)
               rule_quarter)
            mild_fever_onset) = 2.
Proof.
  split; [done|].
  change mild_fever_onset with (TransitionRule.from_health_state rule_half).
  rewrite (outgoing_two_rules rule_half rule_quarter eq_refl).
  apply size_two_rules, rule_half_quarter_ne.
Qed.

(** C3, as the code has it. [__hash__] looks at the two endpoints only,
    but the dataclass [__eq__] compares all five fields, and a set tells
    its elements apart by [__eq__]: two rules with the same endpoints and
    different weight sources are stored side by side, the later one
    replacing nothing.  Adding a rule that equals a stored one in every
    field leaves the rule set as it was. *)
Theorem same_endpoints_both_stored
    (self : gmap HealthState.t (gset TransitionRule.t))
    (r1 r2 : TransitionRule.t) :
  TransitionRule.hash_key r1 = TransitionRule.hash_key r2 →
  r1 ≠ r2 →
  let k := TransitionRule.from_health_state r1 in
  let rs := TransitionRuleSet.add_rule (TransitionRuleSet.add_rule self r1) r2 in
  r1 ∈ TransitionRuleSet.outgoing rs k
  ∧ r2 ∈ TransitionRuleSet.outgoing rs k
  ∧ size (TransitionRuleSet.outgoing
            (TransitionRuleSet.add_rule
               (TransitionRuleSet.add_rule TransitionRuleSet.init r1) r2) k) = 2
  ∧ TransitionRuleSet.add_rule (TransitionRuleSet.add_rule self r1) r1
    = TransitionRuleSet.add_rule self r1.
Proof.
  intros [= Hfrom Hto] Hne k rs. subst k rs.
  rewrite !outgoing_add_rule, <-Hfrom, !decide_True by done.
  split_and!.
  - apply elem_of_union_l, elem_of_union_r. by apply elem_of_singleton.
  - apply elem_of_union_r. by apply elem_of_singleton.
  - pose proof (outgoing_two_rules r1 r2 Hfrom) as Hout.
    rewrite !outgoing_add_rule, <-Hfrom, !decide_True in Hout by done.
    rewrite Hout. by apply size_two_rules.
  - apply add_rule_idempotent.
Qed.

Lemma same_endpoints_both_stored_witness :
  rule_half ∈ TransitionRuleSet.outgoing
      (TransitionRuleSet.add_rule
         (TransitionRuleSet.add_rule TransitionRuleSet.init rule_half)
         rule_quarter) mild_fever_onset
  ∧ rule_quarter ∈ TransitionRuleSet.outgoing
      (TransitionRuleSet.add_rule
         (TransitionRuleSet.add_rule TransitionRuleSet.init rule_half)
         rule_quarter) mild_fever_onset.
Proof.
  destruct (same_endpoints_both_stored TransitionRuleSet.init
              rule_half rule_quarter eq_refl rule_half_quarter_ne)
    as (H1 & H2 & _).
  exact (conj H1 H2).
Defined.

(** C4. On the [from] side a given [from_disease_phase] takes priority
    over [at_disease_phase].  On the [to] side it does not: with both
    [to_disease_phase] and [at_disease_phase] given, the [to] health
    state is built at [at_disease_phase], whatever [to_disease_phase]
    is; and with [to_disease_phase] left out the call raises a
    [TypeError]. *)
Theorem to_side_built_at_shared_phase
    (self : gmap HealthState.t (gset TransitionRule.t))
    (from_hs to_hs : HealthState.t) (from_sym to_sym : Symptoms.t)
    (at_dp from_dp to_dp : DiseasePhase.t)
    (from_symptoms to_symptoms : arg Symptoms.t)
    (from_disease_phase to_disease_phase : arg DiseasePhase.t)
    (sc : option Qc) (fn : option Callable) :
  TransitionRuleSet.add_transition_rule self ArgNone ArgNone (ArgOne to_hs)
    (ArgOne from_sym) to_symptoms (ArgOne at_dp) (ArgOne from_dp)
    to_disease_phase sc fn
  = Ok (TransitionRuleSet.add_rule self
          (TransitionRule.init (HealthState.init [from_sym] from_dp) to_hs sc fn))
  ∧ TransitionRuleSet.add_transition_rule self ArgNone (ArgOne from_hs) ArgNone
      from_symptoms (ArgOne to_sym) (ArgOne at_dp) from_disease_phase
      (ArgOne to_dp) sc fn
    = Ok (TransitionRuleSet.add_rule self
            (TransitionRule.init from_hs (HealthState.init [to_sym] at_dp) sc fn))
  ∧ TransitionRuleSet.add_transition_rule self ArgNone (ArgOne from_hs) ArgNone
      from_symptoms (ArgOne to_sym) (ArgOne at_dp) from_disease_phase
      ArgNone sc fn
    = Raise NoneNotIterable.
Proof. split_and!; reflexivity. Qed.

(** The failing input of C4: shared phase COVID onset, [to] phase COVID
    plateau; the registered rule leads to a state at COVID onset. *)
Lemma to_side_built_at_shared_phase_example :
  TransitionRuleSet.add_transition_rule TransitionRuleSet.init ArgNone
    (ArgOne mild_fever_onset) ArgNone ArgNone (ArgOne moderate_fever)
    (ArgOne covid_onset) ArgNone (ArgOne covid_plateau) None None
  = Ok (TransitionRuleSet.add_rule TransitionRuleSet.init
          (TransitionRule.init mild_fever_onset
             (HealthState.init [moderate_fever] covid_onset) None None))
  ∧ covid_onset ≠ covid_plateau.
Proof. split; [reflexivity | discriminate]. Qed.

(** C10. With a pre-built rule, or an iterable of rules, as
    [transition_rule], the outcome of [add_transition_rule] does not
    depend on any other argument: the supplied rules, as they are, are
    added one by one, each under its own [from_health_state], and
    nothing else changes in the rule set. *)
Theorem prebuilt_rules_ignore_other_arguments
    (self : gmap HealthState.t (gset TransitionRule.t))
    (rules : list TransitionRule.t) (rule : TransitionRule.t)
    (from_health_state to_health_state : arg HealthState.t)
    (from_symptoms to_symptoms : arg Symptoms.t)
    (at_disease_phase from_disease_phase to_disease_phase : arg DiseasePhase.t)
    (proba_score_value : option Qc) (proba_fn : option Callable) :
  TransitionRuleSet.add_transition_rule self (ArgIter (Inst <$> rules))
    from_health_state to_health_state from_symptoms to_symptoms
    at_disease_phase from_disease_phase to_disease_phase
    proba_score_value proba_fn
  = Ok (foldl TransitionRuleSet.add_rule self rules)
  ∧ TransitionRuleSet.add_transition_rule self (ArgOne rule)
      from_health_state to_health_state from_symptoms to_symptoms
      at_disease_phase from_disease_phase to_disease_phase
      proba_score_value proba_fn
    = Ok (TransitionRuleSet.add_rule self rule)
  ∧ (∀ k,
       TransitionRuleSet.outgoing
         (foldl TransitionRuleSet.add_rule self rules) k
       = TransitionRuleSet.outgoing self k
         ∪ list_to_set
             (filter (λ r, TransitionRule.from_health_state r = k) rules))
  ∧ (∀ k,
       TransitionRuleSet.outgoing (TransitionRuleSet.add_rule self rule) k
       = if decide (TransitionRule.from_health_state rule = k)
         then TransitionRuleSet.outgoing self k ∪ {[ rule ]}
         else TransitionRuleSet.outgoing self k).
Proof.
  split_and!.
  - unfold TransitionRuleSet.add_transition_rule. cbn [is_None].
    unfold TransitionRuleSet._validate_transition_rule.
    by rewrite assert_all_instances_Inst.
  - reflexivity.
  - intros k. apply outgoing_foldl_add_rule.
  - intros k. apply outgoing_add_rule.
Qed.

(** ** The rule set: sampling *)

Lemma no_empty_key_init : no_empty_key TransitionRuleSet.init.
Proof. intros k s. unfold TransitionRuleSet.init. by rewrite lookup_empty. Qed.

Lemma no_empty_key_add_rule self r :
  no_empty_key self → no_empty_key (TransitionRuleSet.add_rule self r).
Proof.
  intros Hwf k s. rewrite add_rule_insert, lookup_insert.
  case_decide as Hk.
  - intros [= <-] Hempty.
    assert (r ∈ (∅ : gset TransitionRule.t)) as Hin.
    { rewrite <-Hempty. apply elem_of_union_r. by apply elem_of_singleton. }
    by apply not_elem_of_empty in Hin.
  - apply Hwf.
Qed.

Lemma no_empty_key_foldl self (rules : list TransitionRule.t) :
  no_empty_key self → no_empty_key (foldl TransitionRuleSet.add_rule self rules).
Proof.
  revert self. induction rules as [|r rules IH]; intros self Hwf; [done|].
  cbn [foldl]. by apply IH, no_empty_key_add_rule.
Qed.

Lemma lookup_None_outgoing self k :
  no_empty_key self →
  self !! k = None ↔ TransitionRuleSet.outgoing self k = ∅.
Proof.
  intros Hwf. unfold TransitionRuleSet.outgoing.
  destruct (self !! k) as [s|] eqn:Hk; cbn [default]; [|done].
  split; [done|]. intros Hs. by apply Hwf in Hk.
Qed.

Lemma registered_lookup_None (rules : list TransitionRule.t) k :
  foldl TransitionRuleSet.add_rule TransitionRuleSet.init rules !! k = None
  ↔ Forall (λ r, TransitionRule.from_health_state r ≠ k) rules.
Proof.
  rewrite lookup_None_outgoing
    by apply no_empty_key_foldl, no_empty_key_init.
  rewrite outgoing_foldl_add_rule.
  unfold TransitionRuleSet.outgoing, TransitionRuleSet.init.
  rewrite lookup_empty. cbn [default]. rewrite union_empty_l_L.
  rewrite Forall_forall. split.
  - intros Hempty r Hr Hfrom.
    assert (r ∈ (∅ : gset TransitionRule.t)) as Hin.
    { rewrite <-Hempty. apply elem_of_list_to_set, list_elem_of_filter. done. }
    by apply not_elem_of_empty in Hin.
  - intros Hall. apply elem_of_equiv_empty_L. intros r.
    rewrite elem_of_list_to_set, list_elem_of_filter.
    intros [Hfrom Hr]. by apply (Hall r).
Qed.

Section sampling_facts.
Import TransitionRuleSet.
Context {Kwargs Rng : Type}.
Variable call : Callable → TransitionRule.t → Kwargs → Qc.
Variable random_sample : Rng → Qc * Rng.
Implicit Types (self : gmap HealthState.t (gset TransitionRule.t)).

Lemma sample_no_key self cur rng kw :
  self !! cur = None →
  sample_next_health_state call random_sample self cur rng kw
  = (Raise NoForwardRule, self, rng).
Proof. intros Hk. unfold sample_next_health_state. by rewrite Hk. Qed.

Lemma sample_empty_key self cur rng kw :
  self !! cur = Some ∅ →
  sample_next_health_state call random_sample self cur rng kw
  = (Raise UnpackError, self, rng).
Proof.
  intros Hk. unfold sample_next_health_state, defaultdict_getitem.
  rewrite Hk. by rewrite elements_empty.
Qed.

(** With rules under the key, the outcome is that of [rng.choice] on
    the destinations and the normalised weights. *)
Lemma sample_some_key self cur rng kw s :
  self !! cur = Some s →
  s ≠ ∅ →
  sample_next_health_state call random_sample self cur rng kw
  = let '(next_health_state, rng') :=
      choice random_sample rng
        (TransitionRule.to_health_state <$> elements s)
        (normalize
           ((λ r, TransitionRule.get_proba call r kw) <$> elements s)) in
    (next_health_state, self, rng').
Proof.
  intros Hk Hs. unfold sample_next_health_state, defaultdict_getitem.
  rewrite Hk.
  destruct (elements s) as [|r rules] eqn:Hel.
  { by apply elements_empty_inv, leibniz_equiv in Hel. }
  cbn [fmap list_fmap fst snd]. by rewrite <-!list_fmap_compose.
Qed.

Lemma sample_rule_set_unchanged self cur rng kw :
  (sample_next_health_state call random_sample self cur rng kw).1.2 = self.
Proof.
  destruct (self !! cur) as [s|] eqn:Hk.
  - destruct (decide (s = ∅)) as [->|Hs].
    + by rewrite sample_empty_key.
    + rewrite (sample_some_key _ _ _ _ s) by done.
      by destruct (choice _ _ _ _).
  - by rewrite sample_no_key.
Qed.

Lemma choice_not_NoForwardRule {A} rng (a : list A) p :
  (choice random_sample rng a p).1 ≠ Raise NoForwardRule.
Proof.
  unfold choice. destruct p as [p|]; [|done].
  destruct (existsb _ p); [done|].
  case_bool_decide; [|done].
  destruct (random_sample rng) as [u rng'].
  by destruct (a !! _).
Qed.

Lemma sample_NoForwardRule_iff self cur rng kw :
  no_empty_key self →
  (sample_next_health_state call random_sample self cur rng kw).1.1
  = Raise NoForwardRule
  ↔ self !! cur = None.
Proof.
  intros Hwf. destruct (self !! cur) as [s|] eqn:Hk.
  - rewrite (sample_some_key _ _ _ _ s) by eauto.
    pose proof (choice_not_NoForwardRule rng
                  (TransitionRule.to_health_state <$> elements s)
                  (normalize
                     ((λ r, TransitionRule.get_proba call r kw)
                        <$> elements s))) as Hc.
    destruct (choice _ _ _ _) as [res rng']. by split.
  - by rewrite sample_no_key.
Qed.
End sampling_facts.

(** C9. For every rule set, current state, generator and context,
    [sample_next_health_state] leaves the rule-set mapping as it found
    it: same keys, same sets of rules, same rules (the lookup on the
    [defaultdict] happens only after the membership test, so no key is
    added).  Only the generator comes back changed. *)
Theorem sample_leaves_rule_set_unchanged
    {Kwargs Rng : Type}
    (call : Callable → TransitionRule.t → Kwargs → Qc)
    (random_sample : Rng → Qc * Rng)
    (self : gmap HealthState.t (gset TransitionRule.t))
    (current_health_state : HealthState.t) (rng : Rng) (kwargs : Kwargs) :
  (TransitionRuleSet.sample_next_health_state call random_sample self
     current_health_state rng kwargs).1.2 = self.
Proof. apply sample_rule_set_unchanged. Qed.

(** C7. On a rule set built by registering the rules [rules],
    [sample_next_health_state] raises the "No forward rule" error if and
    only if none of the registered rules starts at the current health
    state. *)
Theorem sample_no_forward_rule_iff
    {Kwargs Rng : Type}
    (call : Callable → TransitionRule.t → Kwargs → Qc)
    (random_sample : Rng → Qc * Rng)
    (rules : list TransitionRule.t)
    (current_health_state : HealthState.t) (rng : Rng) (kwargs : Kwargs) :
  (TransitionRuleSet.sample_next_health_state call random_sample
     (foldl TransitionRuleSet.add_rule TransitionRuleSet.init rules)
     current_health_state rng kwargs).1.1
  = Raise NoForwardRule
  ↔ Forall (λ r, TransitionRule.from_health_state r ≠ current_health_state) rules.
Proof.
  rewrite sample_NoForwardRule_iff
    by apply no_empty_key_foldl, no_empty_key_init.
  apply registered_lookup_None.
Qed.

(** *** Weights and their normalisation *)

Section weights.
Import TransitionRuleSet.
Implicit Types (w t u : Qc) (ws p cdf : list Qc).

Lemma sum_Qc_div ws t :
  sum_Qc ((λ x, x / t)%Qc <$> ws) = (sum_Qc ws / t)%Qc.
Proof.
  induction ws as [|w ws IH]; cbn [fmap list_fmap sum_Qc foldr].
  - unfold Qcdiv. by rewrite Qcmult_0_l.
  - fold (sum_Qc ws). fold (sum_Qc ((λ x, x / t)%Qc <$> ws)).
    rewrite IH. unfold Qcdiv. by rewrite Qcmult_plus_distr_l.
Qed.

Lemma sum_Qc_normalized ws :
  sum_Qc ws ≠ 0%Qc →
  sum_Qc ((λ x, x / sum_Qc ws)%Qc <$> ws) = 1%Qc.
Proof.
  intros Ht. rewrite sum_Qc_div. unfold Qcdiv. by apply Qcmult_inv_r.
Qed.

Lemma sum_Qc_neg ws :
  ws ≠ [] → Forall (λ w, w < 0)%Qc ws → (sum_Qc ws < 0)%Qc.
Proof.
  intros Hne Hall. induction Hall as [|w ws Hw Hall IH]; [done|].
  cbn [sum_Qc foldr]. fold (sum_Qc ws).
  destruct ws as [|w' ws].
  - cbn [sum_Qc foldr]. by rewrite Qcplus_0_r.
  - apply Qcplus_neg_neg; [done|]. by apply IH.
Qed.

Lemma Qcopp_nonneg t : (t ≤ 0)%Qc → (0 ≤ - t)%Qc.
Proof. intros Ht. by apply Qcopp_le_compat in Ht. Qed.

Lemma Qcdiv_neg_neg w t : (w < 0)%Qc → (t < 0)%Qc → (0 < w / t)%Qc.
Proof.
  intros Hw Ht.
  destruct (Qclt_le_dec 0 (w / t)) as [|Hle]; [done|]. exfalso.
  assert (t ≠ 0%Qc) as Ht0 by (intros ->; by apply Qclt_not_eq in Ht).
  apply (Qcle_not_lt 0 w); [|done].
  rewrite <-(Qcmult_div_r w t Ht0).
  replace (t * (w / t))%Qc with ((- t) * (- (w / t)))%Qc by ring.
  rewrite <-(Qcmult_0_r (- t)).
  apply Qcmult_le_mono_nonneg_l; apply Qcopp_nonneg; [|done].
  by apply Qclt_le_weak.
Qed.

Lemma existsb_neg_false p :
  Forall (λ x, 0 ≤ x)%Qc p → existsb (λ x, bool_decide (x < 0)%Qc) p = false.
Proof.
  induction 1 as [|x p Hx Hall IH]; [done|]. cbn [existsb].
  rewrite IH, orb_false_r. apply bool_decide_eq_false.
  by apply Qcle_not_lt.
Qed.

Lemma existsb_neg_true p x :
  x ∈ p → (x < 0)%Qc → existsb (λ x, bool_decide (x < 0)%Qc) p = true.
Proof.
  intros Hin Hx. apply existsb_exists. exists x. split.
  - by apply list_elem_of_In.
  - by apply bool_decide_eq_true.
Qed.

Lemma length_cumsum acc p : length (cumsum acc p) = length p.
Proof.
  revert acc. induction p as [|x p IH]; intros acc; [done|].
  cbn. by rewrite IH.
Qed.

Lemma last_cumsum acc p :
  p ≠ [] → last (cumsum acc p) = Some (acc + sum_Qc p)%Qc.
Proof.
  revert acc. induction p as [|x p IH]; intros acc Hp; [done|].
  destruct p as [|y p].
  - cbn. by rewrite Qcplus_0_r.
  - change (cumsum acc (x :: y :: p))
      with ((acc + x)%Qc :: cumsum (acc + x)%Qc (y :: p)).
    change (sum_Qc (x :: y :: p)) with (x + sum_Qc (y :: p))%Qc.
    rewrite Qcplus_assoc, <-IH by done.
    by destruct (cumsum (acc + x)%Qc (y :: p)) eqn:Hc.
Qed.

(** The search stops before the end when the last entry exceeds [u]. *)
Lemma searchsorted_right_lt cdf u x :
  last cdf = Some x → (u < x)%Qc → searchsorted_right cdf u < length cdf.
Proof.
  induction cdf as [|y cdf IH]; intros Hlast Hu; [done|].
  cbn [searchsorted_right length]. case_bool_decide as Hy; [|lia].
  destruct cdf as [|y' cdf].
  - cbn in Hlast. injection Hlast as ->. by apply Qcle_not_lt in Hy.
  - apply ->Nat.succ_lt_mono. by apply IH.
Qed.
End weights.

Section degenerate_weights.
Import TransitionRuleSet.
Context {Kwargs Rng : Type}.
Variable call : Callable → TransitionRule.t → Kwargs → Qc.
Variable random_sample : Rng → Qc * Rng.
Implicit Types (self : gmap HealthState.t (gset TransitionRule.t)).

Lemma sample_zero_sum self cur rng kw s :
  self !! cur = Some s → s ≠ ∅ →
  sum_Qc (weights call s kw) = 0%Qc →
  sample_next_health_state call random_sample self cur rng kw
  = (Raise ChoiceProbabilitiesNaN, self, rng).
Proof.
  intros Hk Hs Hsum. rewrite (sample_some_key _ _ _ _ _ _ s) by done.
  fold (weights call s kw). unfold normalize.
  by rewrite bool_decide_eq_true_2.
Qed.

Lemma sample_negative_probability self cur rng kw s w :
  self !! cur = Some s → s ≠ ∅ →
  sum_Qc (weights call s kw) ≠ 0%Qc →
  w ∈ weights call s kw →
  (w / sum_Qc (weights call s kw) < 0)%Qc →
  sample_next_health_state call random_sample self cur rng kw
  = (Raise ChoiceProbabilitiesNegative, self, rng).
Proof.
  intros Hk Hs Hsum Hw Hneg. rewrite (sample_some_key _ _ _ _ _ _ s) by done.
  fold (weights call s kw). unfold normalize.
  rewrite bool_decide_eq_false_2 by done. unfold choice.
  rewrite (existsb_neg_true _ (w / sum_Qc (weights call s kw))%Qc); [done| |done].
  apply list_elem_of_fmap. by exists w.
Qed.

Lemma sample_all_negative self cur rng kw s :
  self !! cur = Some s → s ≠ ∅ →
  Forall (λ w, w < 0)%Qc (weights call s kw) →
  (0 ≤ (random_sample rng).1)%Qc → ((random_sample rng).1 < 1)%Qc →
  ∃ r, r ∈ s
       ∧ sample_next_health_state call random_sample self cur rng kw
         = (Ok (TransitionRule.to_health_state r), self, (random_sample rng).2).
Proof.
  intros Hk Hs Hneg Hu0 Hu1.
  assert (weights call s kw ≠ []) as Hne.
  { unfold weights. intros Hnil%fmap_nil_inv.
    by apply elements_empty_inv, leibniz_equiv in Hnil. }
  pose proof (sum_Qc_neg _ Hne Hneg) as Hsum.
  assert (sum_Qc (weights call s kw) ≠ 0%Qc) as Hsum0.
  { intros Heq. rewrite Heq in Hsum. by apply Qclt_not_eq in Hsum. }
  rewrite (sample_some_key _ _ _ _ _ _ s) by done.
  fold (weights call s kw). unfold normalize.
  rewrite bool_decide_eq_false_2 by done. unfold choice.
  rewrite existsb_neg_false.
  2:{ apply Forall_fmap. eapply Forall_impl; [exact Hneg|].
      intros w Hw. cbn. by apply Qclt_le_weak, Qcdiv_neg_neg. }
  rewrite bool_decide_eq_true_2 by (by apply sum_Qc_normalized).
  destruct (random_sample rng) as [u rng'] eqn:Hrs. cbn [fst snd] in *.
  set (p := (λ x, x / sum_Qc (weights call s kw))%Qc <$> weights call s kw).
  assert (searchsorted_right (cumsum 0%Qc p) u < length (elements s)) as Hidx.
  { replace (length (elements s)) with (length (cumsum 0%Qc p)).
    - apply (searchsorted_right_lt _ _ 1%Qc); [|done].
      rewrite last_cumsum by (subst p; by destruct (weights call s kw)).
      subst p. by rewrite sum_Qc_normalized, Qcplus_0_l.
    - subst p. unfold weights. by rewrite length_cumsum, !length_fmap. }
  apply lookup_lt_is_Some_2 in Hidx as [r Hr].
  rewrite list_lookup_fmap, Hr. cbn [fmap option_fmap option_map].
  exists r. split; [|done].
  apply list_elem_of_lookup_2 in Hr. by apply elem_of_elements in Hr.
Qed.
End degenerate_weights.

Lemma negative_rule_set_lookup :
  negative_rule_set !! mild_fever_onset = Some {[ rule_minus_one; rule_minus_three ]}.
Proof.
  pose proof (outgoing_two_rules rule_minus_one rule_minus_three eq_refl) as Hout.
  unfold TransitionRuleSet.outgoing in Hout. fold negative_rule_set in Hout.
  change (TransitionRule.from_health_state rule_minus_one)
    with mild_fever_onset in Hout.
  destruct (negative_rule_set !! mild_fever_onset) as [s|] eqn:Hk.
  - cbn in Hout. by subst s.
  - exfalso. cbn in Hout.
    assert (rule_minus_one ∈ (∅ : gset TransitionRule.t)) as Hin.
    { rewrite Hout. apply elem_of_union_l. by apply elem_of_singleton. }
    by apply not_elem_of_empty in Hin.
Qed.

Lemma negative_rule_set_weights :
  Forall (λ w, w < 0)%Qc
    (weights no_call {[ rule_minus_one; rule_minus_three ]} ()).
Proof.
  unfold weights. apply Forall_fmap, Forall_forall. intros r Hr.
  apply elem_of_elements, elem_of_union in Hr as [Hr|Hr];
    apply elem_of_singleton in Hr; by subst r.
Qed.

(** Registering the two rules through [add_transition_rule] is accepted. *)
Lemma negative_rule_set_registered :
  (rs ← TransitionRuleSet.add_transition_rule TransitionRuleSet.init ArgNone
          (ArgOne mild_fever_onset) (ArgOne moderate_fever_onset)
          ArgNone ArgNone ArgNone ArgNone ArgNone (Some (Q2Qc (-1))) None;
   TransitionRuleSet.add_transition_rule rs ArgNone
     (ArgOne mild_fever_onset) (ArgOne severe_cough_onset)
     ArgNone ArgNone ArgNone ArgNone ArgNone (Some (Q2Qc (-3))) None)
  = Ok negative_rule_set.
Proof. reflexivity. Qed.

(** C6 as stated fails: both outgoing weights are negative, registration
    accepts them, and the sampling call returns a destination instead of
    failing. *)
Lemma sample_negative_weights_returns :
  TransitionRule.get_proba no_call rule_minus_one () = Q2Qc (-1)
  ∧ TransitionRule.get_proba no_call rule_minus_three () = Q2Qc (-3)
  ∧ (rs ← TransitionRuleSet.add_transition_rule TransitionRuleSet.init ArgNone
            (ArgOne mild_fever_onset) (ArgOne moderate_fever_onset)
            ArgNone ArgNone ArgNone ArgNone ArgNone (Some (Q2Qc (-1))) None;
     TransitionRuleSet.add_transition_rule rs ArgNone
       (ArgOne mild_fever_onset) (ArgOne severe_cough_onset)
       ArgNone ArgNone ArgNone ArgNone ArgNone (Some (Q2Qc (-3))) None)
    = Ok negative_rule_set
  ∧ ∃ r,
      (TransitionRuleSet.sample_next_health_state no_call zero_sample
         negative_rule_set mild_fever_onset () ()).1.1
      = Ok (TransitionRule.to_health_state r).
Proof.
  split_and!; [done | done | apply negative_rule_set_registered |].
  destruct (sample_all_negative no_call zero_sample negative_rule_set
              mild_fever_onset () () _ negative_rule_set_lookup)
    as (r & _ & Hsample).
  - intros Hempty.
    assert (rule_minus_one ∈ (∅ : gset TransitionRule.t)) as Hin.
    { rewrite <-Hempty. apply elem_of_union_l. by apply elem_of_singleton. }
    by apply not_elem_of_empty in Hin.
  - apply negative_rule_set_weights.
  - done.
  - done.
  - exists r. by rewrite Hsample.
Qed.

Lemma negative_rules_nonempty :
  ({[ rule_minus_one; rule_minus_three ]} : gset TransitionRule.t) ≠ ∅.
Proof.
  intros Hempty.
  assert (rule_minus_one ∈ (∅ : gset TransitionRule.t)) as Hin.
  { rewrite <-Hempty. apply elem_of_union_l. by apply elem_of_singleton. }
  by apply not_elem_of_empty in Hin.
Qed.

(** C6, as the code has it. [sample_next_health_state] has no check of
    its own on the weights; it divides them by their sum and hands the
    result to [rng.choice].  For a state with outgoing rules: when the
    weights sum to zero, or when some weight divided by the sum is
    negative, the call fails with the [ValueError] that [rng.choice]
    raises on its [p] argument (NaN, respectively negative
    probabilities), leaving the generator as it was; when all weights
    are negative, they are normalised into a valid distribution and the
    call returns the destination of one of the rules. *)
Theorem sample_has_no_weight_guard
    {Kwargs Rng : Type}
    (call : Callable → TransitionRule.t → Kwargs → Qc)
    (random_sample : Rng → Qc * Rng)
    (self : gmap HealthState.t (gset TransitionRule.t))
    (current_health_state : HealthState.t) (rng : Rng) (kwargs : Kwargs)
    (s : gset TransitionRule.t) :
  self !! current_health_state = Some s →
  s ≠ ∅ →
  let ws := weights call s kwargs in
  let outcome :=
    TransitionRuleSet.sample_next_health_state call random_sample self
      current_health_state rng kwargs in
  (TransitionRuleSet.sum_Qc ws = 0%Qc →
   outcome = (Raise ChoiceProbabilitiesNaN, self, rng))
  ∧ (TransitionRuleSet.sum_Qc ws ≠ 0%Qc →
     (∃ w, w ∈ ws ∧ (w / TransitionRuleSet.sum_Qc ws < 0)%Qc) →
     outcome = (Raise ChoiceProbabilitiesNegative, self, rng))
  ∧ (Forall (λ w, w < 0)%Qc ws →
     (0 ≤ (random_sample rng).1)%Qc → ((random_sample rng).1 < 1)%Qc →
     ∃ r, r ∈ s
          ∧ outcome
            = (Ok (TransitionRule.to_health_state r), self,
               (random_sample rng).2)).
Proof.
  intros Hk Hs ws outcome. subst ws outcome. split_and!.
  - by apply sample_zero_sum.
  - intros Hsum (w & Hw & Hneg). by eapply sample_negative_probability.
  - by apply sample_all_negative.
Qed.

Lemma sample_has_no_weight_guard_witness :
  ∃ r, r ∈ ({[ rule_minus_one; rule_minus_three ]} : gset TransitionRule.t)
       ∧ TransitionRuleSet.sample_next_health_state no_call zero_sample
           negative_rule_set mild_fever_onset () ()
         = (Ok (TransitionRule.to_health_state r), negative_rule_set, ()).
Proof.
  destruct (sample_has_no_weight_guard no_call zero_sample negative_rule_set
              mild_fever_onset () () _ negative_rule_set_lookup
              negative_rules_nonempty) as (_ & _ & Hneg).
  apply Hneg.
  - apply negative_rule_set_weights.
  - done.
  - done.
Defined.

(** * Further properties of the code *)

(** ** Vocabularies and value classes *)

(** [Severity] is an [IntEnum]: members compare by value, and the values
    grow along the declaration order, so that a member declared later
    is the more severe one ([Severity.MILD < Severity.SEVERE]). *)
Theorem Severity_order_is_declaration_order (i j : nat) (a b : Severity.t) :
  Severity.members !! i = Some a →
  Severity.members !! j = Some b →
  (i < j ↔ (Severity.value a < Severity.value b)%Z)
  ∧ (i = j ↔ Severity.value a = Severity.value b).
Proof.
  intros Ha Hb.
  assert (i < 6 ∧ j < 6) as [Hi Hj].
  { split; eapply (lookup_lt_Some Severity.members); eassumption. }
  destruct i as [|[|[|[|[|[|i]]]]]]; try lia;
    destruct j as [|[|[|[|[|[|j]]]]]]; try lia;
    cbn in Ha, Hb; injection Ha as <-; injection Hb as <-; cbn; lia.
Qed.

Lemma Severity_order_is_declaration_order_witness :
  (1 < 4 ↔ (Severity.value Severity.MILD < Severity.value Severity.SEVERE)%Z)
  ∧ (1 = 4 ↔ Severity.value Severity.MILD = Severity.value Severity.SEVERE).
Proof.
  apply (Severity_order_is_declaration_order 1 4); reflexivity.
Defined.

Lemma Severity_getattr_exact sev :
  Str.getattr Severity.name Severity.members (Severity.name sev) = Some sev.
Proof. by destruct sev. Qed.

Lemma BaseSymptom_getattr_exact sym :
  Str.getattr BaseSymptom.name BaseSymptom.members (BaseSymptom.name sym)
  = Some sym.
Proof. by destruct sym. Qed.

Lemma Disease_getattr_exact d :
  Str.getattr Disease.name Disease.members (Disease.name d) = Some d.
Proof. by destruct d. Qed.

Lemma DiseaseContext_getattr_exact d c :
  c ∈ Disease.value d →
  Str.getattr DiseaseContext.name (Disease.value d) (DiseaseContext.name c)
  = Some c.
Proof.
  intros Hin%(bool_decide_pack _).
  by destruct d, c as [[]|[]|[]|[]].
Qed.

(** What a successful [getattr] tells: the member is one of [members]
    and carries the name asked for. *)
Lemma getattr_Some {A} (name_of : A → string) (members : list A) name m :
  Str.getattr name_of members name = Some m → m ∈ members ∧ name_of m = name.
Proof.
  unfold Str.getattr. intros [Hin Hname]%find_some.
  split; [by apply list_elem_of_In|]. by apply bool_decide_eq_true in Hname.
Qed.

Lemma getattr_None {A} (name_of : A → string) (members : list A) name m :
  Str.getattr name_of members name = None → m ∈ members → name_of m ≠ name.
Proof.
  unfold Str.getattr. intros Hnone Hin Hname.
  apply list_elem_of_In in Hin.
  apply (find_none _ _ Hnone) in Hin. by apply bool_decide_eq_false in Hin.
Qed.

(** [Symptoms.make] accepts exactly the tokens that, once upper-cased,
    are the names of a severity and of a base symptom, and returns the
    symptom so named; the matching is therefore case-insensitive.  It
    looks at the severity first: a token that names no severity raises
    the "not a valid Severity" [ValueError] whatever the symptom token
    is, and with a valid severity a token that names no base symptom
    raises the "not a valid BaseSymptom" one. *)
Theorem Symptoms_make_by_name (severity base_symptom : string) :
  (∀ x, Symptoms.make severity base_symptom = Ok x
        ↔ Str.upper severity = Severity.name (Symptoms.severity x)
          ∧ Str.upper base_symptom = BaseSymptom.name (Symptoms.base_symptom x))
  ∧ ((∀ s, Severity.name s ≠ Str.upper severity) →
     Symptoms.make severity base_symptom = Raise (NotAValidSeverity severity))
  ∧ (∀ s, Severity.name s = Str.upper severity →
          (∀ b, BaseSymptom.name b ≠ Str.upper base_symptom) →
          Symptoms.make severity base_symptom
          = Raise (NotAValidBaseSymptom base_symptom)).
Proof.
  split_and!.
  - intros [sev sym]. cbn [Symptoms.severity Symptoms.base_symptom].
    unfold Symptoms.make. split.
    + destruct (Str.getattr Severity.name _ _) as [sev'|] eqn:Hsev; [|done].
      destruct (Str.getattr BaseSymptom.name _ _) as [sym'|] eqn:Hsym; [|done].
      intros [= -> ->].
      apply getattr_Some in Hsev as [_ ->]. by apply getattr_Some in Hsym as [_ ->].
    + intros [-> ->].
      by rewrite Severity_getattr_exact, BaseSymptom_getattr_exact.
  - intros Hno. unfold Symptoms.make.
    destruct (Str.getattr Severity.name _ _) as [sev'|] eqn:Hsev; [|done].
    apply getattr_Some in Hsev as [_ Hsev]. by apply Hno in Hsev.
  - intros s Hs Hno. unfold Symptoms.make.
    rewrite <-Hs, Severity_getattr_exact.
    destruct (Str.getattr BaseSymptom.name _ _) as [sym'|] eqn:Hsym; [|done].
    apply getattr_Some in Hsym as [_ Hsym]. by apply Hno in Hsym.
Qed.

Lemma Symptoms_make_by_name_witness :
  Symptoms.make "Mild" "fever" = Ok mild_fever
  ∧ Symptoms.make "mildish" "fever" = Raise (NotAValidSeverity "mildish")
  ∧ Symptoms.make "mild" "fevers" = Raise (NotAValidBaseSymptom "fevers").
Proof.
  split_and!.
  - apply (Symptoms_make_by_name "Mild" "fever"). by split.
  - apply (Symptoms_make_by_name "mildish" "fever"). by intros [].
  - destruct (Symptoms_make_by_name "mild" "fevers") as (_ & _ & Hsym).
    apply (Hsym Severity.MILD); [done|]. by intros [].
Defined.

(** [DiseasePhase.make] accepts exactly the tokens that, once
    upper-cased, name a disease and one of that disease's own contexts,
    and returns the phase so named.  The context is looked up in the
    context class of the disease, so the name of another disease's
    context is reported as "not a valid context" ([ValueError]) and the
    assertion of the constructor never fires from [make]. *)
Theorem DiseasePhase_make_by_name (disease context : string) :
  (∀ p, DiseasePhase.make disease context = Ok p
        ↔ Str.upper disease = Disease.name (DiseasePhase.disease p)
          ∧ Str.upper context = DiseaseContext.name (DiseasePhase.context p)
          ∧ DiseasePhase.context p ∈ Disease.value (DiseasePhase.disease p))
  ∧ DiseasePhase.make disease context ≠ Raise ContextNotValidForDisease
  ∧ (∀ d, Disease.name d = Str.upper disease →
          (∀ c, c ∈ Disease.value d →
                DiseaseContext.name c ≠ Str.upper context) →
          DiseasePhase.make disease context = Raise (NotAValidContext context)).
Proof.
  split_and!.
  - intros [d c]. cbn [DiseasePhase.disease DiseasePhase.context].
    unfold DiseasePhase.make. split.
    + destruct (Str.getattr Disease.name _ _) as [d'|] eqn:Hd; [|done].
      destruct (Str.getattr DiseaseContext.name _ _) as [c'|] eqn:Hc; [|done].
      apply getattr_Some in Hd as [_ Hd]. apply getattr_Some in Hc as [Hin Hc].
      rewrite DiseasePhase_init_valid by done. by intros [= -> ->].
    + intros (-> & -> & Hin).
      rewrite Disease_getattr_exact, DiseaseContext_getattr_exact by done.
      by apply DiseasePhase_init_valid.
  - unfold DiseasePhase.make.
    destruct (Str.getattr Disease.name _ _) as [d'|] eqn:Hd; [|done].
    destruct (Str.getattr DiseaseContext.name _ _) as [c'|] eqn:Hc; [|done].
    apply getattr_Some in Hc as [Hin _].
    by rewrite DiseasePhase_init_valid.
  - intros d Hd Hno. unfold DiseasePhase.make.
    rewrite <-Hd, Disease_getattr_exact.
    destruct (Str.getattr DiseaseContext.name _ _) as [c'|] eqn:Hc; [|done].
    apply getattr_Some in Hc as [Hin Hc]. by apply Hno in Hc.
Qed.

Lemma DiseasePhase_make_by_name_witness :
  DiseasePhase.make "covid" "Onset" = Ok covid_onset
  ∧ DiseasePhase.make "covid" "cold" = Raise (NotAValidContext "cold").
Proof.
  split.
  - apply (DiseasePhase_make_by_name "covid" "Onset"). split_and!; [done..|].
    by apply (bool_decide_unpack _).
  - destruct (DiseasePhase_make_by_name "covid" "cold") as (_ & _ & Hctx).
    apply (Hctx Disease.COVID); [done|].
    intros c Hc%(bool_decide_pack _). by destruct c as [[]|[]|[]|[]].
Defined.

Lemma Severity_members_all sev : sev ∈ Severity.members.
Proof. destruct sev; apply (bool_decide_unpack _); vm_compute; exact I. Qed.

Lemma BaseSymptom_members_all sym : sym ∈ BaseSymptom.members.
Proof. destruct sym; apply (bool_decide_unpack _); vm_compute; exact I. Qed.

Lemma Disease_members_all d : d ∈ Disease.members.
Proof. destruct d; apply (bool_decide_unpack _); vm_compute; exact I. Qed.

(** [Symptoms.get_all_possible_symptoms] lists every symptom value, each
    one once: |Severity| x |BaseSymptom| entries in all. *)
Theorem all_possible_symptoms_each_once :
  NoDup Symptoms.get_all_possible_symptoms
  ∧ (∀ x, x ∈ Symptoms.get_all_possible_symptoms)
  ∧ length Symptoms.get_all_possible_symptoms
    = length Severity.members * length BaseSymptom.members.
Proof.
  split_and!.
  - apply all_symptoms_NoDup.
  - intros [sev sym]. unfold Symptoms.get_all_possible_symptoms.
    apply list_elem_of_bind. exists sev. split; [|apply Severity_members_all].
    apply list_elem_of_bind. exists sym. split; [|apply BaseSymptom_members_all].
    by apply list_elem_of_singleton.
  - reflexivity.
Qed.

Lemma all_pairs_iff d c :
  (d, c) ∈ DiseasePhase.all_pairs ↔ c ∈ Disease.value d.
Proof.
  split; [apply DiseasePhase_all_pairs_valid|].
  intros Hin. unfold DiseasePhase.all_pairs.
  apply list_elem_of_bind. exists d. split; [|apply Disease_members_all].
  apply list_elem_of_bind. exists c. split; [|done].
  by apply list_elem_of_singleton.
Qed.

(** [DiseasePhase.get_all_possible_disease_phases] returns, without
    raising, the list of exactly the valid disease phases, each one
    once. *)
Theorem all_possible_disease_phases_are_the_valid_ones :
  ∃ l, DiseasePhase.get_all_possible_disease_phases = Ok l
       ∧ NoDup l
       ∧ (∀ p, p ∈ l ↔ DiseasePhase.is_valid p = true).
Proof.
  eexists. split; [apply get_all_possible_disease_phases_Ok|]. split.
  - apply (bool_decide_unpack _). vm_compute. exact I.
  - intros [d c]. rewrite list_elem_of_fmap. unfold DiseasePhase.is_valid.
    cbn [DiseasePhase.disease DiseasePhase.context].
    rewrite bool_decide_eq_true. split.
    + intros ([d' c'] & [= -> ->] & Hin). by apply all_pairs_iff.
    + intros Hin. exists (d, c). split; [done|]. by apply all_pairs_iff.
Qed.

(** Health states are equal by value: two states built from sequences
    of symptoms are equal exactly when the sequences have the same
    members (order and repetitions do not matter) and the disease
    phases are equal; a state built from a single symptom equals the
    one built from the one-element sequence. *)
Theorem HealthState_equal_by_value
    (l1 l2 : list Symptoms.t) (dp1 dp2 : DiseasePhase.t) (x : Symptoms.t) :
  (HealthState.init l1 dp1 = HealthState.init l2 dp2
   ↔ (∀ y, y ∈ l1 ↔ y ∈ l2) ∧ dp1 = dp2)
  ∧ HealthState.init_single x dp1 = HealthState.init [x] dp1.
Proof.
  split.
  - unfold HealthState.init. split.
    + intros [= Hset ->]. split; [|done]. intros y.
      by rewrite <-!(elem_of_list_to_set (C:=gset Symptoms.t)), Hset.
    + intros [Hmem ->]. f_equal. apply set_eq. intros y.
      by rewrite !elem_of_list_to_set.
  - unfold HealthState.init_single, HealthState.init. f_equal.
    cbn [list_to_set]. by rewrite union_empty_r_L.
Qed.

(** ** [HealthState.make]: broadcasting and empty sequences *)

Lemma list_times_singleton {A} (x : A) (n : nat) :
  list_times [x] n = replicate n x.
Proof.
  unfold list_times. induction n as [|n IH]; [done|].
  cbn. f_equal. exact IH.
Qed.

Lemma make_scalar_severity (s : string) (syms : list string) d c :
  syms ≠ [] →
  HealthState.make (Tok s) (Toks syms) d c
  = HealthState.make (Toks (replicate (length syms) s)) (Toks syms) d c.
Proof.
  intros Hne. rewrite (make_zip (replicate _ _)) by (left; by rewrite length_replicate).
  unfold HealthState.make, tokens_list. cbv zeta.
  rewrite (bool_decide_eq_true_2 (length [s] = 1)) by done.
  assert (length [s] `max` length syms = length syms) as ->
    by (destruct syms; [done|cbn; lia]).
  rewrite list_times_singleton, length_replicate.
  case_bool_decide as H1; [|done].
  rewrite H1. change (1 `max` 1) with 1. by rewrite list_times_1.
Qed.

Lemma make_scalar_symptom (sevs : list string) (b : string) d c :
  sevs ≠ [] →
  HealthState.make (Toks sevs) (Tok b) d c
  = HealthState.make (Toks sevs) (Toks (replicate (length sevs) b)) d c.
Proof.
  intros Hne. rewrite (make_zip _ (replicate _ _)) by (left; by rewrite length_replicate).
  unfold HealthState.make, tokens_list. cbv zeta.
  assert ((if bool_decide (length sevs = 1)
           then list_times sevs (length sevs `max` length [b]) else sevs) = sevs)
    as ->.
  { case_bool_decide as H1; [|done].
    rewrite H1. change (1 `max` length [b]) with 1. apply list_times_1. }
  rewrite (bool_decide_eq_true_2 (length [b] = 1)) by done.
  assert (length sevs `max` length [b] = length sevs) as ->
    by (destruct sevs; [done|cbn; lia]).
  by rewrite list_times_singleton.
Qed.

Lemma zip_replicate_l_names (sev : Severity.t) (syms : list BaseSymptom.t) :
  zip (replicate (length (BaseSymptom.name <$> syms)) (Severity.name sev))
      (BaseSymptom.name <$> syms)
  = (λ p, (Severity.name p.1, BaseSymptom.name p.2))
      <$> ((λ b, (sev, b)) <$> syms).
Proof. induction syms as [|b syms IH]; [done|]. cbn. f_equal. exact IH. Qed.

Lemma zip_replicate_r_names (sevs : list Severity.t) (sym : BaseSymptom.t) :
  zip (Severity.name <$> sevs)
      (replicate (length (Severity.name <$> sevs)) (BaseSymptom.name sym))
  = (λ p, (Severity.name p.1, BaseSymptom.name p.2))
      <$> ((λ s, (s, sym)) <$> sevs).
Proof. induction sevs as [|s sevs IH]; [done|]. cbn. f_equal. exact IH. Qed.

(** Broadcasting in [HealthState.make]: a single severity given with a
    non-empty sequence of symptom kinds is attached to every one of
    them, and a single symptom kind given with a non-empty sequence of
    severities is repeated for every severity. *)
Theorem make_broadcasts_scalar
    (sev : Severity.t) (syms : list BaseSymptom.t)
    (sevs : list Severity.t) (sym : BaseSymptom.t) d c :
  c ∈ Disease.value d →
  (syms ≠ [] →
   HealthState.make (Tok (Severity.name sev)) (Toks (BaseSymptom.name <$> syms))
     (Disease.name d) (DiseaseContext.name c)
   = Ok (HealthState.init (Symptoms.Build sev <$> syms) (DiseasePhase.Build d c)))
  ∧ (sevs ≠ [] →
     HealthState.make (Toks (Severity.name <$> sevs)) (Tok (BaseSymptom.name sym))
       (Disease.name d) (DiseaseContext.name c)
     = Ok (HealthState.init ((λ s, Symptoms.Build s sym) <$> sevs)
             (DiseasePhase.Build d c))).
Proof.
  intros Hc. split; intros Hne.
  - rewrite make_scalar_severity by (by destruct syms).
    rewrite make_zip by (left; by rewrite length_replicate).
    rewrite zip_replicate_l_names.
    rewrite (mapM_Ok _ _ (λ p, Symptoms.Build p.1 p.2))
      by (intros; apply Symptoms_make_name).
    cbn [mbind result_bind]. rewrite DiseasePhase_make_name by done.
    cbn [mbind result_bind]. by rewrite <-list_fmap_compose.
  - rewrite make_scalar_symptom by (by destruct sevs).
    rewrite make_zip by (left; by rewrite length_replicate).
    rewrite zip_replicate_r_names.
    rewrite (mapM_Ok _ _ (λ p, Symptoms.Build p.1 p.2))
      by (intros; apply Symptoms_make_name).
    cbn [mbind result_bind]. rewrite DiseasePhase_make_name by done.
    cbn [mbind result_bind]. by rewrite <-list_fmap_compose.
Qed.

Lemma make_broadcasts_scalar_witness :
  HealthState.make (Tok "MILD") (Toks ["FEVER"; "COUGH"]) "COVID" "ONSET"
  = Ok (HealthState.init
          [Symptoms.Build Severity.MILD BaseSymptom.FEVER;
           Symptoms.Build Severity.MILD BaseSymptom.COUGH] covid_onset).
Proof.
  apply (make_broadcasts_scalar Severity.MILD
           [BaseSymptom.FEVER; BaseSymptom.COUGH] [] BaseSymptom.FEVER
           Disease.COVID (DiseaseContext.Covid CovidContext.ONSET)).
  - by apply (bool_decide_unpack _).
  - done.
Defined.

(** With an empty sequence on either side [HealthState.make] pairs
    nothing: the tokens of the other side are never looked up, and the
    result is the health state without symptoms at the given phase (or
    the error of the phase). *)
Theorem make_with_empty_sequence (toks : tokens) (disease context : string) :
  HealthState.make toks (Toks []) disease context
  = (disease_phase ← DiseasePhase.make disease context;
     Ok (HealthState.init [] disease_phase))
  ∧ HealthState.make (Toks []) toks disease context
    = (disease_phase ← DiseasePhase.make disease context;
       Ok (HealthState.init [] disease_phase)).
Proof.
  split; unfold HealthState.make; cbv zeta.
  - cbn [tokens_list length].
    rewrite (bool_decide_eq_false_2 (0 = 1)) by done.
    by rewrite zip_with_nil_r.
  - cbn [tokens_list length].
    rewrite (bool_decide_eq_false_2 (0 = 1)) by done. reflexivity.
Qed.

(** ** [HealthState.parse]: clauses and malformed descriptions *)

Lemma split_go_no_occurrence sep s cur :
  Str.occurs sep s = false → Str.split_go sep 0 cur s = [cur +:+ s].
Proof.
  revert cur. induction s as [|c s IH]; intros cur Hocc.
  - by rewrite StrFacts.app_nil_r.
  - cbn [Str.occurs] in Hocc. apply orb_false_iff in Hocc as [Hpre Hocc].
    cbn [Str.split_go]. rewrite Hpre, IH by done.
    by rewrite StrFacts.app_assoc.
Qed.

Lemma mapM_cons_Ok {A B} (f : A → result B) x l ys :
  mapM f (x :: l) = Ok ys → ∃ y ys', ys = y :: ys'.
Proof.
  cbn. destruct (f x) as [y|]; [|done]. cbn.
  destruct (mapM f l) as [ys'|]; [|done]. cbn. intros [= <-]. eauto.
Qed.

Lemma mapM_Raise {A B} (f : A → result B) (l : list A) e x :
  x ∈ l → f x = Raise e → (∀ y e', y ∈ l → f y = Raise e' → e' = e) →
  mapM f l = Raise e.
Proof.
  induction l as [|y l IH]; intros Hin Hx Hall; [by apply elem_of_nil in Hin|].
  cbn. destruct (f y) as [z|e'] eqn:Hy.
  - cbn. apply elem_of_cons in Hin as [->|Hin]; [congruence|].
    rewrite IH; [done..|]. intros y' e'' Hy'. apply Hall. by right.
  - cbn. f_equal. apply (Hall y); [by left|done].
Qed.

(** The first step of [parse], for a text whose symptom part is a list
    of clauses free of commas and of the letter [a]. *)
Lemma parse_split_at (clauses : list string) (dd : string) :
  Forall (λ s, Str.has_char "," s = false ∧ Str.has_char "a" s = false) clauses →
  Str.occurs " at " dd = false →
  Str.split " at " (Str.join ", " clauses +:+ " at " +:+ dd)
  = [Str.join ", " clauses; dd].
Proof.
  intros Hcl Hdd. unfold Str.split.
  rewrite StrFacts.split_go_second_absent.
  - rewrite split_go_no_occurrence by done. by rewrite !StrFacts.app_nil_l.
  - done.
  - apply StrFacts.has_char_join; [done|].
    eapply Forall_impl; [exact Hcl|]. by intros s [_ Hs].
Qed.

Lemma parse_clauses_general (clauses : list string)
    (parsed : list (string * string)) (dd disease context : string) :
  clauses ≠ [] →
  Forall (λ s, Str.has_char "," s = false ∧ Str.has_char "a" s = false) clauses →
  mapM HealthState.parse_symptom_desc clauses = Ok parsed →
  Str.occurs " at " dd = false →
  Str.split " " dd = [disease; context] →
  HealthState.parse (Str.join ", " clauses +:+ " at " +:+ dd)
  = HealthState.make (Toks (parsed.*1)) (Toks (parsed.*2)) disease context.
Proof.
  intros Hne Hcl Hparsed Hdd Hsplit. unfold HealthState.parse.
  rewrite parse_split_at by done.
  rewrite StrFacts.split_join.
  - rewrite Hparsed. cbn [mbind result_bind].
    destruct clauses as [|c clauses]; [done|].
    apply mapM_cons_Ok in Hparsed as (y & ys & ->).
    by rewrite Hsplit.
  - done.
  - eapply Forall_impl; [exact Hcl|]. by intros s [Hs _].
Qed.

Lemma symptom_clause_chars item :
  Str.has_char "," (symptom_clause item) = false
  ∧ Str.has_char "a" (symptom_clause item) = false.
Proof.
  destruct item as [[sev|] sym]; unfold symptom_clause; cbn [fst snd].
  - apply (Symptoms_str_chars (Symptoms.Build sev sym)).
  - by destruct (BaseSymptom_name_chars sym) as (_ & -> & ->).
Qed.

Lemma parse_symptom_desc_clause item :
  HealthState.parse_symptom_desc (symptom_clause item)
  = Ok (match item.1 with
        | Some sev => Severity.name sev
        | None => "undefined"
        end, BaseSymptom.name item.2).
Proof.
  destruct item as [[sev|] sym]; unfold symptom_clause; cbn [fst snd].
  - apply (parse_symptom_desc_str (Symptoms.Build sev sym)).
  - unfold HealthState.parse_symptom_desc, Str.split.
    rewrite StrFacts.split_go_first_none by apply BaseSymptom_name_chars.
    by rewrite StrFacts.app_nil_l.
Qed.

Lemma Symptoms_make_clause item :
  Symptoms.make
    (match item.1 with Some sev => Severity.name sev | None => "undefined" end)
    (BaseSymptom.name item.2)
  = Ok (symptom_of_clause item).
Proof.
  destruct item as [[sev|] sym]; cbn [fst snd].
  - apply Symptoms_make_name.
  - unfold Symptoms.make.
    change (Str.getattr Severity.name Severity.members (Str.upper "undefined"))
      with (Some Severity.UNDEFINED).
    by rewrite BaseSymptom_getattr_name.
Qed.

Lemma phase_words_no_at d c :
  Str.occurs " at " (Disease.name d +:+ " " +:+ DiseaseContext.name c) = false.
Proof. by destruct d, c as [[]|[]|[]|[]]. Qed.

(** [parse] reads a description clause by clause: a clause
    "<severity> <symptom>" gives the symptom with that severity, a
    clause that is a symptom name alone gives it the severity
    [UNDEFINED].  For every non-empty list of such clauses and every
    valid phase, the description parses to the health state of those
    symptoms at that phase. *)
Theorem parse_clauses_with_default_severity
    (items : list (option Severity.t * BaseSymptom.t)) d c :
  items ≠ [] →
  c ∈ Disease.value d →
  HealthState.parse
    (Str.join ", " (symptom_clause <$> items) +:+ " at "
     +:+ Disease.name d +:+ " " +:+ DiseaseContext.name c)
  = Ok (HealthState.init (symptom_of_clause <$> items) (DiseasePhase.Build d c)).
Proof.
  intros Hne Hc.
  rewrite (parse_clauses_general _
             ((λ item, (match item.1 with
                        | Some sev => Severity.name sev
                        | None => "undefined"
                        end, BaseSymptom.name item.2)) <$> items)
             _ (Disease.name d) (DiseaseContext.name c)).
  - rewrite make_zip by (left; by rewrite !length_fmap).
    rewrite <-!list_fmap_compose.
    assert (∀ (l : list (option Severity.t * BaseSymptom.t))
              (f : _ → string) (g : _ → string),
              zip (f <$> l) (g <$> l) = (λ x, (f x, g x)) <$> l) as Hzip.
    { intros l f g. induction l as [|x l IH]; [done|]. cbn. by rewrite IH. }
    rewrite Hzip.
    rewrite (mapM_Ok _ _ symptom_of_clause)
      by (intros item _; apply (Symptoms_make_clause item)).
    cbn [mbind result_bind]. rewrite DiseasePhase_make_name by done.
    reflexivity.
  - by destruct items.
  - apply Forall_fmap, Forall_forall. intros item _. apply symptom_clause_chars.
  - apply mapM_Ok. intros item _. apply parse_symptom_desc_clause.
  - apply phase_words_no_at.
  - apply split_phase_words.
Qed.

Lemma parse_clauses_with_default_severity_witness :
  HealthState.parse "SEVERE FEVER, HEADACHE at COVID ONSET"
  = Ok (HealthState.init
          [Symptoms.Build Severity.SEVERE BaseSymptom.FEVER;
           Symptoms.Build Severity.UNDEFINED BaseSymptom.HEADACHE] covid_onset).
Proof.
  apply (parse_clauses_with_default_severity
           [(Some Severity.SEVERE, BaseSymptom.FEVER); (None, BaseSymptom.HEADACHE)]
           Disease.COVID (DiseaseContext.Covid CovidContext.ONSET)).
  - done.
  - by apply (bool_decide_unpack _).
Defined.

Lemma parse_symptom_desc_only_error desc e :
  HealthState.parse_symptom_desc desc = Raise e → e = ParseTooManyComponents.
Proof.
  unfold HealthState.parse_symptom_desc.
  destruct (Str.split " " desc) as [|a [|b [|c l]]]; by intros [= <-].
Qed.

Lemma parse_symptom_desc_too_many desc :
  2 < length (Str.split " " desc) →
  HealthState.parse_symptom_desc desc = Raise ParseTooManyComponents.
Proof.
  unfold HealthState.parse_symptom_desc.
  destruct (Str.split " " desc) as [|a [|b [|c l]]]; cbn; (lia || done).
Qed.

(** Malformed descriptions.  A description in which the separator
    [" at "] does not occur raises the [ValueError] of the failed
    unpacking.  A description one of whose symptom clauses has more than
    two space-separated components raises the [ValueError] of the
    clause loop, before the phase part is looked at. *)
Theorem parse_malformed_description :
  (∀ desc, Str.occurs " at " desc = false →
           HealthState.parse desc = Raise UnpackError)
  ∧ (∀ (clauses : list string) (bad dd : string),
       Forall (λ s, Str.has_char "," s = false ∧ Str.has_char "a" s = false)
         clauses →
       bad ∈ clauses →
       2 < length (Str.split " " bad) →
       Str.occurs " at " dd = false →
       HealthState.parse (Str.join ", " clauses +:+ " at " +:+ dd)
       = Raise ParseTooManyComponents).
Proof.
  split.
  - intros desc Hocc. unfold HealthState.parse, Str.split.
    by rewrite split_go_no_occurrence.
  - intros clauses bad dd Hcl Hbad Hlen Hdd. unfold HealthState.parse.
    rewrite parse_split_at by done.
    rewrite StrFacts.split_join.
    + rewrite (mapM_Raise _ _ ParseTooManyComponents bad); [done|done| |].
      * by apply parse_symptom_desc_too_many.
      * intros y e' _. apply parse_symptom_desc_only_error.
    + intros ->. by apply elem_of_nil in Hbad.
    + eapply Forall_impl; [exact Hcl|]. by intros s [Hs _].
Qed.

Lemma parse_malformed_description_witness :
  HealthState.parse "MILD FEVER COVID ONSET" = Raise UnpackError
  ∧ HealthState.parse "VERY MILD FEVER at COVID ONSET"
    = Raise ParseTooManyComponents.
Proof.
  destruct parse_malformed_description as [Hsep Hclause]. split.
  - by apply Hsep.
  - apply (Hclause ["VERY MILD FEVER"] "VERY MILD FEVER" "COVID ONSET").
    + by repeat constructor.
    + by apply list_elem_of_singleton.
    + change (Str.split " " "VERY MILD FEVER") with ["VERY"; "MILD"; "FEVER"].
      simpl. lia.
    + done.
Defined.

(** ** Registration: what the rule set becomes *)

Section registration_facts.
Import TransitionRuleSet.
Implicit Types (self : gmap HealthState.t (gset TransitionRule.t)).
Implicit Types (r : TransitionRule.t) (k : HealthState.t).

Lemma lookup_add_rule self r k :
  add_rule self r !! k
  = if decide (TransitionRule.from_health_state r = k)
    then Some (outgoing self k ∪ {[ r ]}) else self !! k.
Proof.
  rewrite add_rule_insert. case_decide as Hk.
  - subst k. by rewrite lookup_insert_eq.
  - by rewrite lookup_insert_ne.
Qed.

Lemma lookup_foldl_add_rule self (l : list TransitionRule.t) k :
  foldl add_rule self l !! k
  = match filter (λ r, TransitionRule.from_health_state r = k) l with
    | [] => self !! k
    | rules => Some (outgoing self k ∪ list_to_set rules)
    end.
Proof.
  revert self. induction l as [|r l IH]; intros self; [done|].
  cbn [foldl]. rewrite IH, filter_cons.
  rewrite lookup_add_rule, outgoing_add_rule.
  destruct (decide (TransitionRule.from_health_state r = k)) as [Hk|Hk].
  - destruct (filter _ l) as [|r' rules] eqn:Hf.
    + cbn [list_to_set]. by rewrite union_empty_r_L.
    + f_equal. cbn [list_to_set]. by rewrite !(assoc_L (∪)).
  - done.
Qed.

Lemma filter_same_members (P : TransitionRule.t → Prop) `{!∀ r, Decision (P r)}
    (l1 l2 : list TransitionRule.t) :
  (∀ r, r ∈ l1 ↔ r ∈ l2) →
  ∀ r, r ∈ filter P l1 ↔ r ∈ filter P l2.
Proof. intros Hmem r. rewrite !list_elem_of_filter, Hmem. done. Qed.

Lemma foldl_add_rule_members self (l1 l2 : list TransitionRule.t) :
  (∀ r, r ∈ l1 ↔ r ∈ l2) →
  foldl add_rule self l1 = foldl add_rule self l2.
Proof.
  intros Hmem. apply map_eq. intros k. rewrite !lookup_foldl_add_rule.
  pose proof (filter_same_members
                (λ r, TransitionRule.from_health_state r = k) l1 l2 Hmem) as Hf.
  destruct (filter _ l1) as [|r1 f1] eqn:H1, (filter _ l2) as [|r2 f2] eqn:H2.
  - done.
  - exfalso. apply (elem_of_nil r2), Hf. by left.
  - exfalso. apply (elem_of_nil r1), Hf. by left.
  - f_equal. f_equal. apply set_eq. intros r.
    by rewrite !elem_of_list_to_set.
Qed.
End registration_facts.

(** Registration depends only on which rules are registered, not on the
    order in which they come nor on how often: two sequences of rules
    with the same members, added one by one to the same rule set, leave
    the same rule set.  In particular two [add_rule] calls commute. *)
Theorem registration_order_irrelevant
    (self : gmap HealthState.t (gset TransitionRule.t))
    (l1 l2 : list TransitionRule.t) (r1 r2 : TransitionRule.t) :
  ((∀ r, r ∈ l1 ↔ r ∈ l2) →
   foldl TransitionRuleSet.add_rule self l1
   = foldl TransitionRuleSet.add_rule self l2)
  ∧ TransitionRuleSet.add_rule (TransitionRuleSet.add_rule self r1) r2
    = TransitionRuleSet.add_rule (TransitionRuleSet.add_rule self r2) r1.
Proof.
  split; [apply foldl_add_rule_members|].
  apply (foldl_add_rule_members self [r1; r2] [r2; r1]).
  intros r. rewrite !elem_of_cons. tauto.
Qed.

Lemma registration_order_irrelevant_witness :
  foldl TransitionRuleSet.add_rule TransitionRuleSet.init
    [rule_half; rule_quarter; rule_half]
  = foldl TransitionRuleSet.add_rule TransitionRuleSet.init
      [rule_quarter; rule_half].
Proof.
  destruct (registration_order_irrelevant TransitionRuleSet.init
              [rule_half; rule_quarter; rule_half] [rule_quarter; rule_half]
              rule_half rule_half) as [Hmembers _].
  apply Hmembers. intros r. rewrite !elem_of_cons. tauto.
Defined.

Lemma add_transition_rule_is_foldl
    (self self' : gmap HealthState.t (gset TransitionRule.t))
    tr fh th fs ts ap fp tp sc fn :
  TransitionRuleSet.add_transition_rule self tr fh th fs ts ap fp tp sc fn
  = Ok self' →
  ∃ rules, self' = foldl TransitionRuleSet.add_rule self rules.
Proof.
  unfold TransitionRuleSet.add_transition_rule.
  destruct (if is_None tr then _ else _) as [rules|e]; [|done].
  cbn. intros [= <-]. by exists rules.
Qed.

Lemma keyed_by_from_add_rule self r :
  keyed_by_from self → keyed_by_from (TransitionRuleSet.add_rule self r).
Proof.
  intros Hkey k s r'. rewrite lookup_add_rule.
  case_decide as Hk.
  - intros [= <-] [Hin|Hin]%elem_of_union.
    + unfold TransitionRuleSet.outgoing in Hin.
      destruct (self !! k) as [s|] eqn:Hs; cbn in Hin.
      * by eapply Hkey.
      * by apply not_elem_of_empty in Hin.
    + apply elem_of_singleton in Hin. by subst r'.
  - apply Hkey.
Qed.

Lemma keyed_by_from_foldl self (rules : list TransitionRule.t) :
  keyed_by_from self → keyed_by_from (foldl TransitionRuleSet.add_rule self rules).
Proof.
  revert self. induction rules as [|r rules IH]; intros self Hkey; [done|].
  cbn [foldl]. by apply IH, keyed_by_from_add_rule.
Qed.

(** Invariants of registration.  The empty rule set has, and every
    successful [add_transition_rule] keeps, the two properties that
    every stored rule sits under the key equal to its own
    [from_health_state] and that no key is bound to an empty set;
    registration only ever adds: the rules stored under a key before the
    call are still stored under it afterwards. *)
Theorem registration_keeps_invariants
    (self self' : gmap HealthState.t (gset TransitionRule.t))
    (transition_rule : arg TransitionRule.t)
    (from_health_state to_health_state : arg HealthState.t)
    (from_symptoms to_symptoms : arg Symptoms.t)
    (at_disease_phase from_disease_phase to_disease_phase : arg DiseasePhase.t)
    (proba_score_value : option Qc) (proba_fn : option Callable) :
  keyed_by_from TransitionRuleSet.init
  ∧ no_empty_key TransitionRuleSet.init
  ∧ (keyed_by_from self → no_empty_key self →
     TransitionRuleSet.add_transition_rule self transition_rule
       from_health_state to_health_state from_symptoms to_symptoms
       at_disease_phase from_disease_phase to_disease_phase
       proba_score_value proba_fn = Ok self' →
     keyed_by_from self' ∧ no_empty_key self'
     ∧ ∀ k, TransitionRuleSet.outgoing self k ⊆ TransitionRuleSet.outgoing self' k).
Proof.
  split_and!.
  - intros k s r. unfold TransitionRuleSet.init. by rewrite lookup_empty.
  - apply no_empty_key_init.
  - intros Hkey Hne Hadd.
    apply add_transition_rule_is_foldl in Hadd as [rules ->]. split_and!.
    + by apply keyed_by_from_foldl.
    + by apply no_empty_key_foldl.
    + intros k. rewrite outgoing_foldl_add_rule. apply union_subseteq_l.
Qed.

Lemma registration_keeps_invariants_witness :
  keyed_by_from (TransitionRuleSet.add_rule TransitionRuleSet.init rule_half)
  ∧ no_empty_key (TransitionRuleSet.add_rule TransitionRuleSet.init rule_half).
Proof.
  destruct (registration_keeps_invariants TransitionRuleSet.init
              (TransitionRuleSet.add_rule TransitionRuleSet.init rule_half)
              (ArgOne rule_half) ArgNone ArgNone ArgNone ArgNone ArgNone
              ArgNone ArgNone None None) as (Hk & Hn & Hstep).
  destruct (Hstep Hk Hn eq_refl) as (Hk' & Hn' & _).
  exact (conj Hk' Hn').
Defined.

(** ** Registration: counting the rules *)

Lemma rule_count_insert (self : gmap HealthState.t (gset TransitionRule.t))
    k (rules : gset TransitionRule.t) :
  TransitionRuleSet.rule_count (<[k := rules]> (delete k self))
  = size rules + TransitionRuleSet.rule_count (delete k self).
Proof.
  unfold TransitionRuleSet.rule_count.
  rewrite map_fold_insert_L; [done| |apply lookup_delete_eq].
  intros. lia.
Qed.

Lemma rule_count_add_rule_fresh
    (self : gmap HealthState.t (gset TransitionRule.t)) r :
  r ∉ TransitionRuleSet.outgoing self (TransitionRule.from_health_state r) →
  TransitionRuleSet.rule_count (TransitionRuleSet.add_rule self r)
  = S (TransitionRuleSet.rule_count self).
Proof.
  intros Hfresh. rewrite add_rule_insert.
  set (k := TransitionRule.from_health_state r) in *.
  rewrite <-insert_delete_eq, rule_count_insert.
  rewrite size_union by (by apply disjoint_singleton_r).
  rewrite size_singleton.
  unfold TransitionRuleSet.outgoing in *.
  destruct (self !! k) as [old|] eqn:Hk; cbn [default] in *.
  - assert (TransitionRuleSet.rule_count self
            = size old + TransitionRuleSet.rule_count (delete k self)) as ->.
    { by rewrite <-rule_count_insert, insert_delete_id. }
    unfold id. lia.
  - rewrite size_empty, delete_id by done. lia.
Qed.

Lemma rule_count_foldl_fresh
    (self : gmap HealthState.t (gset TransitionRule.t))
    (rules : list TransitionRule.t) :
  NoDup rules →
  (∀ r, r ∈ rules →
        r ∉ TransitionRuleSet.outgoing self (TransitionRule.from_health_state r)) →
  TransitionRuleSet.rule_count (foldl TransitionRuleSet.add_rule self rules)
  = TransitionRuleSet.rule_count self + length rules.
Proof.
  intros Hnd. revert self.
  induction Hnd as [|r rules Hr Hnd IH]; intros self Hfresh; [cbn; lia|].
  cbn [foldl length]. rewrite IH.
  - rewrite rule_count_add_rule_fresh by (apply Hfresh; by left). lia.
  - intros r' Hr'. rewrite outgoing_add_rule.
    case_decide; [|apply Hfresh; by right].
    intros [Hin|Hin]%elem_of_union.
    + by apply (Hfresh r'); [right|].
    + apply elem_of_singleton in Hin. by subst r'.
Qed.

Lemma rule_count_init : TransitionRuleSet.rule_count TransitionRuleSet.init = 0.
Proof. reflexivity. Qed.

Lemma elem_of_make_rules (fs ts : list HealthState.t) sc fn r :
  r ∈ TransitionRuleSet.make_rules fs ts sc fn
  ↔ ∃ f t, f ∈ fs ∧ t ∈ ts ∧ r = TransitionRule.init f t sc fn.
Proof.
  unfold TransitionRuleSet.make_rules. rewrite list_elem_of_bind. split.
  - intros (f & (t & Hr & Ht)%list_elem_of_bind & Hf).
    apply list_elem_of_singleton in Hr. by exists f, t.
  - intros (f & t & Hf & Ht & ->). exists f. split; [|done].
    apply list_elem_of_bind. exists t. split; [|done].
    by apply list_elem_of_singleton.
Qed.

Lemma make_rules_length (fs ts : list HealthState.t) sc fn :
  length (TransitionRuleSet.make_rules fs ts sc fn) = length fs * length ts.
Proof.
  unfold TransitionRuleSet.make_rules.
  assert (∀ f, length (ts ≫= λ t, [TransitionRule.init f t sc fn]) = length ts)
    as Hrow.
  { intros f. induction ts as [|t ts IH]; [done|].
    rewrite bind_cons. cbn [length app]. by rewrite IH. }
  induction fs as [|f fs IH]; [done|].
  rewrite bind_cons, length_app, IH, Hrow. cbn [length]. lia.
Qed.

Lemma make_rules_NoDup (fs ts : list HealthState.t) sc fn :
  NoDup fs → NoDup ts → NoDup (TransitionRuleSet.make_rules fs ts sc fn).
Proof.
  intros Hfs Hts. unfold TransitionRuleSet.make_rules.
  apply NoDup_bind; [| |done].
  - intros f1 f2 r _ _ (t1 & Hr1 & _)%list_elem_of_bind
      (t2 & Hr2 & _)%list_elem_of_bind.
    apply list_elem_of_singleton in Hr1, Hr2. by simplify_eq.
  - intros f _. apply NoDup_bind; [| |done].
    + intros t1 t2 r _ _ Hr1%list_elem_of_singleton Hr2%list_elem_of_singleton.
      by simplify_eq.
    + intros t _. apply NoDup_singleton.
Qed.

(** Cross-product registration.  Given sequences of [from] and of [to]
    health states, [add_transition_rule] registers one rule per pair of
    the product (from-major), all with the given weight source, and
    looks at none of the symptom and phase arguments.  On an empty rule
    set, sequences without repetitions store exactly |from| x |to|
    rules. *)
Theorem health_state_cross_product
    (self : gmap HealthState.t (gset TransitionRule.t))
    (fs ts : list HealthState.t)
    (from_symptoms to_symptoms : arg Symptoms.t)
    (at_disease_phase from_disease_phase to_disease_phase : arg DiseasePhase.t)
    (sc : option Qc) (fn : option Callable) :
  TransitionRuleSet.add_transition_rule self ArgNone
    (ArgIter (Inst <$> fs)) (ArgIter (Inst <$> ts)) from_symptoms to_symptoms
    at_disease_phase from_disease_phase to_disease_phase sc fn
  = Ok (foldl TransitionRuleSet.add_rule self
          (TransitionRuleSet.make_rules fs ts sc fn))
  ∧ length (TransitionRuleSet.make_rules fs ts sc fn) = length fs * length ts
  ∧ (∀ r, r ∈ TransitionRuleSet.make_rules fs ts sc fn
          ↔ ∃ f t, f ∈ fs ∧ t ∈ ts ∧ r = TransitionRule.init f t sc fn)
  ∧ (NoDup fs → NoDup ts →
     TransitionRuleSet.rule_count
       (foldl TransitionRuleSet.add_rule TransitionRuleSet.init
          (TransitionRuleSet.make_rules fs ts sc fn))
     = length fs * length ts).
Proof.
  split_and!.
  - unfold TransitionRuleSet.add_transition_rule, TransitionRuleSet.shared_phases,
      TransitionRuleSet.from_side, TransitionRuleSet.to_side,
      TransitionRuleSet._validate_health_state.
    cbn [is_None orb]. by rewrite !assert_all_instances_Inst.
  - apply make_rules_length.
  - intros r. apply elem_of_make_rules.
  - intros Hfs Hts.
    rewrite rule_count_foldl_fresh, rule_count_init, make_rules_length.
    + lia.
    + by apply make_rules_NoDup.
    + intros r _. unfold TransitionRuleSet.outgoing, TransitionRuleSet.init.
      rewrite lookup_empty. apply not_elem_of_empty.
Qed.

Lemma health_state_cross_product_witness :
  TransitionRuleSet.rule_count
    (foldl TransitionRuleSet.add_rule TransitionRuleSet.init
       (TransitionRuleSet.make_rules [mild_fever_onset; moderate_fever_onset]
          [severe_cough_onset] None None))
  = 2 * 1.
Proof.
  destruct (health_state_cross_product TransitionRuleSet.init
              [mild_fever_onset; moderate_fever_onset] [severe_cough_onset]
              ArgNone ArgNone ArgNone ArgNone ArgNone None None)
    as (_ & _ & _ & Hcount).
  apply Hcount.
  - apply NoDup_cons. split; [|apply NoDup_singleton].
    intros Hin%list_elem_of_singleton. discriminate Hin.
  - apply NoDup_singleton.
Defined.

Lemma all_pairs_NoDup : NoDup DiseasePhase.all_pairs.
Proof. apply (bool_decide_unpack _). vm_compute. exact I. Qed.

(** The [ALL_DISEASE_PHASES] wildcard.  Given as the shared phase, with
    a sequence of [from] symptoms and a single [to] health state, it
    makes [add_transition_rule] register one rule per valid
    (disease, phase) pair: the [from] state of each carries the given
    symptoms at that phase.  On an empty rule set this stores as many
    rules as there are valid disease phases, each with a [from] state of
    its own. *)
Theorem all_disease_phases_wildcard
    (self : gmap HealthState.t (gset TransitionRule.t))
    (syms : list Symptoms.t) (to_hs : HealthState.t)
    (to_symptoms : arg Symptoms.t) (to_disease_phase : arg DiseasePhase.t)
    (sc : option Qc) (fn : option Callable) :
  let rules :=
    (λ p, TransitionRule.init
            (HealthState.init syms (DiseasePhase.Build p.1 p.2)) to_hs sc fn)
      <$> DiseasePhase.all_pairs in
  TransitionRuleSet.add_transition_rule self ArgNone ArgNone (ArgOne to_hs)
    (ArgIter (Inst <$> syms)) to_symptoms (ArgWild ALL_DISEASE_PHASES) ArgNone
    to_disease_phase sc fn
  = Ok (foldl TransitionRuleSet.add_rule self rules)
  ∧ NoDup (TransitionRule.from_health_state <$> rules)
  ∧ TransitionRuleSet.rule_count
      (foldl TransitionRuleSet.add_rule TransitionRuleSet.init rules)
    = length DiseasePhase.all_pairs.
Proof.
  intros rules. subst rules. split_and!.
  - unfold TransitionRuleSet.add_transition_rule, TransitionRuleSet.from_side,
      TransitionRuleSet._validate_symptoms.
    cbn [is_None negb assert mbind result_bind].
    rewrite assert_all_instances_Inst. reflexivity.
  - rewrite <-list_fmap_compose. apply NoDup_fmap_2; [|apply all_pairs_NoDup].
    intros [d c] [d' c']. cbn. by intros [= -> ->].
  - rewrite rule_count_foldl_fresh, rule_count_init, length_fmap; [done| |].
    + apply NoDup_fmap_2; [|apply all_pairs_NoDup].
      intros [d c] [d' c']. cbn. by intros [= -> ->].
    + intros r _. unfold TransitionRuleSet.outgoing, TransitionRuleSet.init.
      rewrite lookup_empty. apply not_elem_of_empty.
Qed.

Lemma instances_Foreign {A} (l : list (item A)) :
  Foreign ∈ l → instances l = None.
Proof.
  induction l as [|x l IH]; intros Hin; [by apply elem_of_nil in Hin|].
  destruct x as [a|]; [|done].
  apply elem_of_cons in Hin as [Hin|Hin]; [done|].
  cbn. by rewrite IH.
Qed.

(** Misuse of [add_transition_rule].  A [transition_rule] that is a
    wildcard or an object of another type raises [TypeError]; so does a
    wildcard (the declared [ALL_HEALTH_STATES] included) passed as
    [from_health_state].  An iterable of rules that holds an object of
    another type fails the [isinstance] assertion.  Whenever one of the
    two health states is left out, leaving out [at_disease_phase] raises
    [TypeError] (the validated [None] is iterated), whatever the
    side-specific phases are.  Leaving out both [from_health_state] and
    [from_symptoms] fails the assertion that asks for the symptoms. *)
Theorem registration_misuse
    (self : gmap HealthState.t (gset TransitionRule.t))
    (w : WildCards) (rules : list (item TransitionRule.t))
    (from_health_state to_health_state : arg HealthState.t)
    (from_symptoms to_symptoms : arg Symptoms.t)
    (at_disease_phase from_disease_phase to_disease_phase : arg DiseasePhase.t)
    (dp : DiseasePhase.t)
    (sc : option Qc) (fn : option Callable) :
  TransitionRuleSet.add_transition_rule self (ArgWild w)
    from_health_state to_health_state from_symptoms to_symptoms
    at_disease_phase from_disease_phase to_disease_phase sc fn
  = Raise BadArgumentType
  ∧ TransitionRuleSet.add_transition_rule self ArgOther
      from_health_state to_health_state from_symptoms to_symptoms
      at_disease_phase from_disease_phase to_disease_phase sc fn
    = Raise BadArgumentType
  ∧ (Foreign ∈ rules →
     TransitionRuleSet.add_transition_rule self (ArgIter rules)
       from_health_state to_health_state from_symptoms to_symptoms
       at_disease_phase from_disease_phase to_disease_phase sc fn
     = Raise NotAllInstances)
  ∧ (is_None to_health_state = false →
     TransitionRuleSet.add_transition_rule self ArgNone
       (ArgWild w) to_health_state from_symptoms to_symptoms
       at_disease_phase from_disease_phase to_disease_phase sc fn
     = Raise BadArgumentType)
  ∧ (is_None from_health_state || is_None to_health_state = true →
     TransitionRuleSet.add_transition_rule self ArgNone
       from_health_state to_health_state from_symptoms to_symptoms
       ArgNone from_disease_phase to_disease_phase sc fn
     = Raise NoneNotIterable)
  ∧ TransitionRuleSet.add_transition_rule self ArgNone
      ArgNone to_health_state ArgNone to_symptoms
      (ArgOne dp) from_disease_phase to_disease_phase sc fn
    = Raise MissingSymptoms.
Proof.
  split_and!; try reflexivity.
  - intros Hin. unfold TransitionRuleSet.add_transition_rule.
    cbn [is_None]. unfold TransitionRuleSet._validate_transition_rule,
      assert_all_instances.
    by rewrite instances_Foreign.
  - intros Hto. unfold TransitionRuleSet.add_transition_rule,
      TransitionRuleSet.shared_phases.
    cbn [is_None orb]. by rewrite Hto.
  - intros Hnone. unfold TransitionRuleSet.add_transition_rule,
      TransitionRuleSet.shared_phases.
    cbn [is_None]. by rewrite Hnone.
Qed.

Lemma registration_misuse_witness :
  TransitionRuleSet.add_transition_rule TransitionRuleSet.init ArgNone
    (ArgWild ALL_HEALTH_STATES) (ArgOne mild_fever_onset) ArgNone ArgNone
    ArgNone ArgNone ArgNone None None
  = Raise BadArgumentType
  ∧ TransitionRuleSet.add_transition_rule TransitionRuleSet.init ArgNone
      ArgNone (ArgOne mild_fever_onset) (ArgOne mild_fever) ArgNone
      ArgNone (ArgOne covid_onset) ArgNone None None
    = Raise NoneNotIterable
  ∧ TransitionRuleSet.add_transition_rule TransitionRuleSet.init
      (ArgIter [Inst rule_half; Foreign]) ArgNone ArgNone ArgNone ArgNone
      ArgNone ArgNone ArgNone None None
    = Raise NotAllInstances.
Proof.
  split_and!.
  - destruct (registration_misuse TransitionRuleSet.init ALL_HEALTH_STATES []
                ArgNone (ArgOne mild_fever_onset) ArgNone ArgNone ArgNone
                ArgNone ArgNone covid_onset None None)
      as (_ & _ & _ & Hwild & _).
    by apply Hwild.
  - destruct (registration_misuse TransitionRuleSet.init ALL_HEALTH_STATES []
                ArgNone (ArgOne mild_fever_onset) (ArgOne mild_fever) ArgNone
                ArgNone (ArgOne covid_onset) ArgNone covid_onset None None)
      as (_ & _ & _ & _ & Hat & _).
    by apply Hat.
  - destruct (registration_misuse TransitionRuleSet.init ALL_HEALTH_STATES
                [Inst rule_half; Foreign]
                ArgNone ArgNone ArgNone ArgNone ArgNone ArgNone ArgNone
                covid_onset None None)
      as (_ & _ & Hforeign & _).
    apply Hforeign. apply elem_of_cons. right. by apply list_elem_of_singleton.
Defined.

(** ** Sampling: which destination is drawn *)

Section drawing.
Import TransitionRuleSet.
Implicit Types (w t u acc : Qc) (ws p cdf : list Qc).

Lemma Qcdiv_nonneg w t : (0 ≤ w)%Qc → (0 < t)%Qc → (0 ≤ w / t)%Qc.
Proof.
  intros Hw Ht.
  destruct (Qclt_le_dec (w / t) 0) as [Hneg|]; [|done]. exfalso.
  assert (t ≠ 0%Qc) as Ht0 by (intros ->; by apply Qclt_not_eq in Ht).
  apply (Qcle_not_lt 0 w); [done|].
  rewrite <-(Qcmult_div_r w t Ht0), Qcmult_comm.
  rewrite <-(Qcmult_0_l t). by apply Qcmult_lt_compat_r.
Qed.

Lemma Qcdiv_0_l t : (0 / t)%Qc = 0%Qc.
Proof. unfold Qcdiv. apply Qcmult_0_l. Qed.

(** The entry found by the search carries a positive probability: the
    cumulative sum passes the sample there. *)
Lemma searchsorted_right_positive p acc u x :
  (acc ≤ u)%Qc →
  p !! searchsorted_right (cumsum acc p) u = Some x → (0 < x)%Qc.
Proof.
  revert acc. induction p as [|y p IH]; intros acc Hacc; [done|].
  cbn [cumsum searchsorted_right]. case_bool_decide as Hy.
  - cbn [lookup list_lookup]. by apply IH.
  - cbn. intros [= ->].
    apply Qcnot_le_lt in Hy.
    apply (Qcplus_lt_mono_l 0 x acc). rewrite Qcplus_0_r.
    by eapply Qcle_lt_trans.
Qed.
End drawing.

Section drawing_from_rules.
Import TransitionRuleSet.
Context {Kwargs Rng : Type}.
Variable call : Callable → TransitionRule.t → Kwargs → Qc.
Variable random_sample : Rng → Qc * Rng.
Implicit Types (self : gmap HealthState.t (gset TransitionRule.t)).

Lemma weights_lookup (s : gset TransitionRule.t) kw (i : nat) :
  weights call s kw !! i
  = (λ r, TransitionRule.get_proba call r kw) <$> (elements s !! i).
Proof. unfold weights. apply list_lookup_fmap. Qed.

Lemma sample_valid_distribution self cur rng kw s :
  self !! cur = Some s → s ≠ ∅ →
  sum_Qc (weights call s kw) ≠ 0%Qc →
  Forall (λ w, 0 ≤ w / sum_Qc (weights call s kw))%Qc (weights call s kw) →
  (0 ≤ (random_sample rng).1)%Qc → ((random_sample rng).1 < 1)%Qc →
  ∃ r, r ∈ s
       ∧ TransitionRule.get_proba call r kw ≠ 0%Qc
       ∧ sample_next_health_state call random_sample self cur rng kw
         = (Ok (TransitionRule.to_health_state r), self, (random_sample rng).2).
Proof.
  intros Hk Hs Hsum0 Hpos Hu0 Hu1.
  assert (weights call s kw ≠ []) as Hne.
  { unfold weights. intros Hnil%fmap_nil_inv.
    by apply elements_empty_inv, leibniz_equiv in Hnil. }
  rewrite (sample_some_key _ _ _ _ _ _ s) by done.
  fold (weights call s kw). unfold normalize.
  rewrite bool_decide_eq_false_2 by done. unfold choice.
  rewrite existsb_neg_false by (by apply Forall_fmap).
  rewrite bool_decide_eq_true_2 by (by apply sum_Qc_normalized).
  destruct (random_sample rng) as [u rng'] eqn:Hrs. cbn [fst snd] in *.
  set (total := sum_Qc (weights call s kw)) in *.
  set (p := (λ x, x / total)%Qc <$> weights call s kw).
  assert (searchsorted_right (cumsum 0%Qc p) u < length (elements s)) as Hidx.
  { replace (length (elements s)) with (length (cumsum 0%Qc p)).
    - apply (searchsorted_right_lt _ _ 1%Qc); [|done].
      rewrite last_cumsum by (subst p; by destruct (weights call s kw)).
      subst p total. by rewrite sum_Qc_normalized, Qcplus_0_l.
    - subst p. unfold weights. by rewrite length_cumsum, !length_fmap. }
  apply lookup_lt_is_Some_2 in Hidx as [r Hr].
  rewrite list_lookup_fmap, Hr. cbn [fmap option_fmap option_map].
  exists r. split_and!; [|shelve|done].
  { apply list_elem_of_lookup_2 in Hr. by apply elem_of_elements in Hr. }
  Unshelve.
  intros Hzero.
  assert (p !! searchsorted_right (cumsum 0%Qc p) u = Some 0%Qc) as Hp.
  { subst p. rewrite list_lookup_fmap, weights_lookup, Hr. cbn.
    by rewrite Hzero, Qcdiv_0_l. }
  apply searchsorted_right_positive in Hp; [|done].
  by apply Qclt_not_eq in Hp.
Qed.
End drawing_from_rules.

(** Sampling with proper weights.  When the weights of the outgoing
    rules are non-negative with a positive sum, and the generator's
    sample lies in [0, 1), the call returns the destination of one of
    the outgoing rules of the current state, never anything else; the
    rule drawn has a non-zero weight; the rule set is returned as it
    was and the generator has advanced by one sample. *)
Theorem sample_returns_weighted_destination
    {Kwargs Rng : Type}
    (call : Callable → TransitionRule.t → Kwargs → Qc)
    (random_sample : Rng → Qc * Rng)
    (self : gmap HealthState.t (gset TransitionRule.t))
    (current_health_state : HealthState.t) (rng : Rng) (kwargs : Kwargs)
    (s : gset TransitionRule.t) :
  self !! current_health_state = Some s →
  s ≠ ∅ →
  Forall (λ w, 0 ≤ w)%Qc (weights call s kwargs) →
  (0 < TransitionRuleSet.sum_Qc (weights call s kwargs))%Qc →
  (0 ≤ (random_sample rng).1)%Qc → ((random_sample rng).1 < 1)%Qc →
  ∃ r, r ∈ s
       ∧ TransitionRule.get_proba call r kwargs ≠ 0%Qc
       ∧ TransitionRuleSet.sample_next_health_state call random_sample self
           current_health_state rng kwargs
         = (Ok (TransitionRule.to_health_state r), self, (random_sample rng).2).
Proof.
  intros Hk Hs Hnonneg Hsum Hu0 Hu1.
  apply sample_valid_distribution; try done.
  - intros Hzero. rewrite Hzero in Hsum. by apply Qclt_not_eq in Hsum.
  - eapply Forall_impl; [exact Hnonneg|]. intros w Hw. cbn.
    by apply Qcdiv_nonneg.
Qed.

Lemma sum_Qc_pos (ws : list Qc) :
  ws ≠ [] → Forall (λ w, 0 < w)%Qc ws → (0 < TransitionRuleSet.sum_Qc ws)%Qc.
Proof.
  intros Hne Hall. induction Hall as [|w ws Hw Hall IH]; [done|].
  cbn [TransitionRuleSet.sum_Qc foldr]. fold (TransitionRuleSet.sum_Qc ws).
  destruct ws as [|w' ws].
  - cbn [TransitionRuleSet.sum_Qc foldr]. by rewrite Qcplus_0_r.
  - apply Qcplus_pos_pos; [done|]. by apply IH.
Qed.

Lemma lookup_two_rules r1 r2 :
  TransitionRule.from_health_state r1 = TransitionRule.from_health_state r2 →
  TransitionRuleSet.add_rule
    (TransitionRuleSet.add_rule TransitionRuleSet.init r1) r2
  !! TransitionRule.from_health_state r1
  = Some {[ r1; r2 ]}.
Proof.
  intros Hfrom. rewrite lookup_add_rule, decide_True by done.
  rewrite outgoing_add_rule, decide_True by done.
  unfold TransitionRuleSet.outgoing, TransitionRuleSet.init.
  rewrite lookup_empty. cbn [default]. by rewrite union_empty_l_L.
Qed.

Lemma two_rules_nonempty (r1 r2 : TransitionRule.t) :
  ({[ r1; r2 ]} : gset TransitionRule.t) ≠ ∅.
Proof.
  intros Hempty.
  assert (r1 ∈ (∅ : gset TransitionRule.t)) as Hin.
  { rewrite <-Hempty. apply elem_of_union_l. by apply elem_of_singleton. }
  by apply not_elem_of_empty in Hin.
Qed.

Lemma half_quarter_weights :
  Forall (λ w, 0 < w)%Qc (weights no_call {[ rule_half; rule_quarter ]} ()).
Proof.
  unfold weights. apply Forall_fmap, Forall_forall. intros r Hr.
  apply elem_of_elements, elem_of_union in Hr as [Hr|Hr];
    apply elem_of_singleton in Hr; by subst r.
Qed.

Lemma sample_returns_weighted_destination_witness :
  ∃ r, r ∈ ({[ rule_half; rule_quarter ]} : gset TransitionRule.t)
       ∧ TransitionRule.get_proba no_call r () ≠ 0%Qc
       ∧ TransitionRuleSet.sample_next_health_state no_call zero_sample
           (TransitionRuleSet.add_rule
              (TransitionRuleSet.add_rule TransitionRuleSet.init rule_half)
              rule_quarter)
           mild_fever_onset () ()
         = (Ok (TransitionRule.to_health_state r),
            TransitionRuleSet.add_rule
              (TransitionRuleSet.add_rule TransitionRuleSet.init rule_half)
              rule_quarter, ()).
Proof.
  apply (sample_returns_weighted_destination no_call zero_sample _
           mild_fever_onset () () {[ rule_half; rule_quarter ]}).
  - apply (lookup_two_rules rule_half rule_quarter eq_refl).
  - apply two_rules_nonempty.
  - eapply Forall_impl; [apply half_quarter_weights|].
    intros w Hw. by apply Qclt_le_weak.
  - apply sum_Qc_pos; [|apply half_quarter_weights].
    unfold weights. intros Hnil%fmap_nil_inv.
    apply elements_empty_inv, leibniz_equiv in Hnil.
    by apply two_rules_nonempty in Hnil.
  - done.
  - done.
Defined.

Lemma singleton_rules_nonempty (r : TransitionRule.t) :
  ({[ r ]} : gset TransitionRule.t) ≠ ∅.
Proof.
  intros Hempty.
  assert (r ∈ (∅ : gset TransitionRule.t)) as Hin
    by (rewrite <-Hempty; by apply elem_of_singleton).
  by apply not_elem_of_empty in Hin.
Qed.

(** A state with a single outgoing rule of non-zero weight (negative
    weights included) always moves to the destination of that rule,
    whatever the sample of the generator in [0, 1) is. *)
Theorem sample_single_rule_is_certain
    {Kwargs Rng : Type}
    (call : Callable → TransitionRule.t → Kwargs → Qc)
    (random_sample : Rng → Qc * Rng)
    (self : gmap HealthState.t (gset TransitionRule.t))
    (current_health_state : HealthState.t) (rng : Rng) (kwargs : Kwargs)
    (r : TransitionRule.t) :
  self !! current_health_state = Some {[ r ]} →
  TransitionRule.get_proba call r kwargs ≠ 0%Qc →
  (0 ≤ (random_sample rng).1)%Qc → ((random_sample rng).1 < 1)%Qc →
  TransitionRuleSet.sample_next_health_state call random_sample self
    current_health_state rng kwargs
  = (Ok (TransitionRule.to_health_state r), self, (random_sample rng).2).
Proof.
  intros Hk Hw Hu0 Hu1.
  assert (weights call {[ r ]} kwargs = [TransitionRule.get_proba call r kwargs])
    as Hws by (unfold weights; by rewrite elements_singleton).
  destruct (sample_valid_distribution call random_sample self
              current_health_state rng kwargs {[ r ]} Hk
              (singleton_rules_nonempty r)) as (r' & Hr' & _ & Hsample);
    try done.
  - rewrite Hws. cbn. by rewrite Qcplus_0_r.
  - rewrite Hws. cbn. rewrite Qcplus_0_r. apply Forall_singleton.
    unfold Qcdiv. by rewrite Qcmult_inv_r.
  - apply elem_of_singleton in Hr'. by subst r'.
Qed.

Lemma sample_single_rule_is_certain_witness :
  TransitionRuleSet.sample_next_health_state no_call zero_sample
    (TransitionRuleSet.add_rule TransitionRuleSet.init rule_minus_three)
    mild_fever_onset () ()
  = (Ok severe_cough_onset,
     TransitionRuleSet.add_rule TransitionRuleSet.init rule_minus_three, ()).
Proof.
  apply (sample_single_rule_is_certain no_call zero_sample _
           mild_fever_onset () () rule_minus_three).
  - rewrite add_rule_empty. apply lookup_singleton_eq.
  - done.
  - done.
  - done.
Defined.

Lemma sum_Qc_zeros (ws : list Qc) :
  Forall (λ w, w = 0%Qc) ws → TransitionRuleSet.sum_Qc ws = 0%Qc.
Proof.
  induction 1 as [|w ws -> _ IH]; [done|].
  cbn [TransitionRuleSet.sum_Qc foldr]. fold (TransitionRuleSet.sum_Qc ws).
  by rewrite IH.
Qed.

(** Rules without a weight.  A rule built with neither
    [proba_score_value] nor [proba_fn], as [add_transition_rule] builds
    it when neither is given, has the default weight [0.0]; sampling
    from a state all of whose outgoing rules are of that kind fails
    with the "probabilities contain NaN" [ValueError] of [rng.choice],
    and leaves the generator as it was. *)
Theorem sample_unweighted_rules_fails
    {Kwargs Rng : Type}
    (call : Callable → TransitionRule.t → Kwargs → Qc)
    (random_sample : Rng → Qc * Rng)
    (self : gmap HealthState.t (gset TransitionRule.t))
    (current_health_state : HealthState.t) (rng : Rng) (kwargs : Kwargs)
    (s : gset TransitionRule.t) :
  (∀ f t, TransitionRule.get_proba call (TransitionRule.init f t None None)
            kwargs = 0%Qc)
  ∧ (self !! current_health_state = Some s →
     s ≠ ∅ →
     (∀ r, r ∈ s → ∃ f t, r = TransitionRule.init f t None None) →
     TransitionRuleSet.sample_next_health_state call random_sample self
       current_health_state rng kwargs
     = (Raise ChoiceProbabilitiesNaN, self, rng)).
Proof.
  split; [done|]. intros Hk Hs Hall.
  apply (sample_zero_sum _ _ _ _ _ _ s); [done..|].
  apply sum_Qc_zeros. unfold weights. apply Forall_fmap, Forall_forall.
  intros r Hr%elem_of_elements. by destruct (Hall r Hr) as (f & t & ->).
Qed.

Lemma sample_unweighted_rules_fails_witness :
  TransitionRuleSet.sample_next_health_state no_call zero_sample
    (TransitionRuleSet.add_rule TransitionRuleSet.init
       (TransitionRule.init mild_fever_onset moderate_fever_onset None None))
    mild_fever_onset () ()
  = (Raise ChoiceProbabilitiesNaN,
     TransitionRuleSet.add_rule TransitionRuleSet.init
       (TransitionRule.init mild_fever_onset moderate_fever_onset None None),
     ()).
Proof.
  destruct (sample_unweighted_rules_fails no_call zero_sample
              (TransitionRuleSet.add_rule TransitionRuleSet.init
                 (TransitionRule.init mild_fever_onset moderate_fever_onset
                    None None))
              mild_fever_onset () ()
              {[ TransitionRule.init mild_fever_onset moderate_fever_onset
                   None None ]}) as [_ Hfail].
  apply Hfail.
  - rewrite add_rule_empty. apply lookup_singleton_eq.
  - apply singleton_rules_nonempty.
  - intros r Hr%elem_of_singleton. subst r. by eexists _, _.
Defined.

(** Reading an unregistered state from the [defaultdict] binds it to an
    empty set.  Sampling from that state, which raised the "No forward
    rule" [ValueError] before the read, then passes the membership test
    and fails instead in the unpacking of the (empty) rule list; the
    states that had rules are not affected by the read. *)
Theorem defaultdict_read_changes_sampling_error
    {Kwargs Rng : Type}
    (call : Callable → TransitionRule.t → Kwargs → Qc)
    (random_sample : Rng → Qc * Rng)
    (self : gmap HealthState.t (gset TransitionRule.t))
    (k : HealthState.t) (rng : Rng) (kwargs : Kwargs) :
  self !! k = None →
  let self' := (TransitionRuleSet.defaultdict_getitem self k).2 in
  TransitionRuleSet.sample_next_health_state call random_sample self k rng kwargs
  = (Raise NoForwardRule, self, rng)
  ∧ TransitionRuleSet.sample_next_health_state call random_sample self' k rng
      kwargs
    = (Raise UnpackError, self', rng)
  ∧ ∀ k', k' ≠ k → self' !! k' = self !! k'.
Proof.
  intros Hk self'. subst self'. unfold TransitionRuleSet.defaultdict_getitem.
  rewrite Hk. cbn [snd]. split_and!.
  - by apply sample_no_key.
  - apply sample_empty_key. apply lookup_insert_eq.
  - intros k' Hne. by apply lookup_insert_ne.
Qed.

Lemma defaultdict_read_changes_sampling_error_witness :
  TransitionRuleSet.sample_next_health_state no_call zero_sample
    (TransitionRuleSet.defaultdict_getitem TransitionRuleSet.init
       mild_fever_onset).2 mild_fever_onset () ()
  = (Raise UnpackError,
     (TransitionRuleSet.defaultdict_getitem TransitionRuleSet.init
        mild_fever_onset).2, ()).
Proof.
  destruct (defaultdict_read_changes_sampling_error no_call zero_sample
              TransitionRuleSet.init mild_fever_onset () ()
              (lookup_empty _)) as (_ & Hread & _).
  exact Hread.
Defined.

(** ** The tracing settings *)

Section tracing_facts.
Import Tracing.
Implicit Types (conf : gmap string pyval) (big : pyval).

(** What a successful construction returns, field by field. *)
Lemma init_inr big conf t :
  init big conf = inr t →
  let risk_model := conf_get conf "RISK_MODEL" in
  let manual := eq_str risk_model "manual" in
  let transformer := eq_str risk_model "transformer" in
  let risk := conf_get conf "TRACE_RISK_UPDATE" in
  let symptoms := conf_get conf "TRACE_SYMPTOMS" in
  let max_depth := conf_get conf "TRACING_ORDER" in
  (manual = true → truthy symptoms = false ∧ truthy risk = false)
  ∧ ∃ capped,
      capped_depth risk max_depth = inr capped
      ∧ t = Build risk_model (choose_intervention risk_model conf) max_depth
              (if transformer then VBool false else symptoms)
              (if transformer then VBool false else risk)
              true (VTuple [conf_get conf "SHOULD_MODIFY_BEHAVIOR"])
              (if manual then conf_get conf "MANUAL_TRACING_P_CONTACT"
               else VInt 1)
              (if manual then 1%Z else 0%Z) (negb manual)
              (if transformer then big else max_depth) capped.
Proof.
  unfold init. cbv zeta.
  destruct (eq_str (conf_get conf "RISK_MODEL") "manual") eqn:Hmanual;
    destruct (truthy (conf_get conf "TRACE_SYMPTOMS")) eqn:Hsym;
    destruct (truthy (conf_get conf "TRACE_RISK_UPDATE")) eqn:Hrisk;
    cbn [andb]; try done;
    destruct (capped_depth _ _) as [e|capped] eqn:Hcap; try done;
    intros [= <-]; (split; [done|]); by exists capped.
Qed.
End tracing_facts.

(** The [SHOULD_MODIFY_BEHAVIOR] setting has no effect.  The value read
    from the configuration is stored inside a one-element tuple, which
    is true as a condition whatever it holds; hence
    [get_recommendations] always hands the human to the intervention,
    also when the configuration sets [SHOULD_MODIFY_BEHAVIOR] to
    [False]. *)
Theorem tracing_always_modifies_behavior
    {Human Rec : Type}
    (recommend : Tracing.intervention → Human → list Rec)
    (big : Tracing.pyval) (conf : gmap string Tracing.pyval) (t : Tracing.t)
    (human : Human) :
  Tracing.init big conf = inr t →
  Tracing.should_modify_behavior t
  = Tracing.VTuple [Tracing.conf_get conf "SHOULD_MODIFY_BEHAVIOR"]
  ∧ Tracing.get_recommendations recommend t human
    = recommend (Tracing.intervention_ t) human.
Proof.
  intros Hinit. apply init_inr in Hinit as (_ & capped & _ & ->).
  by split.
Qed.

Lemma tracing_always_modifies_behavior_witness :
  ∃ t, Tracing.init (Tracing.VInt 1000) digital_conf = inr t
       ∧ Tracing.get_recommendations (λ _ (_ : unit), [()]) t () = [()].
Proof.
  eexists. split; [vm_compute; reflexivity|].
  eapply (tracing_always_modifies_behavior (λ _ (_ : unit), [()])
            (Tracing.VInt 1000) digital_conf _ ()).
  vm_compute. reflexivity.
Defined.

(** The cap on the depth of risk propagation is never applied.
    [propagate_risk_max_depth] is the configured [TRACING_ORDER] (or
    [BIG_NUMBER] for the transformer model) whether or not risk updates
    are traced; the value [min(3, TRACING_ORDER)] computed when they are
    traced is stored under the differently spelled attribute
    [propage_risk_max_depth], which does not exist otherwise. *)
Theorem tracing_depth_cap_is_stored_elsewhere
    (big : Tracing.pyval) (conf : gmap string Tracing.pyval) (t : Tracing.t) :
  Tracing.init big conf = inr t →
  Tracing.propagate_risk_max_depth t
  = (if Tracing.eq_str (Tracing.conf_get conf "RISK_MODEL") "transformer"
     then big else Tracing.conf_get conf "TRACING_ORDER")
  ∧ (if Tracing.truthy (Tracing.conf_get conf "TRACE_RISK_UPDATE")
     then ∃ v, Tracing.min_3 (Tracing.conf_get conf "TRACING_ORDER") = inr v
               ∧ Tracing.propage_risk_max_depth t = Some v
     else Tracing.propage_risk_max_depth t = None).
Proof.
  intros Hinit. apply init_inr in Hinit as (_ & capped & Hcap & ->).
  split; [done|]. cbn [Tracing.propage_risk_max_depth].
  unfold Tracing.capped_depth in Hcap.
  destruct (Tracing.truthy _); [|by injection Hcap as <-].
  destruct (Tracing.min_3 _) as [e|v]; [done|].
  injection Hcap as <-. by exists v.
Qed.

Lemma tracing_depth_cap_is_stored_elsewhere_witness :
  ∃ t, Tracing.init (Tracing.VInt 1000) digital_conf = inr t
       ∧ Tracing.propagate_risk_max_depth t = Tracing.VInt 5
       ∧ Tracing.propage_risk_max_depth t = Some (Tracing.VInt 3).
Proof.
  eexists. split; [vm_compute; reflexivity|].
  split; [|reflexivity].
  eapply (tracing_depth_cap_is_stored_elsewhere (Tracing.VInt 1000)
            digital_conf).
  vm_compute. reflexivity.
Defined.

Lemma min_3_error v e : Tracing.min_3 v = inl e → e = Tracing.MinNotComparable.
Proof. destruct v; cbn; congruence. Qed.

(** When the construction of a [Tracing] object fails.  With the manual
    model, tracing symptoms fails the first assertion and, symptoms
    apart, tracing risk updates fails the second.  With any other model,
    tracing risk updates while [TRACING_ORDER] is missing (or is not a
    number) raises the [TypeError] of [min]. *)
Theorem tracing_init_failures
    (big : Tracing.pyval) (conf : gmap string Tracing.pyval) :
  let manual := Tracing.eq_str (Tracing.conf_get conf "RISK_MODEL") "manual" in
  let symptoms := Tracing.truthy (Tracing.conf_get conf "TRACE_SYMPTOMS") in
  let risk := Tracing.truthy (Tracing.conf_get conf "TRACE_RISK_UPDATE") in
  (Tracing.init big conf = inl Tracing.TraceSymptomsByPhone
   ↔ manual = true ∧ symptoms = true)
  ∧ (Tracing.init big conf = inl Tracing.TraceRiskByPhone
     ↔ manual = true ∧ symptoms = false ∧ risk = true)
  ∧ (Tracing.init big conf = inl Tracing.MinNotComparable
     ↔ manual = false ∧ risk = true
       ∧ Tracing.min_3 (Tracing.conf_get conf "TRACING_ORDER")
         = inl Tracing.MinNotComparable).
Proof.
  intros manual symptoms risk. subst manual symptoms risk.
  unfold Tracing.init, Tracing.capped_depth. cbv zeta.
  destruct (Tracing.eq_str (Tracing.conf_get conf "RISK_MODEL") "manual");
    destruct (Tracing.truthy (Tracing.conf_get conf "TRACE_SYMPTOMS"));
    destruct (Tracing.truthy (Tracing.conf_get conf "TRACE_RISK_UPDATE"));
    cbn [andb];
    try (destruct (Tracing.min_3 _) as [e|v] eqn:Hmin;
         [apply min_3_error in Hmin as ->|]);
    intuition congruence.
Qed.

Lemma eq_str_exclusive v (a b : string) :
  Tracing.eq_str v a = true → Tracing.eq_str v b = true → a = b.
Proof.
  destruct v; try done. cbn.
  intros Ha%bool_decide_eq_true Hb%bool_decide_eq_true. congruence.
Qed.

Lemma choose_intervention_manual v conf :
  Tracing.eq_str v "manual" = true →
  Tracing.choose_intervention v conf = Tracing.BinaryTracing.
Proof. intros Hm. unfold Tracing.choose_intervention. by rewrite Hm. Qed.

Lemma choose_intervention_transformer v conf :
  Tracing.eq_str v "transformer" = true →
  Tracing.choose_intervention v conf = Tracing.RiskBasedRecommendations.
Proof.
  destruct v; try done. cbn. intros Hs%bool_decide_eq_true. by subst.
Qed.

(** The modes of a [Tracing] object.  The manual model comes with a
    delay of one day, no app, the configured contact probability and
    binary tracing, and traces neither symptoms nor risk; every other
    model has no delay, the app and contact probability 1.  The
    transformer model switches the tracing of symptoms and of risk off,
    whatever the configuration says, and sets the propagation depth to
    [BIG_NUMBER]. *)
Theorem tracing_modes
    (big : Tracing.pyval) (conf : gmap string Tracing.pyval) (t : Tracing.t) :
  Tracing.init big conf = inr t →
  (if Tracing.eq_str (Tracing.conf_get conf "RISK_MODEL") "manual"
   then Tracing.delay t = 1%Z ∧ Tracing.app t = false
        ∧ Tracing.p_contact t
          = Tracing.conf_get conf "MANUAL_TRACING_P_CONTACT"
        ∧ Tracing.intervention_ t = Tracing.BinaryTracing
        ∧ Tracing.truthy (Tracing.propagate_symptoms t) = false
        ∧ Tracing.truthy (Tracing.propagate_risk t) = false
   else Tracing.delay t = 0%Z ∧ Tracing.app t = true
        ∧ Tracing.p_contact t = Tracing.VInt 1)
  ∧ (Tracing.eq_str (Tracing.conf_get conf "RISK_MODEL") "transformer" = true →
     Tracing.propagate_symptoms t = Tracing.VBool false
     ∧ Tracing.propagate_risk t = Tracing.VBool false
     ∧ Tracing.propagate_risk_max_depth t = big
     ∧ Tracing.intervention_ t = Tracing.RiskBasedRecommendations).
Proof.
  intros Hinit. apply init_inr in Hinit as (Hmanual & capped & _ & ->).
  cbn [Tracing.delay Tracing.app Tracing.p_contact Tracing.intervention_
       Tracing.propagate_symptoms Tracing.propagate_risk
       Tracing.propagate_risk_max_depth].
  destruct (Tracing.eq_str (Tracing.conf_get conf "RISK_MODEL") "manual")
    eqn:Hm;
    destruct (Tracing.eq_str (Tracing.conf_get conf "RISK_MODEL") "transformer")
      eqn:Ht.
  - discriminate (eq_str_exclusive _ _ _ Hm Ht).
  - destruct (Hmanual eq_refl) as [Hsym Hrisk].
    rewrite (choose_intervention_manual _ _ Hm). cbn.
    split; [done|]. intros [=].
  - rewrite (choose_intervention_transformer _ _ Ht). cbn. by split.
  - cbn. split; [done|]. intros [=].
Qed.

Lemma tracing_modes_witness :
  ∃ t, Tracing.init (Tracing.VInt 1000) transformer_conf = inr t
       ∧ Tracing.propagate_symptoms t = Tracing.VBool false.
Proof.
  eexists. split; [vm_compute; reflexivity|].
  eapply (tracing_modes (Tracing.VInt 1000) transformer_conf);
    vm_compute; reflexivity.
Defined.

(** ** Risk from the contact book *)

Lemma eq_str_true v (s : string) : Tracing.eq_str v s = true → v = Tracing.VStr s.
Proof.
  destruct v; try done. cbn. by intros ->%bool_decide_eq_true.
Qed.

Lemma in_strs_inv v (l : list string) :
  Tracing.in_strs v l = true → ∃ s, v = Tracing.VStr s ∧ s ∈ l.
Proof.
  unfold Tracing.in_strs. intros (s & Hin & Hs)%existsb_exists.
  exists s. split; [by apply eq_str_true|]. by apply list_elem_of_In.
Qed.

Section risk_facts.
Import Tracing.
Context {Human Mailbox HumansMap E : Type}.
Variable get_positive : Human → HumansMap → Z → pyval → pyval → E + list (Z * Z).
Variable get_symptomatic : Human → HumansMap → pyval → E + list (Z * Z).
Variable intervention_risk : intervention → Human → Mailbox → E + risk.
Variable human_conf : Human → gmap string pyval.
Variable np_exp : Z → Qc.

Lemma discounted_acc (t : Qc) (counts : list (Z * Z)) :
  discounted np_exp t counts = (t + discounted np_exp 0 counts)%Qc.
Proof.
  unfold discounted. revert t. induction counts as [|oc counts IH]; intros t.
  - cbn. by rewrite Qcplus_0_r.
  - cbn [foldl]. rewrite IH, (IH (0 + _)%Qc), Qcplus_0_l.
    by rewrite Qcplus_assoc.
Qed.

Lemma discounted_cons (oc : Z * Z) (counts : list (Z * Z)) :
  discounted np_exp 0 (oc :: counts)
  = (Qc_of_Z oc.2 * np_exp (-2 * (oc.1 - 1)) + discounted np_exp 0 counts)%Qc.
Proof.
  rewrite <-discounted_acc. unfold discounted. cbn [foldl].
  by rewrite Qcplus_0_l.
Qed.

Lemma discounted_app (l1 l2 : list (Z * Z)) :
  discounted np_exp 0 (l1 ++ l2)
  = (discounted np_exp 0 l1 + discounted np_exp 0 l2)%Qc.
Proof.
  unfold discounted. rewrite foldl_app. apply discounted_acc.
Qed.

(** A discounted sum of counts none of which is negative is positive
    exactly when one of the counts is. *)
Lemma discounted_sign (counts : list (Z * Z)) :
  (∀ o c, (o, c) ∈ counts → (0 ≤ c)%Z ∧ (0 < np_exp (-2 * (o - 1)))%Qc) →
  (0 ≤ discounted np_exp 0 counts)%Qc
  ∧ bool_decide (0 < discounted np_exp 0 counts)%Qc
    = existsb (λ oc, (0 <? oc.2)%Z) counts.
Proof.
  induction counts as [|[o c] counts IH]; intros Hall.
  - split; [done|]. cbn. apply bool_decide_eq_false_2. apply Qcle_not_lt. done.
  - destruct IH as [IH0 IH]; [intros o' c' Hin; apply Hall; by right|].
    destruct (Hall o c) as [Hc Hexp]; [by left|].
    rewrite discounted_cons. cbn [fst snd existsb].
    assert (0 ≤ Qc_of_Z c * np_exp (-2 * (o - 1)))%Qc as Hterm.
    { apply (Qcmult_nonneg_nonneg (Qc_of_Z c) (np_exp _));
        [|exact (Qclt_le_weak _ _ Hexp)].
      rewrite <-Z2Qc_inj_0. exact (proj1 (Z2Qc_inj_le 0 c) Hc). }
    split; [by apply Qcplus_nonneg_nonneg|].
    destruct (0 <? c)%Z eqn:Hpos; cbn [orb].
    + apply bool_decide_eq_true_2. apply Qcplus_pos_nonneg; [|done].
      apply (Qcmult_pos_pos (Qc_of_Z c) (np_exp _)); [|done].
      rewrite <-Z2Qc_inj_0. apply Z.ltb_lt in Hpos.
      exact (proj1 (Z2Qc_inj_lt 0 c) Hpos).
    + assert (c = 0%Z) as -> by (apply Z.ltb_ge in Hpos; lia).
      rewrite Z2Qc_inj_0, Qcmult_0_l, Qcplus_0_l. exact IH.
Qed.

Lemma compute_risk_not_a_string self human mailbox humans_map :
  (∀ s, risk_model self ≠ VStr s) →
  compute_risk get_positive get_symptomatic intervention_risk human_conf np_exp
    self human mailbox humans_map
  = inl MissingSomething.
Proof.
  intros Hno. unfold compute_risk.
  destruct (risk_model self) as [| | | |s|]; try done. by destruct (Hno s).
Qed.

(** The same, for a string that names none of the models. *)
Lemma compute_risk_unknown self human mailbox humans_map :
  in_strs (risk_model self) ("transformer" :: known_models) = false →
  compute_risk get_positive get_symptomatic intervention_risk human_conf np_exp
    self human mailbox humans_map
  = inl MissingSomething.
Proof.
  intros Hno. unfold compute_risk.
  cbn [in_strs existsb] in Hno. apply orb_false_iff in Hno as [-> Hno].
  unfold in_strs at 1. by rewrite Hno.
Qed.

(** When [compute_risk] returns. *)
Lemma compute_risk_inr_inv self human mailbox humans_map risks :
  compute_risk get_positive get_symptomatic intervention_risk human_conf np_exp
    self human mailbox humans_map
  = inr risks →
  (risk_model self = VStr "digital" ∧ truthy (propagate_risk self) = false
   ∧ ∃ v, risks = [v])
  ∨ ((risk_model self = VStr "heuristicv1" ∨ risk_model self = VStr "heuristicv2")
     ∧ ∃ r, intervention_risk (intervention_ self) human mailbox = inr r).
Proof.
  destruct (in_strs (risk_model self) ("transformer" :: known_models)) eqn:Hin.
  - apply in_strs_inv in Hin as (s & Hs & Hin).
    unfold compute_risk, _get_hypothetical_contact_tracing_results.
    rewrite Hs. cbn in Hin.
    repeat (apply elem_of_cons in Hin as [->|Hin]);
      [..|by apply elem_of_nil in Hin]; try done.
    + change (eq_str (VStr "digital") "transformer") with false.
      change (in_strs (VStr "digital") known_models) with true.
      change (in_strs (VStr "digital") ["manual"; "digital"]) with true.
      change (eq_str (VStr "digital") "manual") with false.
      cbn [negb].
      destruct (get_positive _ _ _ _ _) as [e|pos]; [done|].
      destruct (if truthy (propagate_symptoms self) then _ else _) as [e|s];
        [done|].
      destruct (truthy (propagate_risk self)); [done|].
      intros [= <-]. left. split_and!; [done..|]. by eexists.
    + change (eq_str (VStr "naive") "transformer") with false.
      change (in_strs (VStr "naive") known_models) with true.
      change (in_strs (VStr "naive") ["manual"; "digital"]) with false.
      change (eq_str (VStr "naive") "naive") with true.
      cbn [negb]. by destruct (float_minus _).
    + change (eq_str (VStr "heuristicv1") "transformer") with false.
      change (in_strs (VStr "heuristicv1") known_models) with true.
      change (in_strs (VStr "heuristicv1") ["manual"; "digital"]) with false.
      change (eq_str (VStr "heuristicv1") "naive") with false.
      change (in_strs (VStr "heuristicv1") ["heuristicv1"; "heuristicv2"])
        with true.
      cbn [negb].
      destruct (intervention_risk _ _ _) as [e|r]; [done|].
      intros _. right. split; [by left|]. by exists r.
    + change (eq_str (VStr "heuristicv2") "transformer") with false.
      change (in_strs (VStr "heuristicv2") known_models) with true.
      change (in_strs (VStr "heuristicv2") ["manual"; "digital"]) with false.
      change (eq_str (VStr "heuristicv2") "naive") with false.
      change (in_strs (VStr "heuristicv2") ["heuristicv1"; "heuristicv2"])
        with true.
      cbn [negb].
      destruct (intervention_risk _ _ _) as [e|r]; [done|].
      intros _. right. split; [by right|]. by exists r.
  - by rewrite compute_risk_unknown.
Qed.
End risk_facts.

(** How [compute_risk] fails.  The transformer model and a model that
    is none of the known ones fail the two assertions.  The manual model
    raises the [NotImplementedError] of the contact tracing results
    before the contact book is asked anything.  The model [other]
    raises [UnboundLocalError] for [r], and the naive model never
    yields a risk either: once the transmission probability has been
    subtracted from [1.0] (which may raise on its own), the exponent
    reads [t], which has no value in that branch.  The digital model
    with the tracing of risk updates switched on ends in the second
    [NotImplementedError], unless the contact book raises first. *)
Theorem compute_risk_failures
    {Human Mailbox HumansMap E : Type}
    (get_positive :
       Human → HumansMap → Z → Tracing.pyval → Tracing.pyval → E + list (Z * Z))
    (get_symptomatic : Human → HumansMap → Tracing.pyval → E + list (Z * Z))
    (intervention_risk :
       Tracing.intervention → Human → Mailbox → E + Tracing.risk)
    (human_conf : Human → gmap string Tracing.pyval) (np_exp : Z → Qc)
    (self : Tracing.t) (human : Human) (mailbox : Mailbox)
    (humans_map : HumansMap) :
  let risk :=
    Tracing.compute_risk get_positive get_symptomatic intervention_risk
      human_conf np_exp self human mailbox humans_map in
  let model := Tracing.eq_str (Tracing.risk_model self) in
  (model "transformer" = true → risk = inl Tracing.NeverInHere)
  ∧ (Tracing.in_strs (Tracing.risk_model self)
       ("transformer" :: Tracing.known_models) = false →
     risk = inl Tracing.MissingSomething)
  ∧ (model "manual" = true → risk = inl Tracing.ManualTracingIsDead)
  ∧ (model "other" = true → risk = inl (Tracing.UnboundLocal "r"))
  ∧ (model "naive" = true →
     (∀ q, Tracing.conf_get (human_conf human) "RISK_TRANSMISSION_PROBA"
           = Tracing.VFloat q →
           risk = inl (Tracing.UnboundLocal "t"))
     ∧ ∃ e, risk = inl e
            ∧ (e = Tracing.UnboundLocal "t" ∨ e = Tracing.UnsupportedOperand
               ∨ e = Tracing.IntTooLarge))
  ∧ (model "digital" = true →
     Tracing.truthy (Tracing.propagate_risk self) = true →
     ∃ e, risk = inl e
          ∧ (e = Tracing.RiskCountsNotImplemented ∨ ∃ x, e = Tracing.External x)).
Proof.
  intros risk model. subst risk model. split_and!.
  - intros Hm. unfold Tracing.compute_risk. by rewrite Hm.
  - apply compute_risk_unknown.
  - intros Hm%eq_str_true. unfold Tracing.compute_risk,
      Tracing._get_hypothetical_contact_tracing_results. by rewrite Hm.
  - intros Hm%eq_str_true. unfold Tracing.compute_risk. by rewrite Hm.
  - intros Hm%eq_str_true. unfold Tracing.compute_risk. rewrite Hm.
    change (Tracing.eq_str (Tracing.VStr "naive") "transformer") with false.
    change (Tracing.in_strs (Tracing.VStr "naive") Tracing.known_models)
      with true.
    change (Tracing.in_strs (Tracing.VStr "naive") ["manual"; "digital"])
      with false.
    change (Tracing.eq_str (Tracing.VStr "naive") "naive") with true.
    cbn [negb]. split.
    + intros q ->. reflexivity.
    + destruct (Tracing.conf_get _ _) as [| |n| | |]; cbn [Tracing.float_minus];
        try (eexists; split; [reflexivity|tauto]).
      destruct (Z.abs n <? _)%Z; eexists; (split; [reflexivity|tauto]).
  - intros Hm%eq_str_true Hrisk. unfold Tracing.compute_risk,
      Tracing._get_hypothetical_contact_tracing_results. rewrite Hm, Hrisk.
    change (Tracing.eq_str (Tracing.VStr "digital") "transformer") with false.
    change (Tracing.in_strs (Tracing.VStr "digital") Tracing.known_models)
      with true.
    change (Tracing.in_strs (Tracing.VStr "digital") ["manual"; "digital"])
      with true.
    change (Tracing.eq_str (Tracing.VStr "digital") "manual") with false.
    cbn [negb].
    destruct (get_positive _ _ _ _ _) as [e|pos]; [by eauto 6|].
    destruct (Tracing.truthy (Tracing.propagate_symptoms self)); [|by eauto].
    destruct (get_symptomatic _ _ _) as [e|sym]; [by eauto 6|by eauto].
Qed.

Lemma compute_risk_failures_witness :
  ∃ self, Tracing.init (Tracing.VInt 1000) naive_conf = inr self
          ∧ Tracing.compute_risk two_positive_contacts no_symptomatic_contacts
              no_intervention_risk human_conf_half exp_one self () () ()
            = inl (Tracing.UnboundLocal "t").
Proof.
  eexists. split; [vm_compute; reflexivity|].
  eapply (compute_risk_failures two_positive_contacts no_symptomatic_contacts
            no_intervention_risk human_conf_half exp_one).
  - reflexivity.
  - reflexivity.
Defined.

(** Which tracers compute a risk.  For a [Tracing] object as the
    constructor builds it, [compute_risk] returns only with the digital
    model when risk updates are not traced, and then it returns one
    value, or with one of the two heuristic models when the
    intervention returns its risk; with every other configuration the
    call raises. *)
Theorem compute_risk_returns_only_for
    {Human Mailbox HumansMap E : Type}
    (get_positive :
       Human → HumansMap → Z → Tracing.pyval → Tracing.pyval → E + list (Z * Z))
    (get_symptomatic : Human → HumansMap → Tracing.pyval → E + list (Z * Z))
    (intervention_risk :
       Tracing.intervention → Human → Mailbox → E + Tracing.risk)
    (human_conf : Human → gmap string Tracing.pyval) (np_exp : Z → Qc)
    (big : Tracing.pyval) (conf : gmap string Tracing.pyval)
    (self : Tracing.t) (human : Human) (mailbox : Mailbox)
    (humans_map : HumansMap) (risks : list Tracing.pyval) :
  Tracing.init big conf = inr self →
  Tracing.compute_risk get_positive get_symptomatic intervention_risk
    human_conf np_exp self human mailbox humans_map
  = inr risks →
  (Tracing.conf_get conf "RISK_MODEL" = Tracing.VStr "digital"
   ∧ Tracing.truthy (Tracing.conf_get conf "TRACE_RISK_UPDATE") = false
   ∧ ∃ v, risks = [v])
  ∨ (∃ version,
       Tracing.intervention_ self = Tracing.HeuristicRecommendations version conf
       ∧ (Tracing.conf_get conf "RISK_MODEL" = Tracing.VStr "heuristicv1"
          ∧ version = 1%Z
          ∨ Tracing.conf_get conf "RISK_MODEL" = Tracing.VStr "heuristicv2"
            ∧ version = 2%Z)
       ∧ ∃ r, intervention_risk
                (Tracing.HeuristicRecommendations version conf) human mailbox
              = inr r).
Proof.
  intros Hinit Hrisk.
  apply compute_risk_inr_inv in Hrisk
    as [(Hm & Hr & v & ->)|([Hm|Hm] & r & Hr)];
    apply init_inr in Hinit as (_ & capped & _ & ->);
    cbn [Tracing.risk_model Tracing.propagate_risk Tracing.intervention_] in *.
  - left. rewrite Hm in *.
    change (Tracing.eq_str (Tracing.VStr "digital") "transformer")
      with false in Hr.
    split_and!; [done..|]. by exists v.
  - right. exists 1%Z. rewrite Hm in *. split_and!; [done|by left|by exists r].
  - right. exists 2%Z. rewrite Hm in *. split_and!; [done|by right|by exists r].
Qed.

Lemma compute_risk_returns_only_for_witness :
  ∃ self, Tracing.init (Tracing.VInt 1000) plain_digital_conf = inr self
          ∧ Tracing.compute_risk two_positive_contacts no_symptomatic_contacts
              no_intervention_risk human_conf_half exp_one self () () ()
            = inr [Tracing.VFloat 1%Qc]
          ∧ Tracing.conf_get plain_digital_conf "RISK_MODEL"
            = Tracing.VStr "digital".
Proof.
  eexists. split; [vm_compute; reflexivity|]. split; [reflexivity|].
  destruct (compute_risk_returns_only_for two_positive_contacts
              no_symptomatic_contacts no_intervention_risk human_conf_half
              exp_one (Tracing.VInt 1000) plain_digital_conf _ () () ()
              [Tracing.VFloat 1%Qc] eq_refl eq_refl)
    as [(Hm & _)|(version & _ & [[Hm _]|[Hm _]] & _)];
    [exact Hm|discriminate Hm..].
Defined.

(** The digital model gives a binary risk.  When risk updates are not
    traced and the contact book answers, [compute_risk] returns the
    one-element list [[1.0]] if some order has a positive count of
    contacts tested positive or, when symptoms are traced, of contacts
    with symptoms, and [[0.0]] otherwise; how many contacts there are
    and of which order makes no difference.  The counts are taken not
    to be negative, and [np.exp] to be positive at the orders that
    occur. *)
Theorem compute_risk_digital_is_binary
    {Human Mailbox HumansMap E : Type}
    (get_positive :
       Human → HumansMap → Z → Tracing.pyval → Tracing.pyval → E + list (Z * Z))
    (get_symptomatic : Human → HumansMap → Tracing.pyval → E + list (Z * Z))
    (intervention_risk :
       Tracing.intervention → Human → Mailbox → E + Tracing.risk)
    (human_conf : Human → gmap string Tracing.pyval) (np_exp : Z → Qc)
    (self : Tracing.t) (human : Human) (mailbox : Mailbox)
    (humans_map : HumansMap) (positive symptomatic : list (Z * Z)) :
  Tracing.eq_str (Tracing.risk_model self) "digital" = true →
  Tracing.truthy (Tracing.propagate_risk self) = false →
  get_positive human humans_map 0%Z (Tracing.p_contact self)
    (Tracing.max_depth self)
  = inr positive →
  (if Tracing.truthy (Tracing.propagate_symptoms self)
   then get_symptomatic human humans_map (Tracing.max_depth self)
   else inr [])
  = inr symptomatic →
  (∀ o c : Z, (o, c) ∈ (positive ++ symptomatic)%list →
                  (0 ≤ c)%Z ∧ (0 < np_exp (-2 * (o - 1))%Z)%Qc) →
  Tracing.compute_risk get_positive get_symptomatic intervention_risk
    human_conf np_exp self human mailbox humans_map
  = inr [Tracing.VFloat
           (if existsb (λ oc, (0 <? oc.2)%Z) (positive ++ symptomatic)%list
            then 1%Qc else 0%Qc)].
Proof.
  intros Hm%eq_str_true Hrisk Hpos Hsym Hall.
  destruct (discounted_sign np_exp _ Hall) as [_ Hsign].
  rewrite <-Hsign, discounted_app.
  unfold Tracing.compute_risk, Tracing._get_hypothetical_contact_tracing_results.
  rewrite Hm, Hrisk, Hpos.
  change (Tracing.eq_str (Tracing.VStr "digital") "transformer") with false.
  change (Tracing.in_strs (Tracing.VStr "digital") Tracing.known_models)
    with true.
  change (Tracing.in_strs (Tracing.VStr "digital") ["manual"; "digital"])
    with true.
  change (Tracing.eq_str (Tracing.VStr "digital") "manual") with false.
  cbn [negb].
  destruct (Tracing.truthy (Tracing.propagate_symptoms self)).
  - by rewrite Hsym.
  - by injection Hsym as <-.
Qed.

Lemma compute_risk_digital_is_binary_witness :
  Tracing.compute_risk two_positive_contacts no_symptomatic_contacts
    no_intervention_risk human_conf_half exp_one
    (Tracing.Build (Tracing.VStr "digital") Tracing.BinaryTracing
       (Tracing.VInt 1) Tracing.VNone Tracing.VNone true
       (Tracing.VTuple [Tracing.VNone]) (Tracing.VInt 1) 0 true
       (Tracing.VInt 1) None)
    () () ()
  = inr [Tracing.VFloat 1%Qc].
Proof.
  apply (compute_risk_digital_is_binary two_positive_contacts
           no_symptomatic_contacts no_intervention_risk human_conf_half exp_one
           _ () () () [(1, 2)%Z] []).
  - reflexivity.
  - reflexivity.
  - reflexivity.
  - reflexivity.
  - intros o c Hin. apply list_elem_of_singleton in Hin. injection Hin as -> ->.
    split; [lia|]. reflexivity.
Defined.
